(** * OpenClaw bridge: a shallow embedding of [plugins/openclaw/bridge.py]
      and [plugins/core/job_schema.py]

    The bridge is a single Python object whose coroutines mutate a handful
    of dictionaries.  It is embedded as a state-and-exception monad over a
    record holding those dictionaries, the [VMConnection] objects they
    point to, and the part of the environment the code talks to (the UTC
    clock, the WebSockets, the tasks handed to the event loop).

    Every coroutine is embedded as it runs when nothing else is scheduled
    between its first and its last statement. *)

From Stdlib Require Import ZArith SpecFloat.
From stdpp Require Import gmap strings list fin_maps.

Local Open Scope string_scope.
Local Open Scope Z_scope.
Local Open Scope list_scope.

(** ** Python values the code relies on *)

(** Truth value of an [Optional[str]]: [None] and the empty string are
    falsy. *)
Definition truthy (o : option string) : bool :=
  match o with
  | None => false
  | Some s => negb (String.eqb s "")
  end.

(** A [dict] with string keys.  Python dictionaries iterate in insertion
    order and the bridge relies on it ([for ... in self.jobs.items()]), so
    the keys are kept in a list: assigning to a present key updates it in
    place, assigning to a new key appends it. *)
Section PyDict.
Context {V : Type}.

Fixpoint dict_get (k : string) (d : list (string * V)) : option V :=
  match d with
  | [] => None
  | (k', v) :: d' => if String.eqb k k' then Some v else dict_get k d'
  end.

Definition dict_in (k : string) (d : list (string * V)) : bool :=
  match dict_get k d with Some _ => true | None => false end.

Fixpoint dict_set (k : string) (v : V) (d : list (string * V)) : list (string * V) :=
  match d with
  | [] => [(k, v)]
  | (k', v') :: d' =>
      if String.eqb k k' then (k, v) :: d' else (k', v') :: dict_set k v d'
  end.

Fixpoint dict_del (k : string) (d : list (string * V)) : list (string * V) :=
  match d with
  | [] => []
  | (k', v') :: d' =>
      if String.eqb k k' then dict_del k d' else (k', v') :: dict_del k d'
  end.

Definition dict_keys (d : list (string * V)) : list string := d.*1.
End PyDict.

(** ** IEEE 754 binary64, the Python [float] *)

Definition prec64 : Z := 53.
Definition emax64 : Z := 1024.

Definition float := spec_float.

(** [float(n)] for an integer [n]; exact below [2^53]. *)
Definition float_of_Z (n : Z) : float := binary_normalize prec64 emax64 n 0 false.

Definition float_zero : float := S754_zero false.

Definition float_is_zero (x : float) : bool :=
  match x with S754_zero _ => true | _ => false end.

(** [a / b] on two [int]s.  Python raises [ZeroDivisionError] when [b] is
    zero ([None] here); otherwise the quotient is the correctly rounded
    one, which for operands below [2^53] is the binary64 division of the
    two converted operands. *)
Definition int_truediv (a b : Z) : option float :=
  if Z.eqb b 0 then None
  else Some (SFdiv prec64 emax64 (float_of_Z a) (float_of_Z b)).

Definition float_mul_int (x : float) (n : Z) : float :=
  SFmul prec64 emax64 x (float_of_Z n).

(** ** job_schema.py *)

Inductive JobStatus :=
| PENDING | QUEUED | VM_BOOTING | RUNNING | PAUSED
| COMPLETED | FAILED | CANCELLED | TIMEOUT.

Global Instance JobStatus_eq_dec : EqDecision JobStatus.
Proof. solve_decision. Defined.

(** Times are [datetime] values, counted in microseconds (the resolution
    of [datetime] and [timedelta]). *)
Definition datetime := Z.

Record JobStep := mkJobStep {
  step_index : Z;
  step_description : string;
  step_status : string;   (* pending, running, completed, failed, skipped *)
}.

Record Job := mkJob {
  job_id : string;
  job_user_id : Z;
  job_task_prompt : string;
  job_vm_id : option string;
  job_policy_profile : string;
  job_status : JobStatus;
  job_steps : list JobStep;
  job_current_step : Z;
  job_result : option string;
  job_artifacts : list string;
  job_error_message : option string;
  job_error_code : option string;
  job_started_at : option datetime;
  job_completed_at : option datetime;
  job_max_runtime_minutes : Z;
}.

(** [Job.is_active] *)
Definition is_active (j : Job) : bool :=
  match job_status j with
  | QUEUED | VM_BOOTING | RUNNING | PAUSED => true
  | _ => false
  end.

(** The four states the specification calls terminal. *)
Definition is_terminal (st : JobStatus) : bool :=
  match st with
  | COMPLETED | FAILED | CANCELLED | TIMEOUT => true
  | _ => false
  end.

(** [Job.duration_seconds], in microseconds; [None] before the job has
    started. *)
Definition duration_seconds (now : datetime) (j : Job) : option Z :=
  match job_started_at j with
  | Some t0 =>
      let end_time := match job_completed_at j with Some t => t | None => now end in
      Some (end_time - t0)
  | None => None
  end.

(** [sum(1 for step in steps if step.status == "completed")] *)
Fixpoint sum_completed (steps : list JobStep) : Z :=
  match steps with
  | [] => 0
  | st :: rest =>
      (if String.eqb (step_status st) "completed" then 1 else 0) + sum_completed rest
  end.

(** [Job.progress_percentage].  The result is [None] when the Python
    property raises. *)
Definition progress_percentage (j : Job) : option float :=
  match job_steps j with
  | [] => Some float_zero
  | _ :: _ =>
      let completed := sum_completed (job_steps j) in
      match int_truediv completed (Z.of_nat (length (job_steps j))) with
      | Some q => Some (float_mul_int q 100)
      | None => None
      end
  end.

(** ** events.py *)

Inductive EventType :=
| JOB_QUEUED | JOB_STARTED | JOB_COMPLETED | JOB_CANCELLED | JOB_FAILED
| EV_VM_BOOTING | VM_READY | VM_ERROR | VM_SHUTDOWN
| TASK_STARTED | TASK_STEP_STARTED | TASK_STEP_COMPLETED | TASK_STEP_FAILED
| LOG | STDOUT | STDERR
| SCREENSHOT_CAPTURED | VIDEO_FRAME
| TOOL_CALLED | TOOL_COMPLETED | TOOL_ERROR
| NEEDS_APPROVAL | APPROVAL_GRANTED | APPROVAL_DENIED
| NEEDS_CONTEXT | CONTEXT_PROVIDED.

Global Instance EventType_eq_dec : EqDecision EventType.
Proof. solve_decision. Defined.

(** JSON values that occur in payloads.  A duration is the [float] of
    [timedelta.total_seconds()], kept as its microsecond count. *)
Inductive Value :=
| VNone
| VStr (s : string)
| VBool (b : bool)
| VInt (n : Z)
| VTime (t : datetime)
| VDuration (d : option Z)
| VStrs (l : list string).

Definition Payload := list (string * Value).

Definition VOptStr (o : option string) : Value :=
  match o with Some s => VStr s | None => VNone end.

Record Event := mkEvent {
  ev_type : EventType;
  ev_job_id : string;
  ev_timestamp : datetime;
  ev_payload : Payload;
}.

(** ** bridge.py: objects *)

(** A [WebSocket] is known by its object identity. *)
Definition WebSocket := nat.

(** Address of a [VMConnection] object. *)
Definition Addr := nat.

Record VMConnection := mkVMConnection {
  instance_id : string;
  websocket : WebSocket;
  bridge_token : string;
  user_id : Z;
  connected_at : datetime;
  last_ping : datetime;
  status : string;                      (* "online", "busy", "offline" *)
  current_task_id : option string;
}.

(** Frames the bridge writes: to a worker, or to a subscribed client. *)
Inductive Frame :=
| FPing
| FConnected (inst : string) (timestamp : datetime)
| FTaskStart (id prompt policy : string) (max_runtime : Z) (steps : list JobStep)
| FTaskCancel (task_id reason : string)
| FApprovalResponse (request_id : string) (approved : bool) (reason : option string)
| FContextResponse (request_id response : string) (attachments : list string)
| FEvent (e : Event).

(** The [result] and [error] objects of [task_complete] / [task_failed]. *)
Record ResultDict := mkResultDict {
  res_result : option string;
  res_artifacts : option (list string);
}.

Record ErrorDict := mkErrorDict {
  err_message : option string;
  err_code : option string;
}.

(** Frames a worker writes, by their [type] field.  A field read with
    [message.get] is [None] when the worker left it out; [event] is [None]
    when the [event] object does not validate as an [Event]. *)
Inductive VMMessage :=
| MsgPong
| MsgEvent (event : option Event)
| MsgTaskComplete (task_id : option string) (result : option ResultDict)
| MsgTaskFailed (task_id : option string) (error : option ErrorDict)
| MsgNeedsApproval (request_id job : option string) (payload : Payload)
| MsgNeedsContext (job : option string) (payload : Payload)
| MsgOther (msg_type : option string).

(** What the bridge does to the outside, oldest first.  Callbacks are
    foreign code; a call is recorded and assumed not to touch the bridge. *)
Inductive Action :=
| Accepted (ws : WebSocket)
| Sent (ws : WebSocket) (f : Frame)
| Closed (ws : WebSocket)
| Called (callback : nat).

(** Coroutines handed to [asyncio.create_task]. *)
Inductive Task :=
| HandleVMMessages (conn : Addr)
| PersistEvent (e : Event)
| TryStartJob (job : string).

(** The [OpenClawBridge] object, the [VMConnection] objects it refers to,
    and its environment.  [connections] holds addresses into [heap]: a
    message loop keeps its [VMConnection] after the registry dropped it. *)
Record Bridge := mkBridge {
  heap : gmap Addr VMConnection;
  connections : list (string * Addr);
  jobs : list (string * Job);
  job_queues : gmap string (list string);
  event_subscribers : gmap string (gset WebSocket);
  instance_tasks : gmap string string;
  event_callbacks : list (EventType * list nat);
  approval_callbacks : list nat;
  context_callbacks : list nat;
  clock : datetime;                (* what [datetime.utcnow()] returns *)
  closed : gset WebSocket;         (* sockets on which a send raises *)
  trace : list Action;
  tasks : list Task;
}.

Definition empty_bridge (now : datetime) : Bridge :=
  mkBridge ∅ [] [] ∅ ∅ ∅ [] [] [] now ∅ [] [].

Definition set_heap (f : gmap Addr VMConnection → gmap Addr VMConnection) (s : Bridge) : Bridge :=
  mkBridge (f (heap s)) (connections s) (jobs s) (job_queues s) (event_subscribers s)
    (instance_tasks s) (event_callbacks s) (approval_callbacks s) (context_callbacks s)
    (clock s) (closed s) (trace s) (tasks s).

Definition set_connections (f : list (string * Addr) → list (string * Addr)) (s : Bridge) : Bridge :=
  mkBridge (heap s) (f (connections s)) (jobs s) (job_queues s) (event_subscribers s)
    (instance_tasks s) (event_callbacks s) (approval_callbacks s) (context_callbacks s)
    (clock s) (closed s) (trace s) (tasks s).

Definition set_jobs (f : list (string * Job) → list (string * Job)) (s : Bridge) : Bridge :=
  mkBridge (heap s) (connections s) (f (jobs s)) (job_queues s) (event_subscribers s)
    (instance_tasks s) (event_callbacks s) (approval_callbacks s) (context_callbacks s)
    (clock s) (closed s) (trace s) (tasks s).

Definition set_job_queues (f : gmap string (list string) → gmap string (list string)) (s : Bridge) : Bridge :=
  mkBridge (heap s) (connections s) (jobs s) (f (job_queues s)) (event_subscribers s)
    (instance_tasks s) (event_callbacks s) (approval_callbacks s) (context_callbacks s)
    (clock s) (closed s) (trace s) (tasks s).

Definition set_event_subscribers
    (f : gmap string (gset WebSocket) → gmap string (gset WebSocket)) (s : Bridge) : Bridge :=
  mkBridge (heap s) (connections s) (jobs s) (job_queues s) (f (event_subscribers s))
    (instance_tasks s) (event_callbacks s) (approval_callbacks s) (context_callbacks s)
    (clock s) (closed s) (trace s) (tasks s).

Definition set_instance_tasks (f : gmap string string → gmap string string) (s : Bridge) : Bridge :=
  mkBridge (heap s) (connections s) (jobs s) (job_queues s) (event_subscribers s)
    (f (instance_tasks s)) (event_callbacks s) (approval_callbacks s) (context_callbacks s)
    (clock s) (closed s) (trace s) (tasks s).

Definition set_closed (f : gset WebSocket → gset WebSocket) (s : Bridge) : Bridge :=
  mkBridge (heap s) (connections s) (jobs s) (job_queues s) (event_subscribers s)
    (instance_tasks s) (event_callbacks s) (approval_callbacks s) (context_callbacks s)
    (clock s) (f (closed s)) (trace s) (tasks s).

Definition set_clock (f : datetime → datetime) (s : Bridge) : Bridge :=
  mkBridge (heap s) (connections s) (jobs s) (job_queues s) (event_subscribers s)
    (instance_tasks s) (event_callbacks s) (approval_callbacks s) (context_callbacks s)
    (f (clock s)) (closed s) (trace s) (tasks s).

Definition set_trace (f : list Action → list Action) (s : Bridge) : Bridge :=
  mkBridge (heap s) (connections s) (jobs s) (job_queues s) (event_subscribers s)
    (instance_tasks s) (event_callbacks s) (approval_callbacks s) (context_callbacks s)
    (clock s) (closed s) (f (trace s)) (tasks s).

Definition set_tasks (f : list Task → list Task) (s : Bridge) : Bridge :=
  mkBridge (heap s) (connections s) (jobs s) (job_queues s) (event_subscribers s)
    (instance_tasks s) (event_callbacks s) (approval_callbacks s) (context_callbacks s)
    (clock s) (closed s) (trace s) (f (tasks s)).

Definition log (a : Action) : Bridge → Bridge := set_trace (λ t, t ++ [a])%list.

Definition add_task (t : Task) : Bridge → Bridge := set_tasks (λ l, l ++ [t])%list.

Arguments set_heap f s /.
Arguments set_connections f s /.
Arguments set_jobs f s /.
Arguments set_job_queues f s /.
Arguments set_event_subscribers f s /.
Arguments set_instance_tasks f s /.
Arguments set_closed f s /.
Arguments set_clock f s /.
Arguments set_trace f s /.
Arguments set_tasks f s /.
Arguments log a s /.
Arguments add_task t s /.

(** ** The monad of bridge coroutines: state, and Python exceptions *)

Inductive Exn := Exception (msg : string).

Inductive Res (A : Type) :=
| Ok (a : A)
| Raise (e : Exn).
Arguments Ok {A} a.
Arguments Raise {A} e.

Definition M (A : Type) : Type := Bridge → Res A * Bridge.

Definition ret {A} (a : A) : M A := λ s, (Ok a, s).

Definition bind {A B} (m : M A) (k : A → M B) : M B :=
  λ s, match m s with
       | (Ok a, s') => k a s'
       | (Raise e, s') => (Raise e, s')
       end.

Definition raise {A} (e : Exn) : M A := λ s, (Raise e, s).

(** [try: m  except Exception: h] *)
Definition try_except {A} (m : M A) (h : Exn → M A) : M A :=
  λ s, match m s with
       | (Ok a, s') => (Ok a, s')
       | (Raise e, s') => h e s'
       end.

Definition gets {A} (f : Bridge → A) : M A := λ s, (Ok (f s), s).
Definition modify (f : Bridge → Bridge) : M unit := λ s, (Ok tt, f s).

Definition when (b : bool) (m : M unit) : M unit := if b then m else ret tt.

(** [for x in l: body x] *)
Fixpoint for_each {A} (l : list A) (body : A → M unit) : M unit :=
  match l with
  | [] => ret tt
  | x :: l' => bind (body x) (λ _, for_each l' body)
  end.

Declare Scope bridge_scope.
Delimit Scope bridge_scope with bridge.
Notation "'let*' x := m 'in' k" := (bind m (λ x, k))
  (at level 10, x name, m at level 100, k at level 200) : bridge_scope.
Notation "m >> k" := (bind m (λ _, k))
  (at level 100, k at level 200, right associativity) : bridge_scope.
Local Open Scope bridge_scope.

Definition run {A} (m : M A) (s : Bridge) : Bridge := snd (m s).
Definition outcome {A} (m : M A) (s : Bridge) : Res A := fst (m s).

Arguments ret {A} a s /.
Arguments bind {A B} m k s /.
Arguments raise {A} e s /.
Arguments try_except {A} m h s /.
Arguments gets {A} f s /.
Arguments modify f s /.
Arguments when b m /.
Arguments run {A} m s /.
Arguments outcome {A} m s /.

(** ** Mutating objects held in the dictionaries *)

Fixpoint dict_alter {V} (f : V → V) (k : string) (d : list (string * V)) : list (string * V) :=
  match d with
  | [] => []
  | (k', v) :: d' =>
      if String.eqb k k' then (k', f v) :: d' else (k', v) :: dict_alter f k d'
  end.

Definition with_status (st : JobStatus) (j : Job) : Job :=
  mkJob (job_id j) (job_user_id j) (job_task_prompt j) (job_vm_id j) (job_policy_profile j)
    st (job_steps j) (job_current_step j) (job_result j) (job_artifacts j)
    (job_error_message j) (job_error_code j) (job_started_at j) (job_completed_at j)
    (job_max_runtime_minutes j).

Definition with_vm_id (v : option string) (j : Job) : Job :=
  mkJob (job_id j) (job_user_id j) (job_task_prompt j) v (job_policy_profile j)
    (job_status j) (job_steps j) (job_current_step j) (job_result j) (job_artifacts j)
    (job_error_message j) (job_error_code j) (job_started_at j) (job_completed_at j)
    (job_max_runtime_minutes j).

Definition with_result (r : option string) (j : Job) : Job :=
  mkJob (job_id j) (job_user_id j) (job_task_prompt j) (job_vm_id j) (job_policy_profile j)
    (job_status j) (job_steps j) (job_current_step j) r (job_artifacts j)
    (job_error_message j) (job_error_code j) (job_started_at j) (job_completed_at j)
    (job_max_runtime_minutes j).

Definition with_artifacts (l : list string) (j : Job) : Job :=
  mkJob (job_id j) (job_user_id j) (job_task_prompt j) (job_vm_id j) (job_policy_profile j)
    (job_status j) (job_steps j) (job_current_step j) (job_result j) l
    (job_error_message j) (job_error_code j) (job_started_at j) (job_completed_at j)
    (job_max_runtime_minutes j).

Definition with_error_message (m : option string) (j : Job) : Job :=
  mkJob (job_id j) (job_user_id j) (job_task_prompt j) (job_vm_id j) (job_policy_profile j)
    (job_status j) (job_steps j) (job_current_step j) (job_result j) (job_artifacts j)
    m (job_error_code j) (job_started_at j) (job_completed_at j)
    (job_max_runtime_minutes j).

Definition with_error_code (c : option string) (j : Job) : Job :=
  mkJob (job_id j) (job_user_id j) (job_task_prompt j) (job_vm_id j) (job_policy_profile j)
    (job_status j) (job_steps j) (job_current_step j) (job_result j) (job_artifacts j)
    (job_error_message j) c (job_started_at j) (job_completed_at j)
    (job_max_runtime_minutes j).

Definition with_started_at (t : option datetime) (j : Job) : Job :=
  mkJob (job_id j) (job_user_id j) (job_task_prompt j) (job_vm_id j) (job_policy_profile j)
    (job_status j) (job_steps j) (job_current_step j) (job_result j) (job_artifacts j)
    (job_error_message j) (job_error_code j) t (job_completed_at j)
    (job_max_runtime_minutes j).

Definition with_completed_at (t : option datetime) (j : Job) : Job :=
  mkJob (job_id j) (job_user_id j) (job_task_prompt j) (job_vm_id j) (job_policy_profile j)
    (job_status j) (job_steps j) (job_current_step j) (job_result j) (job_artifacts j)
    (job_error_message j) (job_error_code j) (job_started_at j) t
    (job_max_runtime_minutes j).

Definition with_last_ping (t : datetime) (c : VMConnection) : VMConnection :=
  mkVMConnection (instance_id c) (websocket c) (bridge_token c) (user_id c)
    (connected_at c) t (status c) (current_task_id c).

Definition with_conn_status (st : string) (c : VMConnection) : VMConnection :=
  mkVMConnection (instance_id c) (websocket c) (bridge_token c) (user_id c)
    (connected_at c) (last_ping c) st (current_task_id c).

Definition with_current_task_id (t : option string) (c : VMConnection) : VMConnection :=
  mkVMConnection (instance_id c) (websocket c) (bridge_token c) (user_id c)
    (connected_at c) (last_ping c) (status c) t.

(** [job.field = v] for the job object stored under [k]. *)
Definition update_job (k : string) (f : Job → Job) : M unit :=
  modify (set_jobs (dict_alter f k)).

(** [connection.field = v] for the object at address [a]. *)
Definition update_conn (a : Addr) (f : VMConnection → VMConnection) : M unit :=
  modify (set_heap (alter f a)).

Arguments update_job k f s /.
Arguments update_conn a f s /.

(** Reading through a reference to a [VMConnection]. *)
Definition deref (a : Addr) : M VMConnection :=
  λ s, match heap s !! a with
       | Some c => (Ok c, s)
       | None => (Raise (Exception "no object at this address"), s)
       end.

(** [VMConnection(...)]: a new object. *)
Definition alloc (c : VMConnection) : M Addr :=
  λ s, let a := fresh (dom (heap s)) in (Ok a, set_heap (<[a := c]>) s).

(** ** The environment *)

Definition utcnow : M datetime := gets clock.
Arguments utcnow s /.

(** The sockets [accept] has been called on, read off the trace. *)
Definition accepted (ws : WebSocket) (s : Bridge) : bool :=
  existsb (λ a, match a with
                | Accepted ws' => bool_decide (ws' = ws)
                | _ => false
                end) (trace s).

(** [websocket.accept()]: raises [RuntimeError] on a socket that was
    accepted before, and on one that is closed. *)
Definition ws_accept (ws : WebSocket) : M unit :=
  λ s, if accepted ws s || bool_decide (ws ∈ closed s)
       then (Raise (Exception "RuntimeError"), s)
       else (Ok tt, log (Accepted ws) s).

(** What [json.dumps] encodes.  An event frame carries [event.dict()], in
    which [timestamp] is still a [datetime] object; the other frames are
    made of strings, numbers, booleans and [None]. *)
Definition json_serializable (f : Frame) : bool :=
  match f with
  | FEvent _ => false
  | _ => true
  end.

(** [websocket.send_json(f)]: [json.dumps] comes first and raises
    [TypeError] on a frame it cannot encode; then the write raises on a
    closed socket. *)
Definition send_json (ws : WebSocket) (f : Frame) : M unit :=
  λ s, if json_serializable f
       then if decide (ws ∈ closed s)
            then (Raise (Exception "send on a closed socket"), s)
            else (Ok tt, log (Sent ws f) s)
       else (Raise (Exception "TypeError"), s).

(** [websocket.close()]: raises on a socket that is closed already. *)
Definition ws_close (ws : WebSocket) : M unit :=
  λ s, if decide (ws ∈ closed s)
       then (Raise (Exception "close on a closed socket"), s)
       else (Ok tt, log (Closed ws) (set_closed (λ c, {[ws]} ∪ c) s)).

(** ** class VMConnection *)

(** [VMConnection.send]: logs and re-raises. *)
Definition send (a : Addr) (f : Frame) : M unit :=
  let* c := deref a in
  try_except (send_json (websocket c) f) (λ e, raise e).

Definition send_event (a : Addr) (e : Event) : M unit := send a (FEvent e).

(** [VMConnection.ping] *)
Definition ping (a : Addr) : M unit :=
  let* c := deref a in
  try_except
    (send_json (websocket c) FPing >>
     let* now := utcnow in
     update_conn a (with_last_ping now))
    (λ _, update_conn a (with_conn_status "offline")).

(** [VMConnection.is_alive], with [now] the value of [datetime.utcnow()].
    [total_seconds() < 60] compares a binary64 with 60; the quotient of a
    microsecond count by [10^6] is below 60 exactly when the count is
    below [60 * 10^6]. *)
Definition HEARTBEAT_TIMEOUT : Z := 60 * 1000000.

Definition is_alive (c : VMConnection) (now : datetime) : bool :=
  if negb (String.eqb (status c) "online") then false
  else (now - last_ping c) <? HEARTBEAT_TIMEOUT.

(** ** class OpenClawBridge *)

(** *** Event subscriptions *)

(** [subscribe_to_job] *)
Definition subscribe_to_job (job : string) (ws : WebSocket) : M unit :=
  let* subs := gets event_subscribers in
  when (bool_decide (subs !! job = None))
    (modify (set_event_subscribers (<[job := ∅]>))) >>
  modify (set_event_subscribers (alter (λ wss, wss ∪ {[ws]}) job)).

(** [unsubscribe_from_job] *)
Definition unsubscribe_from_job (job : string) (ws : WebSocket) : M unit :=
  let* subs := gets event_subscribers in
  when (bool_decide (is_Some (subs !! job)))
    (modify (set_event_subscribers (alter (λ wss, wss ∖ {[ws]}) job)) >>
     let* subs' := gets event_subscribers in
     when (bool_decide (subs' !! job = Some ∅))
       (modify (set_event_subscribers (delete job)))).

(** The [for websocket in ...: try: send_json  except: append] loop of
    [_broadcast_event]; [dead] is [dead_subscribers] so far. *)
Fixpoint broadcast_loop (wss : list WebSocket) (message : Frame) (dead : list WebSocket)
    : M (list WebSocket) :=
  match wss with
  | [] => ret dead
  | ws :: rest =>
      let* dead' :=
        try_except (send_json ws message >> ret dead) (λ _, ret (dead ++ [ws])%list) in
      broadcast_loop rest message dead'
  end.

(** [_broadcast_event].  A Python set has no defined iteration order; the
    order of [elements] stands for it. *)
Definition _broadcast_event (job : string) (event : Event) : M unit :=
  let* subs := gets event_subscribers in
  match subs !! job with
  | None => ret tt
  | Some wss =>
      let* dead_subscribers := broadcast_loop (elements wss) (FEvent event) [] in
      for_each dead_subscribers
        (λ ws, modify (set_event_subscribers (alter (λ x, x ∖ {[ws]}) job)))
  end.

(** [Event(type=..., job_id=..., payload=...)]: the timestamp defaults to
    [datetime.utcnow()]. *)
Definition create_event (ty : EventType) (job : string) (payload : Payload) : M Event :=
  let* ts := utcnow in
  ret (mkEvent ty job ts payload).
Arguments create_event ty job payload s /.

(** The job object stored under [k], for building a payload from it. *)
Definition the_job (k : string) : M Job :=
  λ s, match dict_get k (jobs s) with
       | Some j => (Ok j, s)
       | None => (Raise (Exception "KeyError"), s)
       end.

(** *** VM connection management *)

Definition VM_DISCONNECTED : string := "VM disconnected unexpectedly".

(** [disconnect_vm] *)
Definition disconnect_vm (inst : string) : M unit :=
  let* conns := gets connections in
  match dict_get inst conns with
  | None => ret tt
  | Some a =>
      let* connection := deref a in
      try_except (ws_close (websocket connection)) (λ _, ret tt) >>
      modify (set_connections (dict_del inst)) >>
      let* its := gets instance_tasks in
      match its !! inst with
      | None => ret tt
      | Some task_id =>
          (let* js := gets jobs in
           match dict_get task_id js with
           | None => ret tt
           | Some job =>
               when (is_active job)
                 (update_job task_id (with_status FAILED) >>
                  update_job task_id (with_error_message (Some VM_DISCONNECTED)) >>
                  let* now := utcnow in
                  update_job task_id (with_completed_at (Some now)) >>
                  let* job' := the_job task_id in
                  let* now' := utcnow in
                  let* ev := create_event JOB_FAILED task_id
                     [("error_message", VStr VM_DISCONNECTED);
                      ("duration_seconds", VDuration (duration_seconds now' job'))] in
                  _broadcast_event task_id ev)
           end) >>
          modify (set_instance_tasks (delete inst))
      end
  end.

(** [connect_vm] *)
Definition connect_vm (ws : WebSocket) (inst token : string) (uid : Z) : M Addr :=
  ws_accept ws >>
  let* conns := gets connections in
  when (dict_in inst conns) (disconnect_vm inst) >>
  let* now := utcnow in
  let* now' := utcnow in
  let* connection := alloc (mkVMConnection inst ws token uid now now' "online" None) in
  modify (set_connections (dict_set inst connection)) >>
  let* ts := utcnow in
  send connection (FConnected inst ts) >>
  modify (add_task (HandleVMMessages connection)) >>
  ret connection.

(** [stop] (the cancellation of the cleanup task aside) *)
Definition stop : M unit :=
  let* conns := gets connections in
  for_each conns
    (λ '(_, a), try_except (let* c := deref a in ws_close (websocket c)) (λ _, ret tt)) >>
  modify (set_connections (λ _, [])).

(** One round of [_cleanup_loop], after the sleep. *)
Definition cleanup_round : M unit :=
  try_except
    (let* conns := gets connections in
     let* h := gets heap in
     let* now := utcnow in
     let dead_connections :=
       omap (λ '(i, a), match h !! a with
                        | Some conn => if is_alive conn now then None else Some i
                        | None => None
                        end) conns in
     for_each dead_connections disconnect_vm)
    (λ _, ret tt).

(** *** Task management *)

(** The loop of [_find_available_instance]. *)
Fixpoint find_available (conns : list (string * Addr)) (s : Bridge) : option string :=
  match conns with
  | [] => None
  | (i, a) :: rest =>
      match heap s !! a with
      | Some connection =>
          if String.eqb (status connection) "online"
             && bool_decide (instance_tasks s !! i = None)
          then Some i
          else find_available rest s
      | None => find_available rest s
      end
  end.

Definition _find_available_instance : M (option string) :=
  λ s, (Ok (find_available (connections s) s), s).

Definition NO_VM : string := "No VM instances available".

(** [submit_job] *)
Definition submit_job (job : Job) (inst : option string) : M string :=
  let k := job_id job in
  modify (set_jobs (dict_set k job)) >>
  update_job k (with_status QUEUED) >>
  let* inst := (if truthy inst then ret inst else _find_available_instance) in
  if negb (truthy inst) then raise (Exception NO_VM)
  else
    update_job k (with_vm_id inst) >>
    modify (set_job_queues (<[k := [k]]>)) >>
    let* j := the_job k in
    let* ev := create_event JOB_QUEUED k
       [("task_prompt", VStr (job_task_prompt j));
        ("vm_id", VOptStr (job_vm_id j));
        ("policy_profile", VStr (job_policy_profile j));
        ("max_runtime_minutes", VInt (job_max_runtime_minutes j))] in
    _broadcast_event k ev >>
    modify (add_task (TryStartJob k)) >>
    ret k.

(** [_try_start_job] *)
Definition _try_start_job (k : string) : M unit :=
  let* js := gets jobs in
  match dict_get k js with
  | None => ret tt
  | Some job =>
      if negb (bool_decide (job_status job = QUEUED)) then ret tt
      else
        let* conns := gets connections in
        match (if truthy (job_vm_id job) then job_vm_id job else None) with
        | None => ret tt
        | Some vm =>
            match dict_get vm conns with
            | None => ret tt
            | Some connection =>
                update_job k (with_status RUNNING) >>
                let* now := utcnow in
                update_job k (with_started_at (Some now)) >>
                modify (set_instance_tasks (<[vm := k]>)) >>
                update_conn connection (with_current_task_id (Some k)) >>
                update_conn connection (with_conn_status "busy") >>
                send connection
                  (FTaskStart (job_id job) (job_task_prompt job) (job_policy_profile job)
                     (job_max_runtime_minutes job) (job_steps job)) >>
                let* ev := create_event JOB_STARTED k
                   [("vm_id", VStr vm);
                    ("started_at", VTime now);
                    ("estimated_duration_minutes", VInt (job_max_runtime_minutes job))] in
                _broadcast_event k ev
            end
        end
  end.

(** [cancel_job] *)
Definition cancel_job (k : string) (reason : string) : M bool :=
  let* js := gets jobs in
  match dict_get k js with
  | None => ret false
  | Some job =>
      if negb (is_active job) then ret false
      else
        let vm := if truthy (job_vm_id job) then job_vm_id job else None in
        let* conns := gets connections in
        match vm with
        | Some v =>
            match dict_get v conns with
            | Some connection => send connection (FTaskCancel k reason)
            | None => ret tt
            end
        | None => ret tt
        end >>
        update_job k (with_status CANCELLED) >>
        let* now := utcnow in
        update_job k (with_completed_at (Some now)) >>
        match vm with
        | Some v =>
            let* its := gets instance_tasks in
            when (bool_decide (is_Some (its !! v)))
              (modify (set_instance_tasks (delete v)) >>
               let* conns' := gets connections in
               match dict_get v conns' with
               | Some connection =>
                   update_conn connection (with_conn_status "online") >>
                   update_conn connection (with_current_task_id None)
               | None => ret tt
               end)
        | None => ret tt
        end >>
        let* job' := the_job k in
        let* now' := utcnow in
        let* ev := create_event JOB_CANCELLED k
           [("cancelled_by", VStr "user");
            ("reason", VStr reason);
            ("duration_seconds", VDuration (duration_seconds now' job'))] in
        _broadcast_event k ev >>
        ret true
  end.

(** [_handle_task_complete].  [task_id not in self.jobs] also covers a
    frame without [task_id]; [result.get] raises on a frame without
    [result], after the status was written. *)
Definition _handle_task_complete (connection : Addr) (task_id : option string)
    (result : option ResultDict) : M unit :=
  let* js := gets jobs in
  match task_id with
  | None => ret tt
  | Some k =>
      if negb (dict_in k js) then ret tt
      else
        update_job k (with_status COMPLETED) >>
        let* now := utcnow in
        update_job k (with_completed_at (Some now)) >>
        match result with
        | None => raise (Exception "AttributeError")
        | Some r =>
            update_job k (with_result (res_result r)) >>
            update_job k (with_artifacts (default [] (res_artifacts r))) >>
            let* c := deref connection in
            let* its := gets instance_tasks in
            when (bool_decide (is_Some (its !! instance_id c)))
              (modify (set_instance_tasks (delete (instance_id c)))) >>
            update_conn connection (with_conn_status "online") >>
            update_conn connection (with_current_task_id None) >>
            let* job := the_job k in
            let* now' := utcnow in
            let* ev := create_event JOB_COMPLETED k
               [("result", VOptStr (job_result job));
                ("artifacts", VStrs (job_artifacts job));
                ("duration_seconds", VDuration (duration_seconds now' job));
                ("steps_completed", VInt (job_current_step job));
                ("total_steps", VInt (Z.of_nat (length (job_steps job))))] in
            _broadcast_event k ev
        end
  end.

(** [_handle_task_failed] *)
Definition _handle_task_failed (connection : Addr) (task_id : option string)
    (error : option ErrorDict) : M unit :=
  let* js := gets jobs in
  match task_id with
  | None => ret tt
  | Some k =>
      if negb (dict_in k js) then ret tt
      else
        update_job k (with_status FAILED) >>
        let* now := utcnow in
        update_job k (with_completed_at (Some now)) >>
        match error with
        | None => raise (Exception "AttributeError")
        | Some e =>
            update_job k (with_error_message (err_message e)) >>
            update_job k (with_error_code (err_code e)) >>
            let* c := deref connection in
            let* its := gets instance_tasks in
            when (bool_decide (is_Some (its !! instance_id c)))
              (modify (set_instance_tasks (delete (instance_id c)))) >>
            update_conn connection (with_conn_status "online") >>
            update_conn connection (with_current_task_id None) >>
            let* job := the_job k in
            let* now' := utcnow in
            let* ev := create_event JOB_FAILED k
               [("error_message", VOptStr (job_error_message job));
                ("error_code", VOptStr (job_error_code job));
                ("duration_seconds", VDuration (duration_seconds now' job))] in
            _broadcast_event k ev
        end
  end.

(** Awaiting the callbacks of a list, each under its own [try]. *)
Definition call_all (callbacks : list nat) : M unit :=
  for_each callbacks (λ cb, modify (log (Called cb))).

(** [_handle_vm_event] *)
Definition _handle_vm_event (connection : Addr) (event : Event) : M unit :=
  _broadcast_event (ev_job_id event) event >>
  modify (add_task (PersistEvent event)) >>
  let* cbs := gets event_callbacks in
  match list_find (λ p, p.1 = ev_type event) cbs with
  | Some (_, (_, l)) => call_all l
  | None => ret tt
  end.

(** [_handle_approval_request]: building the event raises when the frame
    has no [job_id]. *)
Definition _handle_approval_request (connection : Addr) (request_id job : option string)
    (payload : Payload) : M unit :=
  match job with
  | None => raise (Exception "ValidationError")
  | Some k =>
      let* ev := create_event NEEDS_APPROVAL k payload in
      _broadcast_event k ev
  end >>
  let* cbs := gets approval_callbacks in
  call_all cbs.

(** [_handle_context_request] *)
Definition _handle_context_request (connection : Addr) (job : option string)
    (payload : Payload) : M unit :=
  match job with
  | None => raise (Exception "ValidationError")
  | Some k =>
      let* ev := create_event NEEDS_CONTEXT k payload in
      _broadcast_event k ev
  end >>
  let* cbs := gets context_callbacks in
  call_all cbs.

(** [_process_vm_message] *)
Definition _process_vm_message (connection : Addr) (message : VMMessage) : M unit :=
  match message with
  | MsgPong =>
      let* now := utcnow in
      update_conn connection (with_last_ping now)
  | MsgEvent event_data =>
      match event_data with
      | Some event => _handle_vm_event connection event
      | None => raise (Exception "ValidationError")
      end
  | MsgTaskComplete task_id result => _handle_task_complete connection task_id result
  | MsgTaskFailed task_id error => _handle_task_failed connection task_id error
  | MsgNeedsApproval request_id job payload =>
      _handle_approval_request connection request_id job payload
  | MsgNeedsContext job payload => _handle_context_request connection job payload
  | MsgOther _ => ret tt
  end.

(** One turn of the loop of [_handle_vm_messages]: the next frame, or
    [None] when [receive_json] raises [WebSocketDisconnect]. *)
Definition _handle_vm_messages (connection : Addr) (received : option VMMessage) : M unit :=
  match received with
  | Some message =>
      try_except (_process_vm_message connection message)
        (λ _, let* c := deref connection in disconnect_vm (instance_id c))
  | None => let* c := deref connection in disconnect_vm (instance_id c)
  end.

(** *** Approval gates and context requests *)

(** The [for job_id, job in self.jobs.items()] loop shared by the two
    [submit_*_response] coroutines; [frame] is the message for the worker
    and [ty], [payload] make the event for the subscribers. *)
Fixpoint respond_loop (js : list (string * Job)) (frame : Frame) (ty : EventType)
    (payload : Payload) : M bool :=
  match js with
  | [] => ret false
  | (k, job) :: rest =>
      let* conns := gets connections in
      match (if truthy (job_vm_id job) then job_vm_id job else None) with
      | Some vm =>
          match dict_get vm conns with
          | Some connection =>
              send connection frame >>
              let* ev := create_event ty k payload in
              _broadcast_event k ev >>
              ret true
          | None => respond_loop rest frame ty payload
          end
      | None => respond_loop rest frame ty payload
      end
  end.

(** [submit_approval_response] *)
Definition submit_approval_response (request_id : string) (approved : bool)
    (reason : option string) : M bool :=
  let* js := gets jobs in
  respond_loop js
    (FApprovalResponse request_id approved reason)
    (if approved then APPROVAL_GRANTED else APPROVAL_DENIED)
    [("request_id", VStr request_id); ("approved", VBool approved);
     ("reason", VOptStr reason)].

(** [submit_context_response]; [attachments or []] is taken by the caller. *)
Definition submit_context_response (request_id response : string)
    (attachments : list string) : M bool :=
  let* js := gets jobs in
  respond_loop js
    (FContextResponse request_id response attachments)
    CONTEXT_PROVIDED
    [("request_id", VStr request_id); ("response", VStr response);
     ("attachments", VStrs attachments)].

(** Time passing between two coroutines. *)
Definition advance_clock (now : datetime) : Bridge → Bridge := set_clock (λ _, now).
Arguments advance_clock now s /.

(** ** bridge.py: callback registration *)

Definition set_event_callbacks
    (f : list (EventType * list nat) → list (EventType * list nat)) (s : Bridge) : Bridge :=
  mkBridge (heap s) (connections s) (jobs s) (job_queues s) (event_subscribers s)
    (instance_tasks s) (f (event_callbacks s)) (approval_callbacks s) (context_callbacks s)
    (clock s) (closed s) (trace s) (tasks s).

Definition set_approval_callbacks (f : list nat → list nat) (s : Bridge) : Bridge :=
  mkBridge (heap s) (connections s) (jobs s) (job_queues s) (event_subscribers s)
    (instance_tasks s) (event_callbacks s) (f (approval_callbacks s)) (context_callbacks s)
    (clock s) (closed s) (trace s) (tasks s).

Definition set_context_callbacks (f : list nat → list nat) (s : Bridge) : Bridge :=
  mkBridge (heap s) (connections s) (jobs s) (job_queues s) (event_subscribers s)
    (instance_tasks s) (event_callbacks s) (approval_callbacks s) (f (context_callbacks s))
    (clock s) (closed s) (trace s) (tasks s).

Arguments set_event_callbacks f s /.
Arguments set_approval_callbacks f s /.
Arguments set_context_callbacks f s /.

(** [d.setdefault(ty, []).append(cb)] on the dictionary of event callbacks:
    a new key goes last, a present key keeps its place. *)
Fixpoint register_callback (ty : EventType) (cb : nat) (d : list (EventType * list nat))
    : list (EventType * list nat) :=
  match d with
  | [] => [(ty, [cb])]
  | (ty', l) :: d' =>
      if decide (ty' = ty) then (ty', l ++ [cb]) :: d'
      else (ty', l) :: register_callback ty cb d'
  end.

(** [on_event] *)
Definition on_event (ty : EventType) (callback : nat) : M unit :=
  modify (set_event_callbacks (register_callback ty callback)).

(** [on_approval] *)
Definition on_approval (callback : nat) : M unit :=
  modify (set_approval_callbacks (λ l, l ++ [callback])).

(** [on_context] *)
Definition on_context (callback : nat) : M unit :=
  modify (set_context_callbacks (λ l, l ++ [callback])).

(** ** routes.py: the task routes *)

(** What a route handler ends with: the body it returns, the
    [HTTPException] it raises, or an exception it lets through. *)
Inductive HTTPResult (A : Type) :=
| Returned (body : A)
| HTTPException (status_code : Z) (detail : string)
| Propagated (e : Exn).
Arguments Returned {A} body.
Arguments HTTPException {A} status_code detail.
Arguments Propagated {A} e.

Definition Route (A : Type) : Type := Bridge → HTTPResult A * Bridge.

Record CreateJobRequest := mkCreateJobRequest {
  req_task_prompt : string;
  req_vm_id : option string;
  req_policy_profile : string;
  req_max_runtime_minutes : Z;
}.

(** [str(e)] *)
Definition exn_str (e : Exn) : string := match e with Exception msg => msg end.

(** [create_task]; [new_id] is the [uuid4] drawn for the job.  The body is
    the job object as the bridge left it. *)
Definition create_task (new_id : string) (request : CreateJobRequest)
    (inst : option string) (uid : Z) : Route Job :=
  λ s,
    let job := mkJob new_id uid (req_task_prompt request) inst (req_policy_profile request)
                 PENDING [] 0 None [] None None None None
                 (req_max_runtime_minutes request) in
    match submit_job job inst s with
    | (Raise e, s') =>
        (HTTPException 500 (String.append "Failed to submit job: " (exn_str e)), s')
    | (Ok _, s') =>
        match dict_get new_id (jobs s') with
        | Some job' => (Returned job', s')
        | None => (Propagated (Exception "KeyError"), s')
        end
    end.

Record TaskView := mkTaskView {
  view_job : Job;
  view_duration_seconds : option Z;
  view_progress_percentage : float;
  view_is_active : bool;
}.

(** [get_task] *)
Definition get_task (task_id : string) : Route TaskView :=
  λ s,
    match dict_get task_id (jobs s) with
    | None => (HTTPException 404 "Task not found", s)
    | Some job =>
        match progress_percentage job with
        | Some p =>
            (Returned (mkTaskView job (duration_seconds (clock s) job) p (is_active job)), s)
        | None => (Propagated (Exception "ZeroDivisionError"), s)
        end
    end.

(** [cancel_task]; the body is [task_id] and [reason]. *)
Definition cancel_task (task_id reason : string) : Route (string * string) :=
  λ s,
    match dict_get task_id (jobs s) with
    | None => (HTTPException 404 "Task not found", s)
    | Some job =>
        if negb (is_active job) then (HTTPException 400 "Task is not active", s)
        else
          match cancel_job task_id reason s with
          | (Raise e, s') => (Propagated e, s')
          | (Ok success, s') =>
              if negb success then (HTTPException 500 "Failed to cancel task", s')
              else (Returned (task_id, reason), s')
          end
    end.

(** [approve_action]; the body is [request_id], [approved] and [reason]. *)
Definition approve_action (task_id request_id : string) (approved : bool)
    (reason : option string) : Route (string * bool * option string) :=
  λ s,
    match dict_get task_id (jobs s) with
    | None => (HTTPException 404 "Task not found", s)
    | Some _ =>
        match submit_approval_response request_id approved reason s with
        | (Raise e, s') => (Propagated e, s')
        | (Ok success, s') =>
            if negb success
            then (HTTPException 500 "Failed to submit approval response", s')
            else (Returned (request_id, approved, reason), s')
        end
    end.

(** [provide_context]; the body is [request_id]. *)
Definition provide_context (task_id request_id response : string)
    (attachments : option (list string)) : Route string :=
  λ s,
    match dict_get task_id (jobs s) with
    | None => (HTTPException 404 "Task not found", s)
    | Some _ =>
        match submit_context_response request_id response (default [] attachments) s with
        | (Raise e, s') => (Propagated e, s')
        | (Ok success, s') =>
            if negb success
            then (HTTPException 500 "Failed to submit context response", s')
            else (Returned request_id, s')
        end
    end.

(** [list_artifacts] *)
Definition list_artifacts (task_id : string) : Route (list string) :=
  λ s,
    match dict_get task_id (jobs s) with
    | None => (HTTPException 404 "Task not found", s)
    | Some job => (Returned (job_artifacts job), s)
    end.

(** * Notions used to state the properties *)

(** ** Derived job properties *)

(** The number of completed steps, as the specification words it. *)
Definition completed_steps (steps : list JobStep) : nat :=
  length (filter (λ st, step_status st = "completed") steps).

(** The percentage for [c] completed steps out of [n]. *)
Definition percentage_of (c n : nat) : float :=
  float_mul_int (SFdiv prec64 emax64 (float_of_Z (Z.of_nat c)) (float_of_Z (Z.of_nat n))) 100.

(** ** The subscriber registry *)

(** The registry after [subscribe_to_job]. *)
Definition subscribed (m : gmap string (gset WebSocket)) (job : string) (ws : WebSocket)
    : gmap string (gset WebSocket) :=
  <[job := default ∅ (m !! job) ∪ {[ws]}]> m.

(** The registry after [unsubscribe_from_job]. *)
Definition unsubscribed (m : gmap string (gset WebSocket)) (job : string) (ws : WebSocket)
    : gmap string (gset WebSocket) :=
  match m !! job with
  | None => m
  | Some wss => if decide (wss ∖ {[ws]} = ∅) then delete job m
                else <[job := wss ∖ {[ws]}]> m
  end.

(** A send of [f] on [ws] raises in state [s]. *)
Definition send_fails (s : Bridge) (ws : WebSocket) (f : Frame) : Prop :=
  ∃ e, outcome (send_json ws f) s = Raise e.

(** The bridge after [_broadcast_event]: no socket takes an event frame,
    so every subscriber of the job is discarded and nothing is written;
    the job keeps its key, with an empty set. *)
Definition broadcast_state (job : string) (event : Event) (s : Bridge) : Bridge :=
  match event_subscribers s !! job with
  | None => s
  | Some wss => set_event_subscribers (<[job := ∅]>) s
  end.

(** ** Cancellation *)

(** The worker a job is assigned to, when [job.vm_id] is truthy. *)
Definition assigned_vm (job : Job) : option string :=
  if truthy (job_vm_id job) then job_vm_id job else None.

(** [cancel_job], from its guard up to the [task_cancel] frame. *)
Definition cancel_notify (k reason : string) (job : Job) : M unit :=
  let* conns := gets connections in
  match assigned_vm job with
  | Some v =>
      match dict_get v conns with
      | Some connection => send connection (FTaskCancel k reason)
      | None => ret tt
      end
  | None => ret tt
  end.

(** [cancel_job], from [job.status = JobStatus.CANCELLED] on. *)
Definition cancel_finish (k reason : string) (job : Job) : M bool :=
  update_job k (with_status CANCELLED) >>
  let* now := utcnow in
  update_job k (with_completed_at (Some now)) >>
  match assigned_vm job with
  | Some v =>
      let* its := gets instance_tasks in
      when (bool_decide (is_Some (its !! v)))
        (modify (set_instance_tasks (delete v)) >>
         let* conns' := gets connections in
         match dict_get v conns' with
         | Some connection =>
             update_conn connection (with_conn_status "online") >>
             update_conn connection (with_current_task_id None)
         | None => ret tt
         end)
  | None => ret tt
  end >>
  let* job' := the_job k in
  let* now' := utcnow in
  let* ev := create_event JOB_CANCELLED k
     [("cancelled_by", VStr "user");
      ("reason", VStr reason);
      ("duration_seconds", VDuration (duration_seconds now' job'))] in
  _broadcast_event k ev >>
  ret true.

(** ** Answering requests *)

(** The job and the connection the loop of the two [submit_*_response]
    coroutines stops at: the first stored job whose worker is registered. *)
Fixpoint first_connected (js : list (string * Job)) (conns : list (string * Addr))
    : option (string * Addr) :=
  match js with
  | [] => None
  | (k, job) :: rest =>
      match assigned_vm job with
      | Some vm =>
          match dict_get vm conns with
          | Some a => Some (k, a)
          | None => first_connected rest conns
          end
      | None => first_connected rest conns
      end
  end.

(** ** Connecting and disconnecting workers *)

(** The job a disconnected worker was running, as [disconnect_vm] leaves it. *)
Definition failed_by_disconnect (now : datetime) (j : Job) : Job :=
  with_completed_at (Some now) (with_error_message (Some VM_DISCONNECTED) (with_status FAILED j)).

(** The jobs after [disconnect_vm inst]. *)
Definition jobs_after_disconnect (inst : string) (s : Bridge) : list (string * Job) :=
  match instance_tasks s !! inst with
  | Some t =>
      match dict_get t (jobs s) with
      | Some j =>
          if is_active j
          then dict_alter (with_completed_at (Some (clock s))) t
                 (dict_alter (with_error_message (Some VM_DISCONNECTED)) t
                    (dict_alter (with_status FAILED) t (jobs s)))
          else jobs s
      | None => jobs s
      end
  | None => jobs s
  end.

(** The second half of [connect_vm]: the new connection object, its entry
    in the registry, the welcome frame and the message loop. *)
Definition admit_vm (ws : WebSocket) (inst token : string) (uid : Z) : M Addr :=
  let* now := utcnow in
  let* now' := utcnow in
  let* connection := alloc (mkVMConnection inst ws token uid now now' "online" None) in
  modify (set_connections (dict_set inst connection)) >>
  let* ts := utcnow in
  send connection (FConnected inst ts) >>
  modify (add_task (HandleVMMessages connection)) >>
  ret connection.

(** ** Submitting a job *)

(** No connection of the registry is online and without a task. *)
Definition no_idle_worker (s : Bridge) : Prop :=
  ∀ i a c, (i, a) ∈ connections s → heap s !! a = Some c →
           ¬ (status c = "online" ∧ instance_tasks s !! i = None).

(** ** Reachable states *)

(** What the outside can ask of the bridge, one coroutine at a time; a
    route may have accepted a socket before it hands it to the bridge. *)
Inductive Call :=
| CAccept (ws : WebSocket)
| CConnect (ws : WebSocket) (inst token : string) (uid : Z)
| CDisconnect (inst : string)
| CReceive (conn : Addr) (received : option VMMessage)
| CSubmit (job : Job) (inst : option string)
| CTryStart (k : string)
| CCancel (k reason : string)
| CSubscribe (k : string) (ws : WebSocket)
| CUnsubscribe (k : string) (ws : WebSocket)
| CApprove (request_id : string) (approved : bool) (reason : option string)
| CContext (request_id response : string) (attachments : list string)
| CPing (conn : Addr)
| CCleanup
| CStop
| CTick (now : datetime)
| CDrop (ws : WebSocket).

Definition perform (c : Call) (s : Bridge) : Bridge :=
  match c with
  | CAccept ws => run (ws_accept ws) s
  | CConnect ws inst token uid => run (connect_vm ws inst token uid) s
  | CDisconnect inst => run (disconnect_vm inst) s
  | CReceive conn received => run (_handle_vm_messages conn received) s
  | CSubmit job inst => run (submit_job job inst) s
  | CTryStart k => run (_try_start_job k) s
  | CCancel k reason => run (cancel_job k reason) s
  | CSubscribe k ws => run (subscribe_to_job k ws) s
  | CUnsubscribe k ws => run (unsubscribe_from_job k ws) s
  | CApprove request_id approved reason =>
      run (submit_approval_response request_id approved reason) s
  | CContext request_id response attachments =>
      run (submit_context_response request_id response attachments) s
  | CPing conn => run (ping conn) s
  | CCleanup => run cleanup_round s
  | CStop => run stop s
  | CTick now => advance_clock now s
  | CDrop ws => set_closed (λ c, {[ws]} ∪ c) s
  end.

Inductive reachable : Bridge → Prop :=
| reachable_start now : reachable (empty_bridge now)
| reachable_call c s : reachable s → reachable (perform c s).

(** Every object of [h] is still in [h'], under the same [instance_id]. *)
Definition keeps_objects (h h' : gmap Addr VMConnection) : Prop :=
  ∀ a c, h !! a = Some c → ∃ c', h' !! a = Some c' ∧ instance_id c' = instance_id c.

(** Every entry of the registry points to an object of its [instance_id]. *)
Definition registry_sound (s : Bridge) : Prop :=
  ∀ i a, (i, a) ∈ connections s → ∃ c, heap s !! a = Some c ∧ instance_id c = i.

(** ** Concrete bridges *)

Definition job_with_steps (steps : list JobStep) : Job :=
  mkJob "j1" 1 "go to example.com" None "default" PENDING steps 0
    None [] None None None None 30.

Definition one_of_three : list JobStep :=
  [mkJobStep 0 "open" "completed"; mkJobStep 1 "click" "running";
   mkJobStep 2 "read" "pending"].

Definition busy_connection : VMConnection :=
  mkVMConnection "w1" 7%nat "T" 1 0 1000000 "busy" (Some "j1").

Definition registry_with (l : list (string * gset WebSocket)) : Bridge :=
  set_event_subscribers (λ _, list_to_map l) (empty_bridge 0).

(** Three subscribers of [j1], the second one gone. *)
Definition three_subscribers : Bridge :=
  set_closed (λ _, {[2%nat]})
    (set_event_subscribers (λ _, {["j1" := {[1%nat; 2%nat; 3%nat]}]}) (empty_bridge 0)).

Definition ev_log : Event := mkEvent LOG "j1" 0 [("message", VStr "hello")].

(** The scenarios of the specification: worker [w1] connects at time
    1000, job [j1] is submitted, started, and later cancelled; a second
    worker [w2] takes job [j2] and asks for an approval. *)
Definition job1 : Job :=
  mkJob "j1" 1 "go to example.com" None "default" PENDING [] 0 None [] None None None None 30.
Definition job2 : Job :=
  mkJob "j2" 1 "fill in the form" None "default" PENDING [] 0 None [] None None None None 30.

Definition connected_bridge : Bridge := run (connect_vm 7%nat "w1" "T" 1) (empty_bridge 1000).
Definition queued_bridge : Bridge := run (submit_job job1 None) connected_bridge.
Definition running_bridge : Bridge := run (_try_start_job "j1") queued_bridge.
Definition cancelled_bridge : Bridge :=
  run (cancel_job "j1" "user") (advance_clock 2000 running_bridge).
Definition done_frame : VMMessage :=
  MsgTaskComplete (Some "j1") (Some (mkResultDict (Some "done") (Some []))).
Definition failed_frame : VMMessage :=
  MsgTaskFailed (Some "j1") (Some (mkErrorDict (Some "boom") (Some "E1"))).

Definition two_workers_bridge : Bridge :=
  run (_try_start_job "j2")
    (run (submit_job job2 None)
       (run (connect_vm 8%nat "w2" "T" 1) running_bridge)).
Definition awaiting_approval_bridge : Bridge :=
  run (_process_vm_message 1%nat (MsgNeedsApproval (Some "r2") (Some "j2") [])) two_workers_bridge.

(** While [w1] runs [j1], job [j2] is submitted with [w1] as preferred
    worker and started; then a new socket connects as [w1]. *)
Definition two_on_w1 : Bridge :=
  run (_try_start_job "j2") (run (submit_job job2 (Some "w1")) running_bridge).
Definition reconnected_bridge : Bridge := run (connect_vm 9%nat "w1" "T" 1) two_on_w1.

(** The route has accepted socket 9 before it calls [connect_vm]. *)
Definition accepted_bridge : Bridge := run (ws_accept 9%nat) running_bridge.

(** The connection object of [w1] while it runs [j1]. *)
Definition w1_connection : VMConnection :=
  mkVMConnection "w1" 7%nat "T" 1 1000 1000 "busy" (Some "j1").

(** * Notions for the rest of the bridge and the routes *)

(** An entry of the registry whose connection object [is_alive] now. *)
Definition alive_entry (s : Bridge) (p : string * Addr) : bool :=
  match heap s !! p.2 with
  | Some conn => is_alive conn (clock s)
  | None => true
  end.

(** The loop of [stop]. *)
Definition close_all (conns : list (string * Addr)) : M unit :=
  for_each conns
    (λ '(_, a), try_except (let* c := deref a in ws_close (websocket c)) (λ _, ret tt)).

(** An entry of the registry that [_find_available_instance] accepts. *)
Definition idle_entry (s : Bridge) (p : string * Addr) : bool :=
  match heap s !! p.2 with
  | Some connection =>
      String.eqb (status connection) "online" && bool_decide (instance_tasks s !! p.1 = None)
  | None => false
  end.

(** The job as [_try_start_job] leaves it. *)
Definition started (now : datetime) (job : Job) : Job :=
  with_started_at (Some now) (with_status RUNNING job).

(** The connection as [_try_start_job] leaves it. *)
Definition occupied (k : string) (c : VMConnection) : VMConnection :=
  with_conn_status "busy" (with_current_task_id (Some k) c).

(** The connection as the handlers of [task_complete] / [task_failed] and
    [cancel_job] leave it. *)
Definition released (c : VMConnection) : VMConnection :=
  with_current_task_id None (with_conn_status "online" c).

(** The job as [_handle_task_complete] leaves it. *)
Definition completed_with (now : datetime) (r : ResultDict) (j : Job) : Job :=
  with_artifacts (default [] (res_artifacts r))
    (with_result (res_result r) (with_completed_at (Some now) (with_status COMPLETED j))).

(** The job as [_handle_task_failed] leaves it. *)
Definition failed_with (now : datetime) (e : ErrorDict) (j : Job) : Job :=
  with_error_code (err_code e)
    (with_error_message (err_message e) (with_completed_at (Some now) (with_status FAILED j))).

(** The callbacks registered for events of type [ty], in calling order. *)
Definition registered (ty : EventType) (d : list (EventType * list nat)) : list nat :=
  match list_find (λ p, p.1 = ty) d with
  | Some (_, (_, l)) => l
  | None => []
  end.

(** The statuses the bridge writes. *)
Definition bridge_status (st : JobStatus) : bool :=
  match st with
  | QUEUED | RUNNING | COMPLETED | FAILED | CANCELLED => true
  | _ => false
  end.

(** An entry of [jobs] as the bridge keeps it: filed under the job's own
    id, in a status the bridge writes, with [completed_at] once it is no
    longer active and [started_at] while it runs. *)
Definition job_wf (p : string * Job) : Prop :=
  job_id p.2 = p.1 ∧
  bridge_status (job_status p.2) = true ∧
  (is_active p.2 = false → is_Some (job_completed_at p.2)) ∧
  (job_status p.2 = RUNNING → is_Some (job_started_at p.2)).

Definition jobs_wf (s : Bridge) : Prop := Forall job_wf (jobs s).

(** The job as [cancel_job] leaves it. *)
Definition cancelled_at (now : datetime) (j : Job) : Job :=
  with_completed_at (Some now) (with_status CANCELLED j).

(** Every task the reverse index names is a stored job. *)
Definition index_wf (s : Bridge) : Prop :=
  ∀ i k, instance_tasks s !! i = Some k → is_Some (dict_get k (jobs s)).


(** Job [j1] as [submit_job] and then [_try_start_job] leave it. *)
Definition job1_queued : Job := with_vm_id (Some "w1") (with_status QUEUED job1).
Definition job1_running : Job := started 1000 job1_queued.

(** A [task_complete] frame without a [result]. *)
Definition no_result_frame : VMMessage := MsgTaskComplete (Some "j1") None.

(** The socket of [w1] has gone while it runs [j1]. *)
Definition dropped_bridge : Bridge := set_closed (λ c, {[7%nat]} ∪ c) running_bridge.

(** A minute and a half after [w1] connected. *)
Definition later_bridge : Bridge := advance_clock 90000000 running_bridge.

(** * Properties *)

(** ** Derived job properties *)

Lemma sum_completed_count (steps : list JobStep) :
  sum_completed steps = Z.of_nat (completed_steps steps).
Proof.
  unfold completed_steps.
  induction steps as [|st rest IH]; [reflexivity|].
  cbn [sum_completed]. rewrite IH, filter_cons.
  destruct (String.eqb_spec (step_status st) "completed") as [Heq|Hne].
  - rewrite decide_True by done. cbn [length]. lia.
  - rewrite decide_False by done. lia.
Qed.

Lemma int_truediv_nonzero (a b : Z) :
  b ≠ 0 → int_truediv a b = Some (SFdiv prec64 emax64 (float_of_Z a) (float_of_Z b)).
Proof.
  intros Hb. unfold int_truediv.
  destruct (Z.eqb_spec b 0); [contradiction|reflexivity].
Qed.

(** C10: [progress_percentage] never raises; on an empty plan it is [0.0]
    without dividing, and on a non-empty plan it is the number of
    completed steps divided by the number of steps, times 100. *)
Theorem progress_percentage_total (j : Job) :
  is_Some (progress_percentage j) ∧
  (job_steps j = [] → progress_percentage j = Some float_zero) ∧
  (job_steps j ≠ [] →
   progress_percentage j =
     Some (percentage_of (completed_steps (job_steps j)) (length (job_steps j)))).
Proof.
  assert (Hne : job_steps j ≠ [] →
    progress_percentage j =
      Some (percentage_of (completed_steps (job_steps j)) (length (job_steps j)))).
  { intros Hsteps. unfold progress_percentage, percentage_of.
    destruct (job_steps j) as [|st rest] eqn:E; [contradiction|].
    rewrite int_truediv_nonzero by (cbn [length]; lia).
    by rewrite sum_completed_count. }
  split; [|split]; [| |exact Hne].
  - destruct (decide (job_steps j = [])) as [E|E].
    + unfold progress_percentage. rewrite E. eauto.
    + rewrite Hne by exact E. eauto.
  - intros E. unfold progress_percentage. by rewrite E.
Qed.

(** One completed step out of three: 33.33333333333333, that is
    4691249611844266 * 2^-47. *)
Lemma progress_percentage_total_witness :
  progress_percentage (job_with_steps one_of_three)
    = Some (S754_finite false 4691249611844266 (-47))
  ∧ progress_percentage (job_with_steps []) = Some (S754_zero false).
Proof.
  split.
  - rewrite (proj2 (proj2 (progress_percentage_total (job_with_steps one_of_three))))
      by discriminate.
    vm_compute. reflexivity.
  - rewrite (proj1 (proj2 (progress_percentage_total (job_with_steps []))))
      by reflexivity.
    reflexivity.
Defined.

(** ** Liveness of a worker connection *)

Lemma is_alive_iff (c : VMConnection) (now : datetime) :
  is_alive c now = true ↔ status c = "online" ∧ now - last_ping c < HEARTBEAT_TIMEOUT.
Proof.
  unfold is_alive.
  destruct (String.eqb_spec (status c) "online") as [Heq|Hne]; cbn [negb].
  - rewrite Z.ltb_lt. tauto.
  - split; [discriminate|]. intros [? _]. contradiction.
Qed.

Lemma is_alive_busy (c : VMConnection) (now : datetime) :
  status c = "busy" → is_alive c now = false.
Proof. intros H. unfold is_alive. by rewrite H. Qed.

(** C3: [is_alive] is claimed to hold for a connection that is online or
    busy with a heartbeat younger than 60 s.  The code accepts the status
    [online] only: this busy connection, one second after its last
    heartbeat, is reported dead. *)
Theorem is_alive_busy_fresh :
  status busy_connection = "busy" ∧
  2000000 - last_ping busy_connection < HEARTBEAT_TIMEOUT ∧
  is_alive busy_connection 2000000 = false.
Proof. split; [reflexivity|]. split; [reflexivity|reflexivity]. Qed.

(** ** Running a coroutine by hand *)

(** Unfolds the monad and the field updates, and nothing of the maps. *)
Ltac mred :=
  cbn [bind ret gets modify when raise try_except run outcome utcnow
       update_job update_conn create_event log add_task advance_clock
       set_heap set_connections set_jobs set_job_queues set_event_subscribers
       set_instance_tasks set_closed set_clock set_trace set_tasks
       heap connections jobs job_queues event_subscribers instance_tasks
       event_callbacks approval_callbacks context_callbacks clock closed trace tasks
       json_serializable fst snd].

Ltac mred_in H :=
  cbn [bind ret gets modify when raise try_except run outcome utcnow
       update_job update_conn create_event log add_task advance_clock
       set_heap set_connections set_jobs set_job_queues set_event_subscribers
       set_instance_tasks set_closed set_clock set_trace set_tasks
       heap connections jobs job_queues event_subscribers instance_tasks
       event_callbacks approval_callbacks context_callbacks clock closed trace tasks
       json_serializable fst snd] in H.

(** ** The subscriber registry *)

Section Registry.
Implicit Types (m : gmap string (gset WebSocket)) (job : string) (ws : WebSocket).

Lemma alter_Some {A} (f : A → A) (d : gmap string A) (k : string) (x : A) :
  d !! k = Some x → alter f k d = <[k := f x]> d.
Proof.
  intros Hk. apply map_eq. intros i.
  destruct (decide (k = i)) as [->|Hne].
  - by rewrite lookup_alter_eq, lookup_insert_eq, Hk.
  - by rewrite lookup_alter_ne, lookup_insert_ne.
Qed.

Lemma subscribe_to_job_run job ws s :
  subscribe_to_job job ws s
    = (Ok tt, set_event_subscribers (λ m, subscribed m job ws) s).
Proof.
  unfold subscribe_to_job, subscribed.
  destruct s as [h cs js qs m its ec ac cc now cl tr ts]; mred.
  destruct (m !! job) as [wss|] eqn:E.
  - rewrite bool_decide_eq_false_2 by done. mred.
    by rewrite (alter_Some _ _ _ _ E).
  - rewrite bool_decide_eq_true_2 by done. mred.
    by rewrite alter_insert_eq.
Qed.

Lemma unsubscribe_from_job_run job ws s :
  unsubscribe_from_job job ws s
    = (Ok tt, set_event_subscribers (λ m, unsubscribed m job ws) s).
Proof.
  unfold unsubscribe_from_job, unsubscribed.
  destruct s as [h cs js qs m its ec ac cc now cl tr ts]; mred.
  destruct (m !! job) as [wss|] eqn:E.
  - rewrite bool_decide_eq_true_2 by eauto. mred.
    rewrite (alter_Some _ _ _ _ E), lookup_insert_eq.
    destruct (decide (wss ∖ {[ws]} = ∅)) as [He|Hne].
    + rewrite bool_decide_eq_true_2 by congruence. mred.
      by rewrite delete_insert_eq.
    + rewrite bool_decide_eq_false_2 by congruence. done.
  - rewrite bool_decide_eq_false_2 by (intros [? ?]; discriminate). done.
Qed.

Lemma subscribed_idem m job ws :
  subscribed (subscribed m job ws) job ws = subscribed m job ws.
Proof.
  unfold subscribed. rewrite lookup_insert_eq, insert_insert_eq. cbn [default from_option id].
  assert (Hs : ∀ X : gset WebSocket, X ∪ {[ws]} ∪ {[ws]} = X ∪ {[ws]}) by set_solver.
  by rewrite Hs.
Qed.

Lemma unsubscribed_idem m job ws :
  unsubscribed (unsubscribed m job ws) job ws = unsubscribed m job ws.
Proof.
  unfold unsubscribed.
  destruct (m !! job) as [wss|] eqn:E.
  - destruct (decide (wss ∖ {[ws]} = ∅)) as [He|Hne].
    + by rewrite lookup_delete_eq.
    + rewrite lookup_insert_eq.
      assert (Hs : wss ∖ {[ws]} ∖ {[ws]} = wss ∖ {[ws]}) by set_solver.
      rewrite Hs, decide_False by done.
      by rewrite insert_insert_eq.
  - by rewrite E.
Qed.

Lemma unsubscribed_subscribed m job ws :
  ws ∉ default ∅ (m !! job) → m !! job ≠ Some ∅ →
  unsubscribed (subscribed m job ws) job ws = m.
Proof.
  intros Hnot Hne. unfold unsubscribed, subscribed.
  rewrite lookup_insert_eq.
  destruct (m !! job) as [wss|] eqn:E; cbn in *.
  - assert (Hs : (wss ∪ {[ws]}) ∖ {[ws]} = wss) by set_solver.
    rewrite Hs, decide_False by congruence.
    rewrite insert_insert_eq. by apply insert_id.
  - rewrite decide_True by set_solver.
    rewrite delete_insert_eq. by apply delete_id.
Qed.
End Registry.

Lemma set_event_subscribers_twice f g s :
  set_event_subscribers f (set_event_subscribers g s) = set_event_subscribers (f ∘ g) s.
Proof. by destruct s. Qed.

Lemma set_event_subscribers_id f s :
  f (event_subscribers s) = event_subscribers s → set_event_subscribers f s = s.
Proof. intros H. destruct s. unfold set_event_subscribers. cbn in *. by rewrite H. Qed.

Lemma set_event_subscribers_ext f g s :
  f (event_subscribers s) = g (event_subscribers s) →
  set_event_subscribers f s = set_event_subscribers g s.
Proof. intros H. destruct s. unfold set_event_subscribers. cbn in *. by rewrite H. Qed.

(** C9, amended: when the channel is not yet subscribed to the job and the
    job is not registered with an empty set, [subscribe_to_job] followed by
    [unsubscribe_from_job] restores the whole bridge; and each of the two
    is idempotent in every state. *)
Theorem subscribe_unsubscribe (job : string) (ws : WebSocket) (s : Bridge) :
  (ws ∉ default ∅ (event_subscribers s !! job) →
   event_subscribers s !! job ≠ Some ∅ →
   run (unsubscribe_from_job job ws) (run (subscribe_to_job job ws) s) = s) ∧
  run (subscribe_to_job job ws) (run (subscribe_to_job job ws) s)
    = run (subscribe_to_job job ws) s ∧
  run (unsubscribe_from_job job ws) (run (unsubscribe_from_job job ws) s)
    = run (unsubscribe_from_job job ws) s.
Proof.
  unfold run.
  repeat (rewrite ?subscribe_to_job_run, ?unsubscribe_from_job_run; cbn [snd]).
  rewrite !set_event_subscribers_twice.
  split; [|split].
  - intros Hnot Hne. apply set_event_subscribers_id. cbn.
    by apply unsubscribed_subscribed.
  - apply set_event_subscribers_ext. cbn. apply subscribed_idem.
  - apply set_event_subscribers_ext. cbn. apply unsubscribed_idem.
Qed.

Lemma subscribe_unsubscribe_witness :
  run (unsubscribe_from_job "j1" 5%nat)
    (run (subscribe_to_job "j1" 5%nat) (registry_with [("j1", {[3%nat]})]))
  = registry_with [("j1", {[3%nat]})].
Proof.
  apply (proj1 (subscribe_unsubscribe "j1" 5%nat (registry_with [("j1", {[3%nat]})]))).
  - vm_compute. set_solver.
  - vm_compute. intros H. discriminate H.
Defined.

(** C9 as stated fails for a channel that is subscribed already: the
    round trip removes it. *)
Lemma subscribe_unsubscribe_counterexample :
  run (unsubscribe_from_job "j1" 5%nat)
    (run (subscribe_to_job "j1" 5%nat) (registry_with [("j1", {[5%nat]})]))
  ≠ registry_with [("j1", {[5%nat]})].
Proof.
  intros H. apply (f_equal (λ s, event_subscribers s !! "j1")) in H.
  vm_compute in H. discriminate H.
Qed.

(** ** Broadcasting to subscribers *)

Lemma send_fails_iff s ws f :
  send_fails s ws f ↔ json_serializable f = false ∨ ws ∈ closed s.
Proof.
  unfold send_fails, outcome, send_json.
  destruct (json_serializable f); [|split; eauto].
  destruct (decide (ws ∈ closed s)); cbn [fst].
  - split; eauto.
  - split; [intros [e He]; discriminate|intros [?|?]; [discriminate|contradiction]].
Qed.

Lemma send_json_unserializable ws f s :
  json_serializable f = false → send_json ws f s = (Raise (Exception "TypeError"), s).
Proof. intros H. unfold send_json. by rewrite H. Qed.

Lemma send_json_closed ws f s :
  json_serializable f = true → ws ∈ closed s →
  send_json ws f s = (Raise (Exception "send on a closed socket"), s).
Proof. intros Hf H. unfold send_json. by rewrite Hf, decide_True. Qed.

Lemma send_json_open ws f s :
  json_serializable f = true → ws ∉ closed s →
  send_json ws f s = (Ok tt, log (Sent ws f) s).
Proof. intros Hf H. unfold send_json. by rewrite Hf, decide_False. Qed.

Lemma set_trace_app l1 l2 s :
  set_trace (λ t, t ++ l2) (set_trace (λ t, t ++ l1) s) = set_trace (λ t, t ++ (l1 ++ l2)) s.
Proof. destruct s. unfold set_trace. cbn. by rewrite <- app_assoc. Qed.

Lemma set_trace_nil s : set_trace (λ t, t ++ []) s = s.
Proof. destruct s. unfold set_trace. cbn. by rewrite app_nil_r. Qed.

(** The loop of a broadcast: every send of a frame that cannot be encoded
    raises, and every socket ends in [dead_subscribers]. *)
Lemma broadcast_loop_run wss message dead s :
  json_serializable message = false →
  broadcast_loop wss message dead s = (Ok (dead ++ wss), s).
Proof.
  intros Hf. revert dead. induction wss as [|ws rest IH]; intros dead.
  - cbn [broadcast_loop ret]. by rewrite app_nil_r.
  - cbn [broadcast_loop bind try_except]. rewrite send_json_unserializable by done.
    cbn [ret]. rewrite IH. by rewrite <- app_assoc.
Qed.

Lemma discard_all_run job (dead : list WebSocket) s :
  for_each dead
    (λ ws, modify (set_event_subscribers (alter (λ x, x ∖ {[ws]}) job))) s
  = (Ok tt, set_event_subscribers (alter (λ x, x ∖ list_to_set dead) job) s).
Proof.
  revert s. induction dead as [|ws rest IH]; intros s.
  - cbn. unfold ret. f_equal. symmetry. apply set_event_subscribers_id.
    apply alter_id. intros x _. set_solver.
  - cbn [for_each]. unfold bind, modify at 1. rewrite IH. f_equal.
    rewrite set_event_subscribers_twice. apply set_event_subscribers_ext.
    unfold compose. rewrite alter_alter_eq. apply alter_ext.
    intros x _. cbn. set_solver.
Qed.

Lemma _broadcast_event_run job event s :
  _broadcast_event job event s = (Ok tt, broadcast_state job event s).
Proof.
  unfold _broadcast_event, broadcast_state, bind at 1, gets.
  destruct (event_subscribers s !! job) as [wss|] eqn:E; [|done].
  unfold bind. rewrite broadcast_loop_run by done. rewrite discard_all_run. f_equal.
  apply set_event_subscribers_ext.
  destruct s as [h cs js qs m its ec ac cc now cl tr ts]; cbn in *.
  rewrite (alter_Some _ _ _ _ E). f_equal.
  apply set_eq. intros ws.
  rewrite elem_of_difference, elem_of_list_to_set, elem_of_elements.
  split; [tauto|]. by intros ?%not_elem_of_empty.
Qed.


Example broadcast_three :
  outcome (_broadcast_event "j1" ev_log) three_subscribers = Ok tt ∧
  trace (run (_broadcast_event "j1" ev_log) three_subscribers) = [] ∧
  event_subscribers (run (_broadcast_event "j1" ev_log) three_subscribers) !! "j1"
    = Some ∅.
Proof. vm_compute. done. Qed.

(** ** Dictionaries *)

Section PyDictFacts.
Context {V : Type}.
Implicit Types (d : list (string * V)) (k : string).

Lemma dict_get_alter_eq (f : V → V) k d :
  dict_get k (dict_alter f k d) = f <$> dict_get k d.
Proof.
  induction d as [|[k' v] d IH]; [done|]. cbn.
  destruct (String.eqb k k') eqn:E; cbn; rewrite E; [done|exact IH].
Qed.

Lemma dict_get_alter_ne (f : V → V) k k' d :
  k ≠ k' → dict_get k' (dict_alter f k d) = dict_get k' d.
Proof.
  intros Hne. induction d as [|[k0 v] d IH]; [done|]. cbn.
  destruct (String.eqb_spec k k0) as [->|Hk]; cbn.
  - destruct (String.eqb_spec k' k0) as [->|Hk']; [congruence|done].
  - destruct (String.eqb k' k0); [done|exact IH].
Qed.

Lemma dict_keys_alter (f : V → V) k d : dict_keys (dict_alter f k d) = dict_keys d.
Proof.
  unfold dict_keys. induction d as [|[k' v] d IH]; [done|]. cbn.
  destruct (String.eqb k k'); cbn; [done|by rewrite IH].
Qed.

Lemma dict_get_set_eq k (v : V) d : dict_get k (dict_set k v d) = Some v.
Proof.
  induction d as [|[k' v'] d IH]; cbn.
  - by rewrite String.eqb_refl.
  - destruct (String.eqb k k') eqn:E; cbn; [by rewrite String.eqb_refl|by rewrite E].
Qed.

Lemma dict_get_set_ne k k' (v : V) d :
  k ≠ k' → dict_get k' (dict_set k v d) = dict_get k' d.
Proof.
  intros Hne. induction d as [|[k0 v0] d IH]; cbn.
  - destruct (String.eqb_spec k' k) as [->|]; [congruence|done].
  - destruct (String.eqb_spec k k0) as [->|Hk]; cbn.
    + destruct (String.eqb_spec k' k0) as [->|]; [congruence|done].
    + destruct (String.eqb k' k0); [done|exact IH].
Qed.

Lemma dict_get_del_eq k d : dict_get k (dict_del k d) = None.
Proof.
  induction d as [|[k' v] d IH]; [done|]. cbn.
  destruct (String.eqb k k') eqn:E; cbn; [exact IH|by rewrite E].
Qed.

Lemma dict_get_del_ne k k' d : k ≠ k' → dict_get k' (dict_del k d) = dict_get k' d.
Proof.
  intros Hne. induction d as [|[k0 v] d IH]; [done|]. cbn.
  destruct (String.eqb_spec k k0) as [->|Hk]; cbn.
  - destruct (String.eqb_spec k' k0) as [->|]; [congruence|exact IH].
  - destruct (String.eqb k' k0); [done|exact IH].
Qed.

Lemma dict_get_None_keys k d : dict_get k d = None ↔ k ∉ dict_keys d.
Proof.
  unfold dict_keys. induction d as [|[k' v] d IH]; cbn.
  - split; [intros _; apply not_elem_of_nil|done].
  - rewrite not_elem_of_cons.
    destruct (String.eqb_spec k k') as [->|Hk].
    + split; [discriminate|]. intros [? _]. congruence.
    + rewrite IH. tauto.
Qed.

Lemma dict_keys_del k d : dict_keys (dict_del k d) = filter (λ k', k' ≠ k) (dict_keys d).
Proof.
  unfold dict_keys. induction d as [|[k' v] d IH]; [done|].
  cbn [dict_del]. rewrite fmap_cons, filter_cons. cbn [fst].
  destruct (String.eqb_spec k k') as [->|Hk].
  - by rewrite decide_False by (intros H; by apply H).
  - rewrite decide_True by congruence. rewrite fmap_cons. cbn [fst]. by rewrite IH.
Qed.

Lemma dict_keys_set_new k (v : V) d :
  dict_get k d = None → dict_set k v d = d ++ [(k, v)].
Proof.
  induction d as [|[k' v'] d IH]; [done|]. cbn.
  destruct (String.eqb k k'); [discriminate|].
  intros H. by rewrite IH.
Qed.

Lemma dict_keys_set_old k (v : V) d :
  is_Some (dict_get k d) → dict_keys (dict_set k v d) = dict_keys d.
Proof.
  unfold dict_keys. induction d as [|[k' v'] d IH]; cbn.
  - intros [? ?]. discriminate.
  - destruct (String.eqb_spec k k') as [->|Hk]; cbn; [done|].
    intros H. by rewrite IH.
Qed.
End PyDictFacts.

(** ** What a broadcast leaves alone *)

Lemma broadcast_state_frame job event s :
  heap (broadcast_state job event s) = heap s ∧
  connections (broadcast_state job event s) = connections s ∧
  jobs (broadcast_state job event s) = jobs s ∧
  job_queues (broadcast_state job event s) = job_queues s ∧
  instance_tasks (broadcast_state job event s) = instance_tasks s ∧
  clock (broadcast_state job event s) = clock s ∧
  closed (broadcast_state job event s) = closed s ∧
  tasks (broadcast_state job event s) = tasks s.
Proof.
  unfold broadcast_state.
  destruct (event_subscribers s !! job); [|done].
  by destruct s.
Qed.

Lemma send_run (a : Addr) (f : Frame) (s : Bridge) :
  send a f s =
    match heap s !! a with
    | None => (Raise (Exception "no object at this address"), s)
    | Some c =>
        if json_serializable f
        then if decide (websocket c ∈ closed s)
             then (Raise (Exception "send on a closed socket"), s)
             else (Ok tt, log (Sent (websocket c) f) s)
        else (Raise (Exception "TypeError"), s)
    end.
Proof.
  unfold send, bind, deref, try_except, raise, send_json.
  destruct (heap s !! a) as [c|]; [|done].
  destruct (json_serializable f); [|done].
  by destruct (decide (websocket c ∈ closed s)).
Qed.

Lemma the_job_run k j s : dict_get k (jobs s) = Some j → the_job k s = (Ok j, s).
Proof. intros H. unfold the_job. by rewrite H. Qed.

(** ** Cancellation *)

Lemma cancel_job_eq k r s :
  cancel_job k r s =
    match dict_get k (jobs s) with
    | None => (Ok false, s)
    | Some job =>
        if is_active job
        then (cancel_notify k r job >> cancel_finish k r job) s
        else (Ok false, s)
    end.
Proof.
  unfold cancel_job, cancel_notify, cancel_finish, assigned_vm.
  unfold bind at 1, gets at 1.
  destruct (dict_get k (jobs s)) as [job|]; [|done].
  destruct (is_active job); [|done]. cbn [negb].
  unfold bind, gets.
  destruct (truthy (job_vm_id job)); [|reflexivity].
  destruct (job_vm_id job) as [v|]; [|reflexivity].
  destruct (dict_get v (connections s)); reflexivity.
Qed.

Lemma cancel_notify_run k job s :
  (∃ e, ∀ r, cancel_notify k r job s = (Raise e, s)) ∨
  (∀ r, ∃ tr, cancel_notify k r job s = (Ok tt, set_trace (λ t, t ++ tr) s)).
Proof.
  unfold cancel_notify. cbn [bind gets].
  destruct (assigned_vm job) as [v|];
    [|right; intros r; exists []; by rewrite set_trace_nil].
  destruct (dict_get v (connections s)) as [a|];
    [|right; intros r; exists []; by rewrite set_trace_nil].
  setoid_rewrite send_run.
  destruct (heap s !! a) as [c|]; [|left; eauto].
  destruct (decide (websocket c ∈ closed s)); [left; eauto|].
  right. intros r. eexists. reflexivity.
Qed.

Lemma broadcast_state_jobs job event s : jobs (broadcast_state job event s) = jobs s.
Proof. apply broadcast_state_frame. Qed.

Lemma cancel_finish_run k r job job0 s :
  dict_get k (jobs s) = Some job0 →
  ∃ s' j', cancel_finish k r job s = (Ok true, s') ∧
           dict_get k (jobs s') = Some j' ∧ job_status j' = CANCELLED.
Proof.
  intros Hk. unfold cancel_finish. mred.
  assert (Hfin : ∀ s1, jobs s1 =
      dict_alter (with_completed_at (Some (clock s))) k
        (dict_alter (with_status CANCELLED) k (jobs s)) →
    ∃ s' j',
      (let* job' := the_job k in
       let* now' := utcnow in
       let* ev := create_event JOB_CANCELLED k
          [("cancelled_by", VStr "user"); ("reason", VStr r);
           ("duration_seconds", VDuration (duration_seconds now' job'))] in
       _broadcast_event k ev >> ret true) s1 = (Ok true, s') ∧
      dict_get k (jobs s') = Some j' ∧ job_status j' = CANCELLED).
  { intros s1 Hjobs.
    assert (Hget : dict_get k (jobs s1)
              = Some (with_completed_at (Some (clock s)) (with_status CANCELLED job0))).
    { by rewrite Hjobs, !dict_get_alter_eq, Hk. }
    mred. rewrite (the_job_run _ _ _ Hget). mred.
    rewrite _broadcast_event_run. mred.
    eexists _, _. split; [reflexivity|].
    rewrite broadcast_state_jobs. split; [exact Hget|reflexivity]. }
  mred_in Hfin.
  destruct (assigned_vm job) as [v|]; mred.
  - destruct (bool_decide (is_Some (instance_tasks s !! v))); mred.
    + destruct (dict_get v (connections s)); mred; by apply Hfin.
    + by apply Hfin.
  - by apply Hfin.
Qed.

Lemma cancel_job_cases (k : string) (s : Bridge) :
  (∀ r, cancel_job k r s = (Ok false, s)) ∨
  (∃ e, ∀ r, cancel_job k r s = (Raise e, s)) ∨
  (∀ r, outcome (cancel_job k r) s = Ok true ∧
     ∃ j', dict_get k (jobs (run (cancel_job k r) s)) = Some j' ∧ job_status j' = CANCELLED).
Proof.
  destruct (dict_get k (jobs s)) as [job|] eqn:Ej;
    [|left; intros r; by rewrite cancel_job_eq, Ej].
  destruct (is_active job) eqn:Ea; [|left; intros r; by rewrite cancel_job_eq, Ej, Ea].
  right.
  destruct (cancel_notify_run k job s) as [[e He]|Hsent].
  - left. exists e. intros r. rewrite cancel_job_eq, Ej, Ea. mred. by rewrite He.
  - right. intros r. destruct (Hsent r) as [tr Htr].
    unfold outcome, run. rewrite cancel_job_eq, Ej, Ea. mred. rewrite Htr.
    destruct (cancel_finish_run k r job job (set_trace (λ t, t ++ tr) s))
      as (s' & j' & Hrun & Hget & Hst); [exact Ej|].
    rewrite Hrun. cbn [fst snd]. eauto.
Qed.

Lemma cancel_job_inactive k r s :
  (∀ j, dict_get k (jobs s) = Some j → is_active j = false) →
  cancel_job k r s = (Ok false, s).
Proof.
  intros H. rewrite cancel_job_eq.
  destruct (dict_get k (jobs s)) as [job|]; [|done].
  by rewrite (H job).
Qed.

Lemma cancel_finish_exact k r job job0 s :
  dict_get k (jobs s) = Some job0 →
  ∃ s', cancel_finish k r job s = (Ok true, s') ∧
        dict_get k (jobs s') = Some (cancelled_at (clock s) job0).
Proof.
  intros Hk. unfold cancel_finish. mred.
  assert (Hfin : ∀ s1, jobs s1 =
      dict_alter (with_completed_at (Some (clock s))) k
        (dict_alter (with_status CANCELLED) k (jobs s)) →
    ∃ s',
      (let* job' := the_job k in
       let* now' := utcnow in
       let* ev := create_event JOB_CANCELLED k
          [("cancelled_by", VStr "user"); ("reason", VStr r);
           ("duration_seconds", VDuration (duration_seconds now' job'))] in
       _broadcast_event k ev >> ret true) s1 = (Ok true, s') ∧
      dict_get k (jobs s') = Some (cancelled_at (clock s) job0)).
  { intros s1 Hjobs.
    assert (Hget : dict_get k (jobs s1) = Some (cancelled_at (clock s) job0)).
    { by rewrite Hjobs, !dict_get_alter_eq, Hk. }
    mred. rewrite (the_job_run _ _ _ Hget). mred.
    rewrite _broadcast_event_run. mred.
    eexists. split; [reflexivity|].
    rewrite broadcast_state_jobs. exact Hget. }
  mred_in Hfin.
  destruct (assigned_vm job) as [v|]; mred.
  - destruct (bool_decide (is_Some (instance_tasks s !! v))); mred.
    + destruct (dict_get v (connections s)); mred; by apply Hfin.
    + by apply Hfin.
  - by apply Hfin.
Qed.

(** C8, amended: two [cancel_job] calls in a row leave the whole bridge
    as one call leaves it.  When the first call returns, it returns
    [True] exactly for a stored, active job, which is then [cancelled]
    with [completed_at] the time of the call; it returns [False] without
    changing anything otherwise; and either way the second call finds no
    active job, returns [False] and changes nothing.  When the first
    call raises (the job is active and its [task_cancel] frame could not
    be sent), nothing has changed, the job is still active, and the
    second call raises the same exception. *)
Theorem cancel_job_idempotent (k r1 r2 : string) (s : Bridge) :
  let s1 := run (cancel_job k r1) s in
  run (cancel_job k r2) s1 = s1 ∧
  match outcome (cancel_job k r1) s with
  | Ok b =>
      (b = true ↔ ∃ j, dict_get k (jobs s) = Some j ∧ is_active j = true) ∧
      (∀ j, dict_get k (jobs s) = Some j → is_active j = true →
            dict_get k (jobs s1) = Some (cancelled_at (clock s) j)) ∧
      (b = false → s1 = s) ∧
      (∀ j', dict_get k (jobs s1) = Some j' → is_active j' = false) ∧
      cancel_job k r2 s1 = (Ok false, s1)
  | Raise e =>
      s1 = s ∧
      (∃ j, dict_get k (jobs s) = Some j ∧ is_active j = true) ∧
      cancel_job k r2 s1 = (Raise e, s1)
  end.
Proof.
  cbn zeta.
  assert (Hquiet : (∀ j, dict_get k (jobs s) = Some j → is_active j = false) →
    run (cancel_job k r2) (run (cancel_job k r1) s) = run (cancel_job k r1) s ∧
    match outcome (cancel_job k r1) s with
    | Ok b =>
        (b = true ↔ ∃ j, dict_get k (jobs s) = Some j ∧ is_active j = true) ∧
        (∀ j, dict_get k (jobs s) = Some j → is_active j = true →
              dict_get k (jobs (run (cancel_job k r1) s)) = Some (cancelled_at (clock s) j)) ∧
        (b = false → run (cancel_job k r1) s = s) ∧
        (∀ j', dict_get k (jobs (run (cancel_job k r1) s)) = Some j' → is_active j' = false) ∧
        cancel_job k r2 (run (cancel_job k r1) s) = (Ok false, run (cancel_job k r1) s)
    | Raise e =>
        run (cancel_job k r1) s = s ∧
        (∃ j, dict_get k (jobs s) = Some j ∧ is_active j = true) ∧
        cancel_job k r2 (run (cancel_job k r1) s) = (Raise e, run (cancel_job k r1) s)
    end).
  { intros Hno. unfold run, outcome.
    rewrite !(cancel_job_inactive k r1 s Hno). cbn [fst snd].
    rewrite !(cancel_job_inactive k r2 s Hno). cbn [fst snd].
    split; [done|]. split.
    { split; [discriminate|]. intros (j & Hj & Ha). rewrite (Hno j Hj) in Ha. discriminate. }
    split. { intros j Hj Ha. rewrite (Hno j Hj) in Ha. discriminate. }
    split; [done|]. split; [exact Hno|done]. }
  destruct (dict_get k (jobs s)) as [job|] eqn:Ej; [|by apply Hquiet].
  destruct (is_active job) eqn:Ea;
    [clear Hquiet|apply Hquiet; intros j [= <-]; exact Ea].
  destruct (cancel_notify_run k job s) as [[e He]|Hsent].
  - assert (Hrun : ∀ r, cancel_job k r s = (Raise e, s)).
    { intros r. rewrite cancel_job_eq, Ej, Ea. mred. by rewrite He. }
    unfold run, outcome. rewrite !(Hrun r1). cbn [fst snd]. rewrite !(Hrun r2). cbn [fst snd].
    split; [done|]. split; [done|]. split; [eauto|done].
  - destruct (Hsent r1) as [tr Htr].
    destruct (cancel_finish_exact k r1 job job (set_trace (λ t, t ++ tr) s))
      as (s' & Hfin & Hget); [exact Ej|].
    mred_in Hget.
    assert (Hrun : cancel_job k r1 s = (Ok true, s')).
    { rewrite cancel_job_eq, Ej, Ea. mred. rewrite Htr. exact Hfin. }
    assert (Hover : ∀ j', dict_get k (jobs s') = Some j' → is_active j' = false).
    { intros j' Hj'. rewrite Hget in Hj'. by injection Hj' as <-. }
    unfold run, outcome. rewrite !Hrun. cbn [fst snd].
    rewrite !(cancel_job_inactive k r2 s' Hover). cbn [snd].
    split; [done|]. split; [split; eauto|].
    split. { intros j [= <-] _. exact Hget. }
    split; [discriminate|]. split; [exact Hover|done].
Qed.

Lemma cancel_job_idempotent_witness :
  outcome (cancel_job "j1" "user") running_bridge = Ok true ∧
  cancel_job "j1" "again" (run (cancel_job "j1" "user") running_bridge)
    = (Ok false, run (cancel_job "j1" "user") running_bridge).
Proof.
  pose proof (cancel_job_idempotent "j1" "user" "again" running_bridge) as [_ H].
  assert (E : outcome (cancel_job "j1" "user") running_bridge = Ok true)
    by (vm_compute; reflexivity).
  rewrite E in H. destruct H as (_ & _ & _ & _ & H). split; [exact E|exact H].
Defined.

(** C8 as stated fails: when the socket of the job's worker is closed, the
    first call raises before it changes anything, so the second call does
    not find a job that is no longer active: [j1] is still running, and
    the second call raises too instead of returning [False]. *)
Lemma cancel_job_idempotent_counterexample :
  let s1 := run (cancel_job "j1" "user") dropped_bridge in
  outcome (cancel_job "j1" "user") dropped_bridge
    = Raise (Exception "send on a closed socket") ∧
  is_active <$> dict_get "j1" (jobs s1) = Some true ∧
  outcome (cancel_job "j1" "user") s1 = Raise (Exception "send on a closed socket") ∧
  ¬ (∀ j, dict_get "j1" (jobs s1) = Some j → is_active j = false).
Proof.
  cbn zeta. split; [vm_compute; reflexivity|]. split; [vm_compute; reflexivity|].
  split; [vm_compute; reflexivity|].
  intros H. specialize (H job1_running). discriminate H. vm_compute. reflexivity.
Qed.

(** ** Connecting and disconnecting workers *)

Lemma ws_close_run ws s :
  ∃ tr, try_except (ws_close ws) (λ _, ret tt) s
        = (Ok tt, set_closed (λ c, {[ws]} ∪ c) (set_trace (λ t, t ++ tr) s)) .
Proof.
  unfold ws_close. cbn [try_except].
  destruct (decide (ws ∈ closed s)) as [Hin|Hout].
  - exists []. cbn [ret]. f_equal. destruct s; cbn in *. rewrite app_nil_r.
    f_equal. set_solver.
  - exists [Closed ws]. by destruct s.
Qed.

Lemma disconnect_vm_absent inst s :
  dict_get inst (connections s) = None → disconnect_vm inst s = (Ok tt, s).
Proof. intros H. unfold disconnect_vm. mred. by rewrite H. Qed.

Lemma disconnect_vm_run inst s a c :
  dict_get inst (connections s) = Some a →
  heap s !! a = Some c →
  ∃ s', disconnect_vm inst s = (Ok tt, s') ∧
        connections s' = dict_del inst (connections s) ∧
        heap s' = heap s ∧
        closed s' = {[websocket c]} ∪ closed s ∧
        instance_tasks s' = delete inst (instance_tasks s) ∧
        jobs s' = jobs_after_disconnect inst s ∧
        clock s' = clock s ∧ tasks s' = tasks s.
Proof.
  intros Hc Hh. unfold disconnect_vm, jobs_after_disconnect. mred. rewrite Hc.
  unfold deref. mred. rewrite Hh.
  destruct (ws_close_run (websocket c) s) as [tr Htr]. mred_in Htr.
  mred. rewrite Htr. mred.
  destruct (instance_tasks s !! inst) as [t|] eqn:Et; mred.
  - destruct (dict_get t (jobs s)) as [j|] eqn:Ej; mred.
    + destruct (is_active j) eqn:Ea; mred.
      * erewrite the_job_run by (mred; rewrite !dict_get_alter_eq, Ej; reflexivity).
        mred. rewrite _broadcast_event_run. mred.
        eexists. split; [reflexivity|].
        destruct (broadcast_state_frame t
          {| ev_type := JOB_FAILED; ev_job_id := t; ev_timestamp := clock s;
             ev_payload := [("error_message", VStr VM_DISCONNECTED);
               ("duration_seconds", VDuration (duration_seconds (clock s)
                  (with_completed_at (Some (clock s))
                    (with_error_message (Some VM_DISCONNECTED) (with_status FAILED j)))))] |}
          {| heap := heap s; connections := dict_del inst (connections s);
             jobs := dict_alter (with_completed_at (Some (clock s))) t
                 (dict_alter (with_error_message (Some VM_DISCONNECTED)) t
                    (dict_alter (with_status FAILED) t (jobs s)));
             job_queues := job_queues s; event_subscribers := event_subscribers s;
             instance_tasks := instance_tasks s; event_callbacks := event_callbacks s;
             approval_callbacks := approval_callbacks s;
             context_callbacks := context_callbacks s; clock := clock s;
             closed := {[websocket c]} ∪ closed s; trace := trace s ++ tr;
             tasks := tasks s |})
          as (H1 & H2 & H3 & H4 & H5 & H6 & H7 & H8).
        mred_in H1. mred_in H2. mred_in H3. mred_in H5. mred_in H6. mred_in H7. mred_in H8.
        by rewrite H1, H2, H3, H5, H6, H7, H8.
      * eexists. split; [reflexivity|]. mred. done.
    + eexists. split; [reflexivity|]. mred. done.
  - eexists. split; [reflexivity|]. mred.
    rewrite delete_id by done. done.
Qed.

Lemma NoDup_dict_del {V} k (d : list (string * V)) :
  NoDup (dict_keys d) → NoDup (dict_keys (dict_del k d)).
Proof. intros H. rewrite dict_keys_del. by apply NoDup_filter. Qed.

Lemma NoDup_dict_set {V} k (v : V) (d : list (string * V)) :
  NoDup (dict_keys d) → NoDup (dict_keys (dict_set k v d)).
Proof.
  intros H. destruct (dict_get k d) as [v'|] eqn:E.
  - rewrite dict_keys_set_old by eauto. done.
  - rewrite dict_keys_set_new by done. unfold dict_keys. rewrite fmap_app. cbn.
    apply NoDup_app. split; [done|]. split; [|apply NoDup_singleton].
    intros x Hx ->%list_elem_of_singleton. by apply dict_get_None_keys in E.
Qed.

Lemma dict_in_Some {V} k (d : list (string * V)) :
  dict_in k d = true ↔ is_Some (dict_get k d).
Proof.
  unfold dict_in. destruct (dict_get k d); split; eauto; try discriminate.
  intros [? ?]. discriminate.
Qed.

Lemma ws_accept_refused ws s :
  accepted ws s || bool_decide (ws ∈ closed s) = true →
  ws_accept ws s = (Raise (Exception "RuntimeError"), s).
Proof. intros H. unfold ws_accept. by rewrite H. Qed.

Lemma ws_accept_taken ws s :
  accepted ws s = false → ws ∉ closed s →
  ws_accept ws s = (Ok tt, log (Accepted ws) s).
Proof.
  intros Ha Hc. unfold ws_accept. by rewrite Ha, bool_decide_eq_false_2.
Qed.

(** [connect_vm] on a socket that [accept] refuses stops at its first
    statement. *)
Lemma connect_vm_refused ws inst token uid s :
  accepted ws s || bool_decide (ws ∈ closed s) = true →
  connect_vm ws inst token uid s = (Raise (Exception "RuntimeError"), s).
Proof. intros H. unfold connect_vm. cbn [bind]. by rewrite ws_accept_refused. Qed.

Lemma connect_vm_eq ws inst token uid s :
  connect_vm ws inst token uid s =
    (ws_accept ws >>
     (let* conns := gets connections in when (dict_in inst conns) (disconnect_vm inst)) >>
     admit_vm ws inst token uid) s.
Proof.
  unfold connect_vm, admit_vm. cbn [bind gets].
  destruct (ws_accept ws s) as [[[]|e] s0]; [|reflexivity].
  destruct (dict_in inst (connections s0)); [|reflexivity]. cbn [when].
  destruct (disconnect_vm inst s0) as [[[]|e] s1]; reflexivity.
Qed.

Lemma admit_vm_run ws inst token uid s :
  let a := fresh (dom (heap s)) in
  let c := mkVMConnection inst ws token uid (clock s) (clock s) "online" None in
  heap s !! a = None ∧
  heap (run (admit_vm ws inst token uid) s) = <[a := c]> (heap s) ∧
  connections (run (admit_vm ws inst token uid) s) = dict_set inst a (connections s) ∧
  jobs (run (admit_vm ws inst token uid) s) = jobs s ∧
  instance_tasks (run (admit_vm ws inst token uid) s) = instance_tasks s ∧
  closed (run (admit_vm ws inst token uid) s) = closed s ∧
  outcome (admit_vm ws inst token uid) s
    = (if decide (ws ∈ closed s) then Raise (Exception "send on a closed socket") else Ok a).
Proof.
  intros a c. subst a c.
  split. { apply not_elem_of_dom. apply is_fresh. }
  unfold admit_vm, alloc. mred. rewrite send_run. mred.
  rewrite lookup_insert_eq. cbn [websocket].
  destruct (decide (ws ∈ closed s)); mred; done.
Qed.

Lemma NoDup_connect_vm ws inst token uid s :
  NoDup (dict_keys (connections s)) →
  NoDup (dict_keys (connections (run (connect_vm ws inst token uid) s))).
Proof.
  intros Hnd. unfold run. rewrite connect_vm_eq. unfold ws_accept. mred.
  destruct (accepted ws s || bool_decide (ws ∈ closed s)); mred; [done|].
  set (s0 := mkBridge _ _ _ _ _ _ _ _ _ _ _ _ _).
  assert (Hs0 : connections s0 = connections s) by reflexivity.
  destruct (dict_in inst (connections s)) eqn:Ein; mred.
  - apply dict_in_Some in Ein as [a Ha].
    destruct (heap s !! a) as [c|] eqn:Eh.
    + destruct (disconnect_vm_run inst s0 a c) as (s1 & Hrun & Hcs & _); [done..|].
      rewrite Hrun.
      destruct (admit_vm_run ws inst token uid s1) as (_ & _ & Hc & _). mred_in Hc.
      rewrite Hc, Hcs, Hs0. by apply NoDup_dict_set, NoDup_dict_del.
    + subst s0. unfold disconnect_vm. mred. rewrite Ha. unfold deref. mred. by rewrite Eh.
  - destruct (admit_vm_run ws inst token uid s0) as (_ & _ & Hc & _). mred_in Hc.
    rewrite Hc, Hs0. by apply NoDup_dict_set.
Qed.

Lemma connect_vm_evicts ws inst token uid s a_old c_old :
  accepted ws s = false →
  ws ∉ closed s →
  dict_get inst (connections s) = Some a_old →
  heap s !! a_old = Some c_old →
  ∃ s1 a_new,
    (ws_accept ws >> disconnect_vm inst) s = (Ok tt, s1) ∧
    run (connect_vm ws inst token uid) s = run (admit_vm ws inst token uid) s1 ∧
    dict_get inst (connections s1) = None ∧
    websocket c_old ∈ closed s1 ∧
    instance_tasks s1 !! inst = None ∧
    (∀ t j, instance_tasks s !! inst = Some t → dict_get t (jobs s) = Some j →
            is_active j = true →
            dict_get t (jobs s1) = Some (failed_by_disconnect (clock s) j)) ∧
    let s' := run (connect_vm ws inst token uid) s in
    dict_get inst (connections s') = Some a_new ∧
    a_new ≠ a_old ∧
    heap s' !! a_new
      = Some (mkVMConnection inst ws token uid (clock s) (clock s) "online" None) ∧
    jobs s' = jobs s1 ∧
    (NoDup (dict_keys (connections s)) → NoDup (dict_keys (connections s'))) ∧
    (ws ≠ websocket c_old → outcome (connect_vm ws inst token uid) s = Ok a_new).
Proof.
  intros Hacc Hopen Ha Hh.
  pose proof (ws_accept_taken ws s Hacc Hopen) as Haccept.
  set (s0 := log (Accepted ws) s) in *.
  assert (Hs0 : connections s0 = connections s ∧ heap s0 = heap s ∧ jobs s0 = jobs s ∧
                instance_tasks s0 = instance_tasks s ∧ clock s0 = clock s ∧
                closed s0 = closed s) by done.
  destruct Hs0 as (Hc0 & Hh0 & Hj0 & Hi0 & Hk0 & Hcl0).
  destruct (disconnect_vm_run inst s0 a_old c_old)
    as (s1 & Hrun & Hcs & Hhp & Hcl & Hits & Hjobs & Hclk & _);
    [by rewrite Hc0|by rewrite Hh0|].
  destruct (admit_vm_run ws inst token uid s1)
    as (Hfresh & Hheap & Hconn & Hjb & _ & _ & Hout).
  exists s1, (fresh (dom (heap s1))).
  assert (Hfull : connect_vm ws inst token uid s = admit_vm ws inst token uid s1).
  { rewrite connect_vm_eq. cbn [bind gets]. rewrite Haccept. cbn [when].
    rewrite Hc0, (proj2 (dict_in_Some inst (connections s))) by eauto.
    by rewrite Hrun. }
  assert (Heq : run (connect_vm ws inst token uid) s = run (admit_vm ws inst token uid) s1).
  { unfold run. by rewrite Hfull. }
  split. { cbn [bind]. by rewrite Haccept. }
  split; [exact Heq|].
  split. { rewrite Hcs. apply dict_get_del_eq. }
  split. { rewrite Hcl. set_solver. }
  split. { rewrite Hits. apply lookup_delete_eq. }
  split.
  { intros t j Ht Hj Hact. rewrite Hjobs. unfold jobs_after_disconnect.
    rewrite Hi0, Ht, Hj0, Hj, Hact, Hk0.
    by rewrite !dict_get_alter_eq, Hj. }
  cbn zeta. rewrite Heq.
  split. { rewrite Hconn. apply dict_get_set_eq. }
  split. { intros Hsame. rewrite Hsame, Hhp, Hh0, Hh in Hfresh. discriminate. }
  split. { rewrite Hheap, lookup_insert_eq. by rewrite Hclk, Hk0. }
  split; [exact Hjb|].
  split. { intros Hnd. rewrite <- Heq. by apply NoDup_connect_vm. }
  intros Hne. unfold outcome. rewrite Hfull. unfold outcome in Hout. rewrite Hout.
  rewrite decide_False; [done|]. rewrite Hcl, Hcl0. set_solver.
Qed.

(** ** Submitting a job *)

Lemma dict_alter_set {V} (f : V → V) k v (d : list (string * V)) :
  dict_alter f k (dict_set k v d) = dict_set k (f v) d.
Proof.
  induction d as [|[k' v'] d IH]; cbn.
  - by rewrite String.eqb_refl.
  - destruct (String.eqb k k') eqn:E; cbn.
    + by rewrite String.eqb_refl.
    + by rewrite E, IH.
Qed.

Lemma find_available_None conns s :
  (∀ i a c, (i, a) ∈ conns → heap s !! a = Some c →
            ¬ (status c = "online" ∧ instance_tasks s !! i = None)) →
  find_available conns s = None.
Proof.
  induction conns as [|[i a] rest IH]; intros H; [done|].
  cbn [find_available].
  assert (Hrest : find_available rest s = None).
  { apply IH. intros i' a' c' Hin. apply H. by right. }
  destruct (heap s !! a) as [c|] eqn:Eh; [|exact Hrest].
  destruct (String.eqb_spec (status c) "online") as [Hon|Hoff]; [|exact Hrest].
  destruct (decide (instance_tasks s !! i = None)) as [Hfree|Hbusy].
  - exfalso. apply (H i a c); [by left|done|done].
  - rewrite bool_decide_eq_false_2 by done. exact Hrest.
Qed.

(** C2, amended: when no preferred worker is given and no connection is
    online and without a task, [submit_job] stores the job with status
    [queued] and then raises "No VM instances available" to its caller;
    nothing else of the bridge changes: no queue, no event, no dispatch. *)
Theorem submit_job_no_worker (job : Job) (inst : option string) (s : Bridge) :
  truthy inst = false →
  no_idle_worker s →
  let s' := run (submit_job job inst) s in
  outcome (submit_job job inst) s = Raise (Exception "No VM instances available") ∧
  s' = set_jobs (dict_set (job_id job) (with_status QUEUED job)) s ∧
  dict_get (job_id job) (jobs s') = Some (with_status QUEUED job).
Proof.
  intros Hinst Hidle. cbn zeta.
  assert (Hrun : submit_job job inst s =
    (Raise (Exception NO_VM), set_jobs (dict_set (job_id job) (with_status QUEUED job)) s)).
  { unfold submit_job. mred. rewrite Hinst. unfold _find_available_instance. mred.
    rewrite find_available_None by exact Hidle.
    cbn [truthy negb]. mred. by rewrite dict_alter_set. }
  unfold outcome, run. rewrite Hrun. cbn [fst snd]. split; [done|]. split; [done|].
  cbn [set_jobs jobs]. apply dict_get_set_eq.
Qed.

(** C2 as stated fails: with no worker connected the caller gets an
    exception, not a job id. *)
Lemma submit_job_no_worker_counterexample :
  connections (empty_bridge 0) = [] ∧
  ¬ ∃ k, outcome (submit_job job1 None) (empty_bridge 0) = Ok k.
Proof. split; [reflexivity|]. intros [k Hk]. vm_compute in Hk. discriminate Hk. Qed.

Lemma no_idle_worker_running : no_idle_worker running_bridge.
Proof.
  intros i a c Hin Hh [Hon Hfree].
  vm_compute in Hin. apply list_elem_of_singleton in Hin. injection Hin as -> ->.
  vm_compute in Hfree. discriminate Hfree.
Qed.

Lemma submit_job_no_worker_witness :
  outcome (submit_job job2 None) running_bridge = Raise (Exception "No VM instances available") ∧
  dict_get "j2" (jobs (run (submit_job job2 None) running_bridge))
    = Some (with_status QUEUED job2).
Proof.
  destruct (submit_job_no_worker job2 None running_bridge eq_refl no_idle_worker_running)
    as (H1 & _ & H3).
  split; [exact H1|exact H3].
Defined.

(** ** Heartbeats *)

Lemma call_all_run l s : call_all l s = (Ok tt, set_trace (λ t, t ++ map Called l) s).
Proof.
  unfold call_all. revert s. induction l as [|cb l IH]; intros s.
  - cbn [for_each ret map]. by rewrite set_trace_nil.
  - cbn [for_each bind modify]. rewrite IH. destruct s. cbn. by rewrite <- app_assoc.
Qed.

Lemma broadcast_state_heap job event s : heap (broadcast_state job event s) = heap s.
Proof. apply broadcast_state_frame. Qed.

Ltac destruct_scrutinee :=
  match goal with
  | |- context [match ?x with _ => _ end] =>
      lazymatch x with
      | context [match _ with _ => _ end] => fail
      | _ => destruct x eqn:?
      end
  end.

Ltac run_handler :=
  repeat first
    [ progress mred
    | rewrite _broadcast_event_run
    | rewrite call_all_run
    | rewrite broadcast_state_heap
    | match goal with H : heap _ !! _ = Some _ |- _ => rewrite H end
    | destruct_scrutinee ].

(** C6, amended: of the frames a worker sends, only [pong] refreshes the
    connection's [last_ping] (to the current time); an event,
    [task_complete], [task_failed], [needs_approval], [needs_context] or
    unknown frame leaves it as it was, whether the handler returns or
    raises. *)
Theorem last_ping_refreshed_by_pong_only (a : Addr) (c : VMConnection)
    (message : VMMessage) (s : Bridge) :
  heap s !! a = Some c →
  ∃ c', heap (run (_process_vm_message a message) s) !! a = Some c' ∧
        last_ping c' = match message with
                       | MsgPong => clock s
                       | _ => last_ping c
                       end.
Proof.
  intros Hh.
  assert (Hkeep : ∀ f g : VMConnection → VMConnection,
            (∀ x, last_ping (f x) = last_ping x) → (∀ x, last_ping (g x) = last_ping x) →
            ∃ c', alter f a (alter g a (heap s)) !! a = Some c' ∧ last_ping c' = last_ping c).
  { intros f g Hf Hg. rewrite !lookup_alter_eq, Hh. cbn. eexists. split; [done|].
    by rewrite Hf, Hg. }
  destruct message as [|ev|t res|t err|rq j pl|j pl|ty];
    unfold _process_vm_message, _handle_vm_event, _handle_task_complete,
      _handle_task_failed, _handle_approval_request, _handle_context_request,
      the_job, deref.
  - mred. rewrite lookup_alter_eq, Hh. cbn. eauto.
  - run_handler; eauto.
  - run_handler; try (by eauto); try (by apply Hkeep).
  - run_handler; try (by eauto); try (by apply Hkeep).
  - run_handler; eauto.
  - run_handler; eauto.
  - mred. eauto.
Qed.

(** C6 as stated fails: an event frame and a [task_complete] frame,
    processed four seconds after the last heartbeat, leave [last_ping]
    where it was. *)
Lemma last_ping_counterexample :
  let s := advance_clock 5000000 running_bridge in
  let s1 := run (_process_vm_message 0%nat (MsgEvent (Some ev_log))) s in
  let s2 := run (_process_vm_message 0%nat done_frame) s in
  last_ping <$> heap s !! 0%nat = Some 1000 ∧
  last_ping <$> heap s1 !! 0%nat = Some 1000 ∧
  last_ping <$> heap s2 !! 0%nat = Some 1000 ∧
  last_ping <$> heap s1 !! 0%nat ≠ Some (clock s) ∧
  last_ping <$> heap s2 !! 0%nat ≠ Some (clock s).
Proof. vm_compute. repeat split; (reflexivity || discriminate). Qed.

Lemma last_ping_refreshed_by_pong_only_witness :
  let s := advance_clock 5000000 running_bridge in
  (∃ c', heap (run (_process_vm_message 0%nat MsgPong) s) !! 0%nat = Some c' ∧
         last_ping c' = 5000000) ∧
  (∃ c', heap (run (_process_vm_message 0%nat done_frame) s) !! 0%nat = Some c' ∧
         last_ping c' = 1000).
Proof.
  split.
  - apply (last_ping_refreshed_by_pong_only 0%nat w1_connection MsgPong
             (advance_clock 5000000 running_bridge)).
    vm_compute. reflexivity.
  - apply (last_ping_refreshed_by_pong_only 0%nat w1_connection done_frame
             (advance_clock 5000000 running_bridge)).
    vm_compute. reflexivity.
Defined.

(** What C3 leads to: thirty seconds into its task, with the socket open,
    the worker of [j1] is taken for dead by the cleanup round, which
    disconnects it and fails the job. *)
Example busy_worker_is_reaped :
  let s := advance_clock 30001000 running_bridge in
  (status <$> heap s !! 0%nat, last_ping <$> heap s !! 0%nat)
    = (Some "busy", Some 1000) ∧
  connections (run cleanup_round s) = [] ∧
  (λ j, (job_status j, job_error_message j)) <$> dict_get "j1" (jobs (run cleanup_round s))
    = Some (FAILED, Some "VM disconnected unexpectedly").
Proof. vm_compute. done. Qed.

(** ** Answers to approval and context requests *)

Lemma respond_loop_run js frame ty payload s :
  respond_loop js frame ty payload s =
    match first_connected js (connections s) with
    | None => (Ok false, s)
    | Some (k, a) =>
        (send a frame >>
         let* ev := create_event ty k payload in
         _broadcast_event k ev >> ret true) s
    end.
Proof.
  induction js as [|[k job] rest IH]; [done|].
  cbn [respond_loop first_connected bind gets]. unfold assigned_vm.
  destruct (truthy (job_vm_id job)); [|exact IH].
  destruct (job_vm_id job) as [vm|]; [|exact IH].
  destruct (dict_get vm (connections s)); [reflexivity|exact IH].
Qed.

(** Whether a response is accepted does not depend on the request it
    answers. *)
Lemma submit_approval_response_any_request rq rq' approved reason s :
  outcome (submit_approval_response rq approved reason) s
    = outcome (submit_approval_response rq' approved reason) s.
Proof.
  unfold submit_approval_response. cbn [outcome bind gets].
  rewrite !respond_loop_run.
  destruct (first_connected (jobs s) (connections s)) as [[k a]|]; [|done].
  cbn [bind]. rewrite !send_run.
  destruct (heap s !! a) as [c|]; [|done].
  destruct (decide (websocket c ∈ closed s)); [done|].
  mred. by rewrite !_broadcast_event_run.
Qed.

(** C1: a response is claimed to reach the worker of the job that asked,
    and to fail when nobody asked.  The bridge keeps no pending requests
    and takes the first stored job whose worker is connected: the answer
    to request [r2] of job [j2] (worker [w2], socket 8) is written to the
    socket 7 of worker [w1], and so is the answer to a request that was
    never made; both calls return [True]. *)
Theorem response_goes_to_first_connected_job :
  dict_get "w2" (connections awaiting_approval_bridge) = Some 1%nat ∧
  websocket <$> heap awaiting_approval_bridge !! 1%nat = Some 8%nat ∧
  job_vm_id <$> dict_get "j2" (jobs awaiting_approval_bridge) = Some (Some "w2") ∧
  submit_approval_response "r2" true None awaiting_approval_bridge
    = (Ok true, log (Sent 7%nat (FApprovalResponse "r2" true None)) awaiting_approval_bridge) ∧
  submit_context_response "never-asked" "yes" [] awaiting_approval_bridge
    = (Ok true,
       log (Sent 7%nat (FContextResponse "never-asked" "yes" [])) awaiting_approval_bridge).
Proof. vm_compute. done. Qed.

(** ** The registry of connections in reachable states *)

Lemma broadcast_state_connections job event s :
  connections (broadcast_state job event s) = connections s.
Proof. apply broadcast_state_frame. Qed.

Ltac run_frame :=
  repeat first
    [ progress mred
    | rewrite _broadcast_event_run
    | rewrite call_all_run
    | rewrite send_run
    | rewrite broadcast_state_connections
    | destruct_scrutinee ].

Lemma disconnect_vm_connections inst s :
  connections (run (disconnect_vm inst) s) = dict_del inst (connections s) ∨
  connections (run (disconnect_vm inst) s) = connections s.
Proof.
  destruct (dict_get inst (connections s)) as [a|] eqn:Ea.
  - destruct (heap s !! a) as [c|] eqn:Eh.
    + destruct (disconnect_vm_run inst s a c) as (s' & Hrun & Hcs & _); [done..|].
      left. unfold run. by rewrite Hrun.
    + right. unfold disconnect_vm, deref. mred. rewrite Ea. mred. by rewrite Eh.
  - right. unfold run. by rewrite disconnect_vm_absent.
Qed.

Lemma NoDup_disconnect_vm inst s :
  NoDup (dict_keys (connections s)) →
  NoDup (dict_keys (connections (run (disconnect_vm inst) s))).
Proof.
  intros H. destruct (disconnect_vm_connections inst s) as [-> | ->]; [|done].
  by apply NoDup_dict_del.
Qed.

Lemma NoDup_for_each_disconnect l s :
  NoDup (dict_keys (connections s)) →
  NoDup (dict_keys (connections (run (for_each l disconnect_vm) s))).
Proof.
  revert s. induction l as [|i l IH]; intros s H; [done|].
  cbn [for_each]. mred.
  pose proof (NoDup_disconnect_vm i s H) as H1. unfold run in H1.
  destruct (disconnect_vm i s) as [[[]|e] s1]; cbn [snd] in *; [|done].
  by apply IH.
Qed.

Lemma respond_loop_connections js frame ty payload s :
  connections (run (respond_loop js frame ty payload) s) = connections s.
Proof.
  induction js as [|[k job] rest IH]; [done|].
  cbn [respond_loop]. unfold run in *. run_frame; try done; exact IH.
Qed.

Lemma process_vm_message_connections a message s :
  connections (run (_process_vm_message a message) s) = connections s.
Proof.
  destruct message;
    unfold _process_vm_message, _handle_vm_event, _handle_task_complete,
      _handle_task_failed, _handle_approval_request, _handle_context_request,
      the_job, deref;
    run_frame; done.
Qed.

Lemma close_all_run (l : list (string * Addr)) s :
  ∃ s', for_each l
          (λ '(_, a), try_except (let* c := deref a in ws_close (websocket c)) (λ _, ret tt)) s
        = (Ok tt, s').
Proof.
  revert s. induction l as [|[i a] l IH]; intros s; [by eexists|].
  cbn [for_each]. unfold deref, ws_close. mred.
  destruct (heap s !! a) as [c|]; mred; [|apply IH].
  destruct (decide (websocket c ∈ closed s)); mred; apply IH.
Qed.

Lemma reachable_NoDup s : reachable s → NoDup (dict_keys (connections s)).
Proof.
  induction 1 as [now|c s Hs IH]; [constructor|].
  destruct c; cbn [perform].
  - unfold ws_accept. mred. by destruct (accepted ws s || bool_decide (ws ∈ closed s)).
  - by apply NoDup_connect_vm.
  - by apply NoDup_disconnect_vm.
  - unfold _handle_vm_messages. destruct received as [message|].
    + mred. pose proof (process_vm_message_connections conn message s) as Hc.
      unfold run in Hc.
      destruct (_process_vm_message conn message s) as [[[]|e] s1]; cbn [snd] in *.
      * by rewrite Hc.
      * unfold deref. mred. destruct (heap s1 !! conn); mred; [|by rewrite Hc].
        apply NoDup_disconnect_vm. by rewrite Hc.
    + unfold deref. mred. destruct (heap s !! conn); mred; [|done].
      by apply NoDup_disconnect_vm.
  - unfold submit_job, _find_available_instance, the_job. run_frame; done.
  - unfold _try_start_job. run_frame; done.
  - unfold cancel_job, the_job. run_frame; done.
  - unfold run. by rewrite subscribe_to_job_run.
  - unfold run. by rewrite unsubscribe_from_job_run.
  - unfold submit_approval_response. mred.
    pose proof (respond_loop_connections (jobs s)) as Hc. unfold run in Hc. by rewrite Hc.
  - unfold submit_context_response. mred.
    pose proof (respond_loop_connections (jobs s)) as Hc. unfold run in Hc. by rewrite Hc.
  - unfold ping, deref, send_json. run_frame; done.
  - unfold cleanup_round. mred.
    match goal with |- context [for_each ?l disconnect_vm s] =>
      pose proof (NoDup_for_each_disconnect l s IH) as Hc end.
    unfold run in Hc.
    destruct (for_each _ disconnect_vm s) as [[[]|e] s1]; done.
  - unfold stop. mred.
    destruct (close_all_run (connections s) s) as [s1 Hrun]. rewrite Hrun. mred.
    constructor.
  - done.
  - done.
Qed.

Lemma running_bridge_reachable : reachable running_bridge.
Proof.
  exact (reachable_call (CTryStart "j1") _
           (reachable_call (CSubmit job1 None) _
              (reachable_call (CConnect 7%nat "w1" "T" 1) _ (reachable_start 1000)))).
Qed.

Lemma two_on_w1_reachable : reachable two_on_w1.
Proof.
  exact (reachable_call (CTryStart "j2") (run (submit_job job2 (Some "w1")) running_bridge)
           (reachable_call (CSubmit job2 (Some "w1")) running_bridge
              running_bridge_reachable)).
Qed.

(** C5: a connection that is replaced is claimed to have its active job
    failed before the new one is registered.  [disconnect_vm], under its
    comment "Release any active task", fails the one job that
    [instance_tasks] names.  While [w1] runs [j1], job [j2] is submitted
    for [w1] and started, which [_try_start_job] does without looking at
    the worker's status; the reverse index now names [j2].  When socket 9
    connects as [w1], socket 7 is closed, [j2] is failed and the new
    connection is registered and returned, idle; [j1] is still [running]
    on [w1], with no error, and out of the reverse index.  And on a socket
    that was accepted before, as the route [vm_websocket] hands it over,
    [connect_vm] raises at [accept]: the old connection is not closed and
    no connection is registered. *)
Theorem eviction_leaves_running_job :
  reachable two_on_w1 ∧
  (λ p, (p.1, job_status p.2, job_vm_id p.2)) <$> jobs two_on_w1
    = [("j1", RUNNING, Some "w1"); ("j2", RUNNING, Some "w1")] ∧
  instance_tasks two_on_w1 !! "w1" = Some "j2" ∧
  outcome (connect_vm 9%nat "w1" "T" 1) two_on_w1 = Ok 1%nat ∧
  connections reconnected_bridge = [("w1", 1%nat)] ∧
  (λ c, (websocket c, status c, current_task_id c)) <$> heap reconnected_bridge !! 1%nat
    = Some (9%nat, "online", None) ∧
  elements (closed reconnected_bridge) = [7%nat] ∧
  (λ p, (p.1, job_status p.2, job_vm_id p.2, job_error_message p.2, job_completed_at p.2))
      <$> jobs reconnected_bridge
    = [("j1", RUNNING, Some "w1", None, None);
       ("j2", FAILED, Some "w1", Some "VM disconnected unexpectedly", Some 1000)] ∧
  instance_tasks reconnected_bridge !! "w1" = None ∧
  connect_vm 9%nat "w1" "T" 1 accepted_bridge
    = (Raise (Exception "RuntimeError"), accepted_bridge).
Proof. split; [exact two_on_w1_reachable|]. vm_compute. done. Qed.

(** X24: the registry never holds two connections for one [instance_id],
    in any state the bridge can reach.  [connect_vm] on a socket that
    [accept] refuses (one that was accepted before, as the route
    [vm_websocket] hands it over, or one that is closed) raises at its
    first statement and changes nothing.  On a socket that [accept]
    takes, for an [instance_id] that is registered, it first runs
    [disconnect_vm] to its end: the old socket is closed, the old entry is
    gone, and the job recorded for that worker in [instance_tasks], if
    active, is failed with "VM disconnected unexpectedly"; only then is
    the new connection object made and registered, as the one entry of
    that [instance_id]; and it is returned, unless the new socket is the
    old one. *)
Theorem one_connection_per_instance :
  (∀ s, reachable s → NoDup (dict_keys (connections s))) ∧
  (∀ ws inst token uid s,
     accepted ws s || bool_decide (ws ∈ closed s) = true →
     connect_vm ws inst token uid s = (Raise (Exception "RuntimeError"), s)) ∧
  (∀ ws inst token uid s a_old c_old,
     accepted ws s = false →
     ws ∉ closed s →
     dict_get inst (connections s) = Some a_old →
     heap s !! a_old = Some c_old →
     ∃ s1 a_new,
       (ws_accept ws >> disconnect_vm inst) s = (Ok tt, s1) ∧
       run (connect_vm ws inst token uid) s = run (admit_vm ws inst token uid) s1 ∧
       dict_get inst (connections s1) = None ∧
       websocket c_old ∈ closed s1 ∧
       instance_tasks s1 !! inst = None ∧
       (∀ t j, instance_tasks s !! inst = Some t → dict_get t (jobs s) = Some j →
               is_active j = true →
               dict_get t (jobs s1) = Some (failed_by_disconnect (clock s) j)) ∧
       let s' := run (connect_vm ws inst token uid) s in
       dict_get inst (connections s') = Some a_new ∧
       a_new ≠ a_old ∧
       heap s' !! a_new
         = Some (mkVMConnection inst ws token uid (clock s) (clock s) "online" None) ∧
       jobs s' = jobs s1 ∧
       (NoDup (dict_keys (connections s)) → NoDup (dict_keys (connections s'))) ∧
       (ws ≠ websocket c_old → outcome (connect_vm ws inst token uid) s = Ok a_new)).
Proof.
  split; [exact reachable_NoDup|]. split.
  - exact connect_vm_refused.
  - exact connect_vm_evicts.
Qed.

Lemma one_connection_per_instance_witness :
  let s' := run (connect_vm 9%nat "w1" "T" 1) running_bridge in
  (∃ a_new, dict_get "w1" (connections s') = Some a_new ∧ a_new ≠ 0%nat ∧
            outcome (connect_vm 9%nat "w1" "T" 1) running_bridge = Ok a_new) ∧
  (∃ s1, (ws_accept 9%nat >> disconnect_vm "w1") running_bridge = (Ok tt, s1) ∧
         7%nat ∈ closed s1 ∧
         dict_get "j1" (jobs s1)
           = Some (failed_by_disconnect 1000 (with_started_at (Some 1000)
                     (with_status RUNNING (with_vm_id (Some "w1") (with_status QUEUED job1)))))) ∧
  connect_vm 9%nat "w1" "T" 1 accepted_bridge
    = (Raise (Exception "RuntimeError"), accepted_bridge).
Proof.
  destruct one_connection_per_instance as (_ & Hrefused & Hevicts).
  destruct (Hevicts 9%nat "w1" "T" 1 running_bridge 0%nat w1_connection)
    as (s1 & a_new & Hrun & _ & _ & Hclosed & _ & Hjob & Hnew & Hne & _ & _ & _ & Hout).
  - vm_compute. reflexivity.
  - vm_compute. intros H. discriminate H.
  - vm_compute. reflexivity.
  - vm_compute. reflexivity.
  - split; [|split].
    + exists a_new. split; [exact Hnew|]. split; [exact Hne|]. apply Hout. discriminate.
    + exists s1. split; [exact Hrun|]. split; [exact Hclosed|].
      apply (Hjob "j1"); vm_compute; reflexivity.
    + apply Hrefused. vm_compute. reflexivity.
Defined.

(** ** Registry entries point to live objects *)

Lemma keeps_objects_refl h : keeps_objects h h.
Proof. intros a c H. eauto. Qed.

Lemma keeps_objects_trans h1 h2 h3 :
  keeps_objects h1 h2 → keeps_objects h2 h3 → keeps_objects h1 h3.
Proof.
  intros H12 H23 a c H. destruct (H12 a c H) as (c2 & H2 & E2).
  destruct (H23 a c2 H2) as (c3 & H3 & E3). exists c3. split; [done|congruence].
Qed.

Lemma keeps_objects_alter f a h :
  (∀ c, instance_id (f c) = instance_id c) → keeps_objects h (alter f a h).
Proof.
  intros Hf a' c H. destruct (decide (a = a')) as [->|Hne].
  - rewrite lookup_alter_eq, H. cbn. eauto.
  - rewrite lookup_alter_ne by done. eauto.
Qed.

Lemma keeps_objects_alter2 f g a b h :
  (∀ c, instance_id (f c) = instance_id c) → (∀ c, instance_id (g c) = instance_id c) →
  keeps_objects h (alter f a (alter g b h)).
Proof.
  intros Hf Hg. eapply keeps_objects_trans; by apply keeps_objects_alter.
Qed.

Lemma keeps_objects_insert a c h : h !! a = None → keeps_objects h (<[a := c]> h).
Proof.
  intros Hnone a' c' H. exists c'. split; [|done].
  rewrite lookup_insert_ne; [done|]. intros ->. congruence.
Qed.

Ltac keep_objects :=
  first [ apply keeps_objects_refl
        | apply keeps_objects_alter; done
        | apply keeps_objects_alter2; done ].

Ltac run_frame_heap :=
  repeat first
    [ progress mred
    | rewrite _broadcast_event_run
    | rewrite call_all_run
    | rewrite send_run
    | rewrite broadcast_state_heap
    | destruct_scrutinee ].

Lemma disconnect_vm_heap inst s : heap (run (disconnect_vm inst) s) = heap s.
Proof.
  destruct (dict_get inst (connections s)) as [a|] eqn:Ea.
  - destruct (heap s !! a) as [c|] eqn:Eh.
    + destruct (disconnect_vm_run inst s a c) as (s' & Hrun & _ & Hh & _); [done..|].
      unfold run. by rewrite Hrun.
    + unfold disconnect_vm, deref. mred. rewrite Ea. mred. by rewrite Eh.
  - unfold run. by rewrite disconnect_vm_absent.
Qed.

Lemma dict_del_subseteq {V} k (d : list (string * V)) x : x ∈ dict_del k d → x ∈ d.
Proof.
  induction d as [|[k' v] d IH]; [done|]. cbn [dict_del].
  destruct (String.eqb k k').
  - intros H. right. by apply IH.
  - intros [->|H]%elem_of_cons; [by left|]. right. by apply IH.
Qed.

Lemma dict_set_elem_of {V} k (v : V) (d : list (string * V)) x :
  x ∈ dict_set k v d → x = (k, v) ∨ x ∈ d.
Proof.
  induction d as [|[k' v'] d IH]; cbn [dict_set].
  - intros ->%list_elem_of_singleton. by left.
  - destruct (String.eqb k k').
    + intros [->|H]%elem_of_cons; [by left|]. right. by right.
    + intros [->|H]%elem_of_cons; [right; by left|].
      destruct (IH H) as [->|Hd]; [by left|]. right. by right.
Qed.

Lemma for_each_disconnect_heap l s : heap (run (for_each l disconnect_vm) s) = heap s.
Proof.
  unfold run. revert s. induction l as [|i l IH]; intros s; [done|].
  cbn [for_each]. mred.
  pose proof (disconnect_vm_heap i s) as H1. unfold run in H1.
  destruct (disconnect_vm i s) as [[[]|e] s1]; cbn [snd] in *; [|done].
  by rewrite IH.
Qed.

Lemma for_each_disconnect_connections l s i a :
  (i, a) ∈ connections (run (for_each l disconnect_vm) s) → (i, a) ∈ connections s.
Proof.
  unfold run. revert s. induction l as [|k l IH]; intros s; [done|].
  cbn [for_each]. mred.
  pose proof (disconnect_vm_connections k s) as H1. unfold run in H1.
  destruct (disconnect_vm k s) as [[[]|e] s1]; cbn [snd] in *.
  - intros Hin%IH. destruct H1 as [H1|H1]; rewrite H1 in Hin; [|done].
    eapply dict_del_subseteq, Hin.
  - destruct H1 as [H1|H1]; rewrite H1; [|done]. apply dict_del_subseteq.
Qed.

Lemma respond_loop_heap js frame ty payload s :
  heap (run (respond_loop js frame ty payload) s) = heap s.
Proof.
  unfold run. rewrite respond_loop_run.
  destruct (first_connected js (connections s)) as [[k a]|]; [|done].
  run_frame_heap; done.
Qed.

Lemma process_vm_message_keeps a message s :
  keeps_objects (heap s) (heap (run (_process_vm_message a message) s)).
Proof.
  destruct message;
    unfold _process_vm_message, _handle_vm_event, _handle_task_complete,
      _handle_task_failed, _handle_approval_request, _handle_context_request,
      the_job, deref;
    run_frame_heap; keep_objects.
Qed.

Lemma registry_sound_step s s' :
  registry_sound s →
  keeps_objects (heap s) (heap s') →
  (∀ i a, (i, a) ∈ connections s' → (i, a) ∈ connections s) →
  registry_sound s'.
Proof.
  intros Hs Hk Hc i a Hin. destruct (Hs i a (Hc i a Hin)) as (c & Hh & Hi).
  destruct (Hk a c Hh) as (c' & Hh' & Hi'). exists c'. split; [done|congruence].
Qed.

Lemma registry_sound_disconnect inst s :
  registry_sound s → registry_sound (run (disconnect_vm inst) s).
Proof.
  intros Hs. eapply registry_sound_step; [exact Hs| |].
  - rewrite disconnect_vm_heap. apply keeps_objects_refl.
  - intros i a. destruct (disconnect_vm_connections inst s) as [-> | ->]; [|done].
    apply dict_del_subseteq.
Qed.

Lemma registry_sound_admit ws inst token uid s :
  registry_sound s → registry_sound (run (admit_vm ws inst token uid) s).
Proof.
  intros Hs i a.
  destruct (admit_vm_run ws inst token uid s) as (Hfresh & Hheap & Hconn & _).
  rewrite Hconn, Hheap. intros [Heq|Hin]%dict_set_elem_of.
  - injection Heq as -> ->. rewrite lookup_insert_eq. eauto.
  - destruct (Hs i a Hin) as (c & Hh & Hi). exists c. split; [|done].
    rewrite lookup_insert_ne; [done|]. intros <-. congruence.
Qed.

Lemma registry_sound_connect ws inst token uid s :
  registry_sound s → registry_sound (run (connect_vm ws inst token uid) s).
Proof.
  intros Hs. unfold run. rewrite connect_vm_eq. unfold ws_accept. mred.
  destruct (accepted ws s || bool_decide (ws ∈ closed s)); mred; [done|].
  set (s0 := mkBridge _ _ _ _ _ _ _ _ _ _ _ _ _).
  assert (Hs0 : registry_sound s0) by exact Hs.
  destruct (dict_in inst (connections s)); mred.
  - pose proof (registry_sound_disconnect inst s0 Hs0) as Hd. unfold run in Hd.
    destruct (disconnect_vm inst s0) as [[[]|e] s1]; cbn [snd] in *; [|done].
    by apply registry_sound_admit.
  - by apply registry_sound_admit.
Qed.

(** In a reachable state every entry of the registry points to an object,
    so that reading a connection through the registry never fails. *)
Lemma reachable_registry_sound s : reachable s → registry_sound s.
Proof.
  induction 1 as [now|c s Hs IH].
  { intros i a Hin. by apply not_elem_of_nil in Hin. }
  destruct c; cbn [perform].
  - unfold ws_accept. mred. by destruct (accepted ws s || bool_decide (ws ∈ closed s)).
  - by apply registry_sound_connect.
  - by apply registry_sound_disconnect.
  - unfold _handle_vm_messages. destruct received as [message|].
    + mred. pose proof (process_vm_message_connections conn message s) as Hc.
      pose proof (process_vm_message_keeps conn message s) as Hk.
      unfold run in Hc, Hk.
      destruct (_process_vm_message conn message s) as [[[]|e] s1]; cbn [snd] in *.
      * eapply registry_sound_step; [exact IH|exact Hk|by rewrite Hc].
      * assert (Hs1 : registry_sound s1).
        { eapply registry_sound_step; [exact IH|exact Hk|by rewrite Hc]. }
        unfold deref. mred. destruct (heap s1 !! conn); mred; [|done].
        by apply registry_sound_disconnect.
    + unfold deref. mred. destruct (heap s !! conn); mred; [|done].
      by apply registry_sound_disconnect.
  - eapply registry_sound_step; [exact IH| |].
    + unfold submit_job, _find_available_instance, the_job. run_frame_heap; keep_objects.
    + unfold submit_job, _find_available_instance, the_job. run_frame; done.
  - eapply registry_sound_step; [exact IH| |].
    + unfold _try_start_job. run_frame_heap; keep_objects.
    + unfold _try_start_job. run_frame; done.
  - eapply registry_sound_step; [exact IH| |].
    + unfold cancel_job, the_job. run_frame_heap; keep_objects.
    + unfold cancel_job, the_job. run_frame; done.
  - unfold run. by rewrite subscribe_to_job_run.
  - unfold run. by rewrite unsubscribe_from_job_run.
  - eapply registry_sound_step; [exact IH| |].
    + unfold submit_approval_response. mred.
      pose proof (respond_loop_heap (jobs s)) as Hc. unfold run in Hc. rewrite Hc.
      apply keeps_objects_refl.
    + unfold submit_approval_response. mred.
      pose proof (respond_loop_connections (jobs s)) as Hc. unfold run in Hc. by rewrite Hc.
  - eapply registry_sound_step; [exact IH| |].
    + unfold submit_context_response. mred.
      pose proof (respond_loop_heap (jobs s)) as Hc. unfold run in Hc. rewrite Hc.
      apply keeps_objects_refl.
    + unfold submit_context_response. mred.
      pose proof (respond_loop_connections (jobs s)) as Hc. unfold run in Hc. by rewrite Hc.
  - eapply registry_sound_step; [exact IH| |].
    + unfold ping, deref, send_json. run_frame_heap; keep_objects.
    + unfold ping, deref, send_json. run_frame; done.
  - unfold cleanup_round. mred.
    match goal with |- context [for_each ?l disconnect_vm s] =>
      pose proof (for_each_disconnect_heap l s) as Hh;
      pose proof (for_each_disconnect_connections l s) as Hc end.
    unfold run in Hh, Hc.
    destruct (for_each _ disconnect_vm s) as [[[]|e] s1]; cbn [snd] in *;
      (eapply registry_sound_step; [exact IH|rewrite Hh; apply keeps_objects_refl|exact Hc]).
  - unfold stop. mred.
    destruct (close_all_run (connections s) s) as [s1 Hrun]. rewrite Hrun. mred.
    intros i a Hin. by apply not_elem_of_nil in Hin.
  - exact IH.
  - exact IH.
Qed.

(** ** Frames for a job that is over *)

(** A [task_complete] frame with a result, from a live connection object,
    completes the job it names whatever the job's status was. *)
Lemma task_complete_overwrites a c k j r s :
  heap s !! a = Some c →
  dict_get k (jobs s) = Some j →
  dict_get k (jobs (run (_handle_task_complete a (Some k) (Some r)) s))
    = Some (with_artifacts (default [] (res_artifacts r))
              (with_result (res_result r)
                 (with_completed_at (Some (clock s)) (with_status COMPLETED j)))).
Proof.
  intros Hh Hj. unfold _handle_task_complete, dict_in, deref. mred. rewrite Hj.
  cbn [negb]. mred. rewrite Hh. mred.
  assert (Hget : ∀ its h,
    dict_get k (jobs (mkBridge h (connections s)
      (dict_alter (with_artifacts (default [] (res_artifacts r))) k
         (dict_alter (with_result (res_result r)) k
            (dict_alter (with_completed_at (Some (clock s))) k
               (dict_alter (with_status COMPLETED) k (jobs s)))))
      (job_queues s) (event_subscribers s) its (event_callbacks s)
      (approval_callbacks s) (context_callbacks s) (clock s) (closed s) (trace s)
      (tasks s)))
    = Some (with_artifacts (default [] (res_artifacts r))
              (with_result (res_result r)
                 (with_completed_at (Some (clock s)) (with_status COMPLETED j))))).
  { intros its h. cbn [jobs]. by rewrite !dict_get_alter_eq, Hj. }
  destruct (bool_decide (is_Some (instance_tasks s !! instance_id c))); mred;
    (erewrite the_job_run by apply Hget); mred;
    rewrite _broadcast_event_run; mred; rewrite broadcast_state_jobs; apply Hget.
Qed.

Lemma cancel_job_terminal k r s j :
  dict_get k (jobs s) = Some j → is_terminal (job_status j) = true →
  cancel_job k r s = (Ok false, s).
Proof.
  intros Hj Ht. apply cancel_job_inactive. intros j' Hj'.
  assert (j' = j) as -> by congruence.
  unfold is_active. by destruct (job_status j).
Qed.

(** C4: a job in a terminal state is claimed to keep its status, result,
    error fields and [completed_at] when a late [task_complete] or
    [task_failed] frame names it.  The two handlers have no guard: job
    [j1], cancelled at time 2000, becomes [completed] (or [failed]) at
    time 3000, with the result (or the error) of the late frame. *)
Theorem task_complete_after_cancel :
  let late := run (_process_vm_message 0%nat done_frame) (advance_clock 3000 cancelled_bridge) in
  let late' := run (_process_vm_message 0%nat failed_frame) (advance_clock 3000 cancelled_bridge) in
  (λ j, (job_status j, job_completed_at j, job_result j)) <$> dict_get "j1" (jobs cancelled_bridge)
    = Some (CANCELLED, Some 2000, None) ∧
  (λ j, (job_status j, job_completed_at j, job_result j)) <$> dict_get "j1" (jobs late)
    = Some (COMPLETED, Some 3000, Some "done") ∧
  (λ j, (job_status j, job_completed_at j, job_error_message j, job_error_code j))
      <$> dict_get "j1" (jobs late')
    = Some (FAILED, Some 3000, Some "boom", Some "E1").
Proof. vm_compute. done. Qed.

(** * The rest of the bridge and the routes *)

Lemma dict_del_filter {V} k (d : list (string * V)) :
  dict_del k d = filter (λ p, p.1 ≠ k) d.
Proof.
  induction d as [|[k' v] d IH]; [done|].
  cbn [dict_del]. rewrite filter_cons. cbn [fst].
  destruct (String.eqb_spec k k') as [->|Hne].
  - by rewrite decide_False by (intros H; by apply H).
  - rewrite decide_True by congruence. by rewrite IH.
Qed.

Lemma dict_del_absent {V} k (d : list (string * V)) :
  dict_get k d = None → dict_del k d = d.
Proof.
  induction d as [|[k' v] d IH]; [done|]. cbn.
  destruct (String.eqb k k'); [discriminate|]. intros H. by rewrite IH.
Qed.

Lemma dict_get_elem_of {V} k (v : V) (d : list (string * V)) :
  dict_get k d = Some v → (k, v) ∈ d.
Proof.
  induction d as [|[k' v'] d IH]; [done|]. cbn.
  destruct (String.eqb_spec k k') as [->|Hne].
  - intros [= ->]. by left.
  - intros H. right. by apply IH.
Qed.

Lemma dict_get_NoDup {V} k (v : V) (d : list (string * V)) :
  NoDup (dict_keys d) → (k, v) ∈ d → dict_get k d = Some v.
Proof.
  unfold dict_keys. induction d as [|[k' v'] d IH]; [by intros _ ?%not_elem_of_nil|].
  rewrite fmap_cons. cbn [fst]. intros [Hk Hnd]%NoDup_cons [Heq|Hin]%elem_of_cons.
  - injection Heq as -> ->. cbn. by rewrite String.eqb_refl.
  - cbn. destruct (String.eqb_spec k k') as [->|Hne]; [|by apply IH].
    exfalso. apply Hk. apply list_elem_of_fmap. by exists (k', v).
Qed.

Lemma disconnect_vm_sound_run inst s :
  registry_sound s →
  ∃ s', disconnect_vm inst s = (Ok tt, s') ∧
        connections s' = dict_del inst (connections s) ∧
        heap s' = heap s ∧ clock s' = clock s ∧ closed s ⊆ closed s' ∧
        registry_sound s'.
Proof.
  intros Hs.
  assert (Hsound : ∀ s', disconnect_vm inst s = (Ok tt, s') → registry_sound s').
  { intros s' Hrun. pose proof (registry_sound_disconnect inst s Hs) as H.
    unfold run in H. by rewrite Hrun in H. }
  destruct (dict_get inst (connections s)) as [a|] eqn:Ea.
  - destruct (Hs inst a (dict_get_elem_of _ _ _ Ea)) as (c & Hh & _).
    destruct (disconnect_vm_run inst s a c)
      as (s' & Hrun & Hc & Hheap & Hcl & _ & _ & Hclk & _); [done..|].
    exists s'. split; [done|]. split; [done|]. split; [done|]. split; [done|].
    split; [rewrite Hcl; set_solver|by apply Hsound].
  - exists s. pose proof (disconnect_vm_absent inst s Ea) as Hrun.
    split; [done|]. split; [by rewrite dict_del_absent|]. split; [done|]. split; [done|].
    split; [done|by apply Hsound].
Qed.

(** X1: [disconnect_vm] twice in a row leaves the bridge as one call
    leaves it, and on an [instance_id] that is not registered it returns
    without touching anything. *)
Theorem disconnect_vm_idempotent (inst : string) (s : Bridge) :
  run (disconnect_vm inst) (run (disconnect_vm inst) s) = run (disconnect_vm inst) s ∧
  (dict_get inst (connections s) = None → disconnect_vm inst s = (Ok tt, s)).
Proof.
  split; [|apply disconnect_vm_absent].
  destruct (dict_get inst (connections s)) as [a|] eqn:Ea.
  - destruct (heap s !! a) as [c|] eqn:Eh.
    + destruct (disconnect_vm_run inst s a c) as (s' & Hrun & Hc & _); [done..|].
      unfold run. rewrite Hrun. cbn [snd].
      rewrite disconnect_vm_absent; [done|]. rewrite Hc. apply dict_get_del_eq.
    + assert (Hrun : disconnect_vm inst s = (Raise (Exception "no object at this address"), s)).
      { unfold disconnect_vm, deref. mred. rewrite Ea. mred. by rewrite Eh. }
      unfold run. rewrite Hrun. cbn [snd]. by rewrite Hrun.
  - unfold run. rewrite (disconnect_vm_absent inst s Ea). cbn [snd].
    by rewrite (disconnect_vm_absent inst s Ea).
Qed.

(** X2: [disconnect_vm] of a registered worker returns normally, closes
    that worker's socket, and keeps the connection object; the registry
    entries and reverse-index entries of the other workers are as before,
    and so is every job but the one the reverse index names for this
    worker; that one too is untouched when it is no longer active. *)
Theorem disconnect_vm_leaves_others (inst : string) (s : Bridge) (a : Addr) (c : VMConnection) :
  dict_get inst (connections s) = Some a →
  heap s !! a = Some c →
  let s' := run (disconnect_vm inst) s in
  outcome (disconnect_vm inst) s = Ok tt ∧
  heap s' = heap s ∧
  websocket c ∈ closed s' ∧
  (∀ i, i ≠ inst → dict_get i (connections s') = dict_get i (connections s)) ∧
  (∀ i, i ≠ inst → instance_tasks s' !! i = instance_tasks s !! i) ∧
  (∀ k, instance_tasks s !! inst ≠ Some k → dict_get k (jobs s') = dict_get k (jobs s)) ∧
  (∀ k j, instance_tasks s !! inst = Some k → dict_get k (jobs s) = Some j →
          is_active j = false → jobs s' = jobs s).
Proof.
  intros Ha Hh. cbn zeta.
  destruct (disconnect_vm_run inst s a c)
    as (s' & Hrun & Hc & Hheap & Hcl & Hits & Hjobs & _); [done..|].
  unfold run, outcome. rewrite Hrun. cbn [fst snd].
  split; [done|]. split; [done|]. split; [rewrite Hcl; set_solver|].
  split. { intros i Hne. rewrite Hc. by apply dict_get_del_ne. }
  split. { intros i Hne. rewrite Hits. by apply lookup_delete_ne. }
  split.
  - intros k Hk. rewrite Hjobs. unfold jobs_after_disconnect.
    destruct (instance_tasks s !! inst) as [t|]; [|done].
    destruct (dict_get t (jobs s)) as [j|]; [|done].
    destruct (is_active j); [|done].
    assert (t ≠ k) by congruence.
    by rewrite !dict_get_alter_ne.
  - intros k j Hk Hj Hact. rewrite Hjobs. unfold jobs_after_disconnect.
    by rewrite Hk, Hj, Hact.
Qed.

Lemma for_each_disconnect_run l s :
  registry_sound s →
  ∃ s', for_each l disconnect_vm s = (Ok tt, s') ∧
        connections s' = filter (λ p, p.1 ∉ l) (connections s) ∧
        heap s' = heap s ∧ clock s' = clock s ∧ closed s ⊆ closed s'.
Proof.
  revert s. induction l as [|i l IH]; intros s Hs.
  - exists s. split; [done|]. split; [|done].
    symmetry. clear Hs. induction (connections s) as [|p d IHd]; [done|].
    rewrite filter_cons, decide_True by apply not_elem_of_nil. by rewrite IHd.
  - destruct (disconnect_vm_sound_run i s Hs) as (s1 & Hrun & Hc & Hh & Hclk & Hcl & Hs1).
    destruct (IH s1 Hs1) as (s2 & Hrun2 & Hc2 & Hh2 & Hclk2 & Hcl2).
    exists s2. cbn [for_each]. mred. rewrite Hrun. mred.
    split; [done|]. split; [|split; [congruence|split; [congruence|set_solver]]].
    rewrite Hc2, Hc, dict_del_filter, list_filter_filter.
    apply list_filter_iff. intros p. rewrite not_elem_of_cons. tauto.
Qed.

Lemma filter_ext_in {A} (P Q : A → Prop) `{!∀ x, Decision (P x), !∀ x, Decision (Q x)}
    (l : list A) :
  (∀ x, x ∈ l → P x ↔ Q x) → filter P l = filter Q l.
Proof.
  induction l as [|x l IH]; intros Hext; [done|].
  rewrite !filter_cons.
  assert (Hx : P x ↔ Q x) by (apply Hext; by left).
  rewrite IH by (intros y Hy; apply Hext; by right).
  destruct (decide (P x)), (decide (Q x)); tauto || done.
Qed.

(** X3: on a registry whose entries point to live objects, one per
    [instance_id] (as in every reachable state), one round of
    [_cleanup_loop] never raises and leaves in the registry exactly the
    entries whose connection [is_alive] at the time of the round, in
    their old order; connection objects are kept and no closed socket is
    reopened. *)
Theorem cleanup_round_keeps_alive (s : Bridge) :
  registry_sound s →
  NoDup (dict_keys (connections s)) →
  let s' := run cleanup_round s in
  outcome cleanup_round s = Ok tt ∧
  connections s' = filter (λ p, alive_entry s p = true) (connections s) ∧
  heap s' = heap s ∧ closed s ⊆ closed s'.
Proof.
  intros Hs Hnd. unfold cleanup_round. mred.
  set (dead := omap _ (connections s)).
  destruct (for_each_disconnect_run dead s Hs) as (s' & Hrun & Hc & Hh & _ & Hcl).
  rewrite Hrun. mred. split; [done|]. split; [|done]. rewrite Hc.
  apply filter_ext_in. intros [i a] Hin. cbn [fst]. unfold alive_entry. cbn [snd].
  subst dead. rewrite list_elem_of_omap. split.
  - intros Hnot. destruct (heap s !! a) as [c|] eqn:Eh; [|done].
    destruct (is_alive c (clock s)) eqn:Eal; [done|].
    exfalso. apply Hnot. exists (i, a). split; [done|]. by rewrite Eh, Eal.
  - intros Hal [[i' a'] [Hin' Hdead]].
    destruct (heap s !! a') as [c'|] eqn:Eh'; [|done].
    destruct (is_alive c' (clock s)) eqn:Eal'; [done|].
    injection Hdead as ->.
    assert (a' = a) as ->.
    { pose proof (dict_get_NoDup _ _ _ Hnd Hin) as H1.
      pose proof (dict_get_NoDup _ _ _ Hnd Hin') as H2. congruence. }
    rewrite Eh', Eal' in Hal. discriminate.
Qed.


Lemma close_all_spec (l : list (string * Addr)) s :
  ∃ s', close_all l s = (Ok tt, s') ∧
        heap s' = heap s ∧ connections s' = connections s ∧ jobs s' = jobs s ∧
        instance_tasks s' = instance_tasks s ∧ event_subscribers s' = event_subscribers s ∧
        closed s ⊆ closed s' ∧
        ∀ i a c, (i, a) ∈ l → heap s !! a = Some c → websocket c ∈ closed s'.
Proof.
  unfold close_all. revert s. induction l as [|[i a] l IH]; intros s.
  - exists s. repeat split; try done. intros i a c Hin. by apply not_elem_of_nil in Hin.
  - cbn [for_each]. unfold deref, ws_close. mred.
    destruct (heap s !! a) as [c|] eqn:Eh; mred.
    + destruct (decide (websocket c ∈ closed s)) as [Hin|Hout]; mred.
      * destruct (IH s) as (s' & Hrun & Hh & Hc & Hj & Hi & He & Hcl & Hall).
        exists s'. split; [done|]. repeat (split; [done|]).
        intros i' a' c' [Heq|Hin']%elem_of_cons Hh'.
        -- injection Heq as -> ->. assert (c' = c) as -> by congruence. set_solver.
        -- by eapply Hall.
      * match goal with |- context [for_each l _ ?s1] => destruct (IH s1)
          as (s' & Hrun & Hh & Hc & Hj & Hi & He & Hcl & Hall) end.
        mred_in Hh. mred_in Hc. mred_in Hj. mred_in Hi. mred_in He. mred_in Hcl.
        exists s'. split; [done|]. repeat (split; [done|]).
        split; [set_solver|].
        intros i' a' c' [Heq|Hin']%elem_of_cons Hh'.
        -- injection Heq as -> ->. assert (c' = c) as -> by congruence. set_solver.
        -- by eapply Hall.
    + destruct (IH s) as (s' & Hrun & Hh & Hc & Hj & Hi & He & Hcl & Hall).
      exists s'. split; [done|]. repeat (split; [done|]).
      intros i' a' c' [Heq|Hin']%elem_of_cons Hh'.
      * injection Heq as -> ->. congruence.
      * by eapply Hall.
Qed.

(** X4: [stop] never raises; it closes the socket of every registered
    connection and empties the registry, but goes around [disconnect_vm]:
    the jobs, the reverse index [instance_tasks] and the subscribers are
    left as they were. *)
Theorem stop_closes_and_clears (s : Bridge) :
  let s' := run stop s in
  outcome stop s = Ok tt ∧
  connections s' = [] ∧
  (∀ i a c, (i, a) ∈ connections s → heap s !! a = Some c → websocket c ∈ closed s') ∧
  jobs s' = jobs s ∧ instance_tasks s' = instance_tasks s ∧
  event_subscribers s' = event_subscribers s ∧ heap s' = heap s.
Proof.
  cbn zeta. unfold stop. mred.
  destruct (close_all_spec (connections s) s) as (s' & Hrun & Hh & Hc & Hj & Hi & He & Hcl & Hall).
  unfold close_all in Hrun. rewrite Hrun. mred. repeat split; try done.
Qed.

(** X5: [VMConnection.ping] never raises.  When the frame goes out,
    [last_ping] becomes the current time; when the send fails, the status
    becomes "offline" and nothing is written, and the connection as
    [ping] leaves it is not [is_alive], whatever the clock shows.  It
    stays so only until its status is written again
    ([offline_worker_revived]). *)
Theorem ping_marks_offline (a : Addr) (c : VMConnection) (s : Bridge) :
  heap s !! a = Some c →
  let s' := run (ping a) s in
  outcome (ping a) s = Ok tt ∧
  (websocket c ∉ closed s →
     heap s' !! a = Some (with_last_ping (clock s) c) ∧
     trace s' = trace s ++ [Sent (websocket c) FPing]) ∧
  (websocket c ∈ closed s →
     heap s' !! a = Some (with_conn_status "offline" c) ∧ trace s' = trace s ∧
     ∀ now, is_alive (with_conn_status "offline" c) now = false).
Proof.
  intros Hh. cbn zeta. unfold ping, deref, send_json. mred. rewrite Hh. mred.
  destruct (decide (websocket c ∈ closed s)) as [Hin|Hout]; mred.
  - split; [done|]. split; [done|]. intros _.
    rewrite lookup_alter_eq, Hh. done.
  - split; [done|]. split; [|done]. intros _.
    rewrite lookup_alter_eq, Hh. done.
Qed.

(** An offline connection does not stay offline: the handlers of
    [task_complete] and [task_failed] set the status of the connection
    the frame came in on to "online", whatever it was. *)
Example offline_worker_revived :
  let s := run (ping 0%nat) dropped_bridge in
  let s' := run (_process_vm_message 0%nat done_frame) s in
  (λ c, (status c, is_alive c (clock s))) <$> heap s !! 0%nat = Some ("offline", false) ∧
  (λ c, (status c, is_alive c (clock s'))) <$> heap s' !! 0%nat = Some ("online", true).
Proof. vm_compute. done. Qed.


Lemma find_available_head conns s :
  find_available conns s = fst <$> head (filter (λ p, idle_entry s p = true) conns).
Proof.
  induction conns as [|[i a] rest IH]; [done|].
  cbn [find_available]. rewrite filter_cons.
  destruct (idle_entry s (i, a)) eqn:E; unfold idle_entry in E; cbn [fst snd] in E.
  - rewrite decide_True by done. destruct (heap s !! a) as [c|]; [|discriminate].
    by rewrite E.
  - rewrite decide_False by done. destruct (heap s !! a) as [c|]; [|exact IH].
    by rewrite E.
Qed.

Lemma find_available_ext conns s1 s2 :
  heap s1 = heap s2 → instance_tasks s1 = instance_tasks s2 →
  find_available conns s1 = find_available conns s2.
Proof.
  intros Hh Hi. induction conns as [|[i a] rest IH]; [done|].
  cbn [find_available]. by rewrite Hh, Hi, IH.
Qed.

Lemma submit_job_accepts job inst vm s :
  (if truthy inst then inst else find_available (connections s) s) = Some vm →
  truthy (Some vm) = true →
  let k := job_id job in
  let s' := run (submit_job job inst) s in
  outcome (submit_job job inst) s = Ok k ∧
  dict_get k (jobs s') = Some (with_vm_id (Some vm) (with_status QUEUED job)) ∧
  (∀ k', k' ≠ k → dict_get k' (jobs s') = dict_get k' (jobs s)) ∧
  job_queues s' = <[k := [k]]> (job_queues s) ∧
  tasks s' = tasks s ++ [TryStartJob k] ∧
  heap s' = heap s ∧ connections s' = connections s ∧ instance_tasks s' = instance_tasks s.
Proof.
  intros Hvm Htruthy. cbn zeta. unfold submit_job, _find_available_instance. mred.
  assert (Hget : ∀ h q, dict_get (job_id job) (jobs
     (mkBridge h (connections s)
        (dict_alter (with_vm_id (Some vm)) (job_id job)
           (dict_alter (with_status QUEUED) (job_id job)
              (dict_set (job_id job) job (jobs s))))
        q (event_subscribers s) (instance_tasks s) (event_callbacks s)
        (approval_callbacks s) (context_callbacks s) (clock s) (closed s) (trace s)
        (tasks s)))
     = Some (with_vm_id (Some vm) (with_status QUEUED job))).
  { intros h q. cbn [jobs]. by rewrite !dict_get_alter_eq, dict_get_set_eq. }
  assert (Hother : ∀ k', k' ≠ job_id job →
     dict_get k' (dict_alter (with_vm_id (Some vm)) (job_id job)
           (dict_alter (with_status QUEUED) (job_id job)
              (dict_set (job_id job) job (jobs s)))) = dict_get k' (jobs s)).
  { intros k' Hne. rewrite !dict_get_alter_ne, dict_get_set_ne by done. done. }
  destruct (truthy inst) eqn:Einst; mred.
  - subst inst. rewrite Htruthy. cbn [negb]. mred.
    erewrite the_job_run by apply Hget. mred. rewrite _broadcast_event_run. mred.
    destruct (broadcast_state_frame (job_id job)
      (mkEvent JOB_QUEUED (job_id job) (clock s)
         [("task_prompt", VStr (job_task_prompt (with_vm_id (Some vm) (with_status QUEUED job))));
          ("vm_id", VOptStr (job_vm_id (with_vm_id (Some vm) (with_status QUEUED job))));
          ("policy_profile", VStr (job_policy_profile (with_vm_id (Some vm) (with_status QUEUED job))));
          ("max_runtime_minutes", VInt (job_max_runtime_minutes (with_vm_id (Some vm) (with_status QUEUED job))))])
      (mkBridge (heap s) (connections s)
        (dict_alter (with_vm_id (Some vm)) (job_id job)
           (dict_alter (with_status QUEUED) (job_id job)
              (dict_set (job_id job) job (jobs s))))
        (<[job_id job := [job_id job]]> (job_queues s)) (event_subscribers s)
        (instance_tasks s) (event_callbacks s)
        (approval_callbacks s) (context_callbacks s) (clock s) (closed s) (trace s)
        (tasks s)))
      as (H1 & H2 & H3 & H4 & H5 & H6 & H7 & H8).
    mred_in H1. mred_in H2. mred_in H3. mred_in H4. mred_in H5. mred_in H8.
    cbn [job_task_prompt job_vm_id job_policy_profile job_max_runtime_minutes with_vm_id with_status] in *.
    rewrite H1, H2, H3, H4, H5, H8.
    split; [done|]. split; [apply (Hget (heap s) (job_queues s))|]. split; [exact Hother|]. done.
  - rewrite (find_available_ext _ _ s) by done. rewrite Hvm, Htruthy. cbn [negb]. mred.
    erewrite the_job_run by apply Hget. mred. rewrite _broadcast_event_run. mred.
    destruct (broadcast_state_frame (job_id job)
      (mkEvent JOB_QUEUED (job_id job) (clock s)
         [("task_prompt", VStr (job_task_prompt (with_vm_id (Some vm) (with_status QUEUED job))));
          ("vm_id", VOptStr (job_vm_id (with_vm_id (Some vm) (with_status QUEUED job))));
          ("policy_profile", VStr (job_policy_profile (with_vm_id (Some vm) (with_status QUEUED job))));
          ("max_runtime_minutes", VInt (job_max_runtime_minutes (with_vm_id (Some vm) (with_status QUEUED job))))])
      (mkBridge (heap s) (connections s)
        (dict_alter (with_vm_id (Some vm)) (job_id job)
           (dict_alter (with_status QUEUED) (job_id job)
              (dict_set (job_id job) job (jobs s))))
        (<[job_id job := [job_id job]]> (job_queues s)) (event_subscribers s)
        (instance_tasks s) (event_callbacks s)
        (approval_callbacks s) (context_callbacks s) (clock s) (closed s) (trace s)
        (tasks s)))
      as (H1 & H2 & H3 & H4 & H5 & H6 & H7 & H8).
    mred_in H1. mred_in H2. mred_in H3. mred_in H4. mred_in H5. mred_in H8.
    cbn [job_task_prompt job_vm_id job_policy_profile job_max_runtime_minutes with_vm_id with_status] in *.
    rewrite H1, H2, H3, H4, H5, H8.
    split; [done|]. split; [apply (Hget (heap s) (job_queues s))|]. split; [exact Hother|]. done.
Qed.

Lemma truthy_Some (v : string) : v ≠ "" → truthy (Some v) = true.
Proof. intros H. cbn. by destruct (String.eqb_spec v ""). Qed.

(** X6: with a non-empty preferred worker, [submit_job] does not look at
    the registry: whether or not that worker is connected, the job is
    stored as [queued] with that [vm_id], its queue is made, a start is
    scheduled and the job id is returned; connections and reverse index
    are untouched. *)
Theorem submit_job_preferred_unchecked (job : Job) (vm : string) (s : Bridge) :
  vm ≠ "" →
  let k := job_id job in
  let s' := run (submit_job job (Some vm)) s in
  outcome (submit_job job (Some vm)) s = Ok k ∧
  dict_get k (jobs s') = Some (with_vm_id (Some vm) (with_status QUEUED job)) ∧
  (∀ k', k' ≠ k → dict_get k' (jobs s') = dict_get k' (jobs s)) ∧
  job_queues s' = <[k := [k]]> (job_queues s) ∧
  tasks s' = tasks s ++ [TryStartJob k] ∧
  heap s' = heap s ∧ connections s' = connections s ∧ instance_tasks s' = instance_tasks s.
Proof.
  intros Hvm. apply submit_job_accepts; [|by apply truthy_Some].
  by rewrite truthy_Some.
Qed.

(** X7: without a preferred worker, [submit_job] assigns the job to the
    first entry of the registry, in insertion order, whose connection is
    "online" and has no task in the reverse index. *)
Theorem submit_job_first_idle (job : Job) (inst : option string) (s : Bridge)
    (pre post : list (string * Addr)) (i : string) (a : Addr) :
  truthy inst = false →
  connections s = pre ++ (i, a) :: post →
  Forall (λ p, idle_entry s p = false) pre →
  idle_entry s (i, a) = true →
  i ≠ "" →
  let k := job_id job in
  let s' := run (submit_job job inst) s in
  outcome (submit_job job inst) s = Ok k ∧
  dict_get k (jobs s') = Some (with_vm_id (Some i) (with_status QUEUED job)) ∧
  tasks s' = tasks s ++ [TryStartJob k] ∧
  heap s' = heap s ∧ connections s' = connections s ∧ instance_tasks s' = instance_tasks s.
Proof.
  intros Hinst Hconns Hpre Hidle Hi.
  assert (Hfind : find_available (connections s) s = Some i).
  { rewrite find_available_head, Hconns, filter_app, filter_cons, decide_True by done.
    assert (Hnil : filter (λ p, idle_entry s p = true) pre = []).
    { clear Hconns. induction Hpre as [|p pre Hp _ IH]; [done|].
      rewrite filter_cons, decide_False by congruence. exact IH. }
    by rewrite Hnil. }
  destruct (submit_job_accepts job inst i s) as (H1 & H2 & _ & _ & H5 & H6 & H7 & H8).
  - by rewrite Hinst.
  - by apply truthy_Some.
  - done.
Qed.

Lemma try_start_job_skip k s :
  (∀ job vm a, dict_get k (jobs s) = Some job → job_status job = QUEUED →
               assigned_vm job = Some vm → dict_get vm (connections s) = Some a → False) →
  _try_start_job k s = (Ok tt, s).
Proof.
  intros H. unfold _try_start_job. mred.
  destruct (dict_get k (jobs s)) as [job|] eqn:Ej; [|done].
  destruct (decide (job_status job = QUEUED)) as [Hq|Hq].
  - rewrite bool_decide_eq_true_2 by done. cbn [negb]. mred.
    fold (assigned_vm job).
    destruct (assigned_vm job) as [vm|] eqn:Evm; [|done].
    destruct (dict_get vm (connections s)) as [a|] eqn:Ea; [|done].
    destruct (H job vm a); done.
  - by rewrite bool_decide_eq_false_2.
Qed.

Lemma broadcast_state_silent job event s :
  trace (broadcast_state job event s) = trace s.
Proof.
  unfold broadcast_state. destruct (event_subscribers s !! job); [|done].
  by destruct s.
Qed.

Lemma broadcast_state_trace job event s :
  ∃ frames, trace (broadcast_state job event s) = trace s ++ frames.
Proof. exists []. by rewrite app_nil_r, broadcast_state_silent. Qed.

Lemma try_start_job_run k job vm a s :
  dict_get k (jobs s) = Some job →
  job_status job = QUEUED →
  assigned_vm job = Some vm →
  dict_get vm (connections s) = Some a →
  let s' := run (_try_start_job k) s in
  dict_get k (jobs s') = Some (started (clock s) job) ∧
  (∀ k', k' ≠ k → dict_get k' (jobs s') = dict_get k' (jobs s)) ∧
  instance_tasks s' = <[vm := k]> (instance_tasks s) ∧
  heap s' = alter (occupied k) a (heap s) ∧
  connections s' = connections s ∧
  (∀ c, heap s !! a = Some c →
     outcome (_try_start_job k) s
       = (if decide (websocket c ∈ closed s)
          then Raise (Exception "send on a closed socket") else Ok tt) ∧
     (websocket c ∉ closed s →
        ∃ frames, trace s' =
          trace s ++ Sent (websocket c)
            (FTaskStart (job_id job) (job_task_prompt job) (job_policy_profile job)
               (job_max_runtime_minutes job) (job_steps job)) :: frames) ∧
     (websocket c ∈ closed s → trace s' = trace s)).
Proof.
  intros Hj Hq Hvm Ha. cbn zeta. unfold _try_start_job. mred. rewrite Hj.
  rewrite bool_decide_eq_true_2 by done. cbn [negb]. mred.
  fold (assigned_vm job). rewrite Hvm, Ha. mred. rewrite send_run. mred.
  assert (Halter : ∀ h : gmap Addr VMConnection,
            alter (with_conn_status "busy") a (alter (with_current_task_id (Some k)) a h)
            = alter (occupied k) a h).
  { intros h. by rewrite alter_alter_eq. }
  assert (Hget : dict_get k (dict_alter (with_started_at (Some (clock s))) k
                   (dict_alter (with_status RUNNING) k (jobs s)))
                 = Some (started (clock s) job)).
  { by rewrite !dict_get_alter_eq, Hj. }
  assert (Hother : ∀ k', k' ≠ k →
            dict_get k' (dict_alter (with_started_at (Some (clock s))) k
                   (dict_alter (with_status RUNNING) k (jobs s))) = dict_get k' (jobs s)).
  { intros k' Hne. by rewrite !dict_get_alter_ne. }
  rewrite !lookup_alter_eq.
  destruct (heap s !! a) as [c|] eqn:Eh; cbn [fmap option_fmap option_map websocket with_conn_status with_current_task_id].
  - destruct (decide (websocket c ∈ closed s)) as [Hin|Hout]; mred.
    + rewrite Halter. do 5 (split; [done|]).
      intros c' [= <-]. rewrite decide_True by done. split; [done|]. split; [|done].
      intros Hout. contradiction.
    + rewrite _broadcast_event_run. mred.
      match goal with |- context [broadcast_state ?j ?e ?st] =>
        destruct (broadcast_state_frame j e st) as (H1 & H2 & H3 & H4 & H5 & H6 & H7 & H8);
        destruct (broadcast_state_trace j e st) as [frames Htr] end.
      mred_in H1. mred_in H2. mred_in H3. mred_in H5. mred_in Htr.
      rewrite H1, H2, H3, H5, Htr, Halter. do 5 (split; [done|]).
      intros c' [= <-]. rewrite decide_False by done. split; [done|]. split; [|done].
      intros _. rewrite <- app_assoc. cbn. eauto.
  - mred. rewrite Halter. do 5 (split; [done|]). intros c' [=].
Qed.


(** X9: running [_try_start_job] a second time for the same job changes
    nothing: the job is started at most once. *)
Theorem try_start_job_once (k : string) (s : Bridge) :
  run (_try_start_job k) (run (_try_start_job k) s) = run (_try_start_job k) s.
Proof.
  assert (Hskip : ∀ s1 j, dict_get k (jobs s1) = Some j → job_status j ≠ QUEUED →
            _try_start_job k s1 = (Ok tt, s1)).
  { intros s1 j Hj Hq. apply try_start_job_skip. intros job vm a Hj' Hq' _ _.
    assert (job = j) as -> by congruence. done. }
  destruct (dict_get k (jobs s)) as [job|] eqn:Ej.
  - destruct (decide (job_status job = QUEUED)) as [Hq|Hq].
    + destruct (assigned_vm job) as [vm|] eqn:Evm.
      * destruct (dict_get vm (connections s)) as [a|] eqn:Ea.
        -- destruct (try_start_job_run k job vm a s Ej Hq Evm Ea) as (H1 & _).
           unfold run at 1. by erewrite Hskip.
        -- assert (Hno : _try_start_job k s = (Ok tt, s)).
           { apply try_start_job_skip. intros j v a Hj _ Hv Ha. congruence. }
           unfold run. rewrite Hno. cbn [snd]. by rewrite Hno.
      * assert (Hno : _try_start_job k s = (Ok tt, s)).
        { apply try_start_job_skip. intros j v a Hj _ Hv Ha. congruence. }
        unfold run. rewrite Hno. cbn [snd]. by rewrite Hno.
    + unfold run. rewrite (Hskip s job Ej Hq). cbn [snd]. by rewrite (Hskip s job Ej Hq).
  - assert (Hno : _try_start_job k s = (Ok tt, s)).
    { apply try_start_job_skip. intros j v a Hj. congruence. }
    unfold run. rewrite Hno. cbn [snd]. by rewrite Hno.
Qed.


Lemma when_delete_run (i : string) (s : Bridge) :
  when (bool_decide (is_Some (instance_tasks s !! i)))
    (modify (set_instance_tasks (delete i))) s
  = (Ok tt, set_instance_tasks (delete i) s).
Proof.
  destruct (instance_tasks s !! i) as [t|] eqn:E.
  - rewrite bool_decide_eq_true_2 by eauto. done.
  - rewrite bool_decide_eq_false_2 by (intros [? ?]; discriminate). mred.
    rewrite delete_id by done. by destruct s.
Qed.

(** X10: a [task_complete] frame with a result, for a stored job, marks
    that job [completed] with the frame's result and artifacts and the
    current time, leaves the other jobs alone, and releases the
    connection the frame came in on (status "online", no current task,
    its [instance_id] out of the reverse index), whichever worker the job
    was assigned to. *)
Theorem task_complete_releases_worker (a : Addr) (c : VMConnection) (k : string) (j : Job)
    (r : ResultDict) (s : Bridge) :
  heap s !! a = Some c →
  dict_get k (jobs s) = Some j →
  let s' := run (_handle_task_complete a (Some k) (Some r)) s in
  outcome (_handle_task_complete a (Some k) (Some r)) s = Ok tt ∧
  dict_get k (jobs s') = Some (completed_with (clock s) r j) ∧
  (∀ k', k' ≠ k → dict_get k' (jobs s') = dict_get k' (jobs s)) ∧
  heap s' !! a = Some (released c) ∧
  instance_tasks s' = delete (instance_id c) (instance_tasks s) ∧
  connections s' = connections s.
Proof.
  intros Hh Hj. cbn zeta. unfold _handle_task_complete, dict_in, deref. mred. rewrite Hj.
  cbn [negb]. mred. rewrite Hh. mred.
  assert (Hget : dict_get k
      (dict_alter (with_artifacts (default [] (res_artifacts r))) k
         (dict_alter (with_result (res_result r)) k
            (dict_alter (with_completed_at (Some (clock s))) k
               (dict_alter (with_status COMPLETED) k (jobs s)))))
    = Some (completed_with (clock s) r j)).
  { by rewrite !dict_get_alter_eq, Hj. }
  destruct (instance_tasks s !! instance_id c) as [t|] eqn:Eit;
    [rewrite bool_decide_eq_true_2 by eauto
    |rewrite bool_decide_eq_false_2 by (intros [? ?]; discriminate)]; mred.
  all: unfold the_job; mred; rewrite Hget; mred; rewrite _broadcast_event_run; mred.
  all: match goal with |- context [broadcast_state ?jb ?e ?st] =>
    destruct (broadcast_state_frame jb e st) as (H1 & H2 & H3 & H4 & H5 & _) end.
  all: mred_in H1; mred_in H2; mred_in H3; mred_in H5.
  all: rewrite H1, H2, H3, H5; split; [done|]; split; [exact Hget|].
  all: split; [intros k' Hne; by rewrite !dict_get_alter_ne|].
  all: split; [rewrite !lookup_alter_eq, Hh; done|].
  all: split; [|done].
  - done.
  - by rewrite delete_id.
Qed.

(** X11: a [task_failed] frame with an error, for a stored job, marks
    that job [failed] with the frame's message and code and the current
    time, leaves the other jobs alone, and releases the connection the
    frame came in on. *)
Theorem task_failed_releases_worker (a : Addr) (c : VMConnection) (k : string) (j : Job)
    (e : ErrorDict) (s : Bridge) :
  heap s !! a = Some c →
  dict_get k (jobs s) = Some j →
  let s' := run (_handle_task_failed a (Some k) (Some e)) s in
  outcome (_handle_task_failed a (Some k) (Some e)) s = Ok tt ∧
  dict_get k (jobs s') = Some (failed_with (clock s) e j) ∧
  (∀ k', k' ≠ k → dict_get k' (jobs s') = dict_get k' (jobs s)) ∧
  heap s' !! a = Some (released c) ∧
  instance_tasks s' = delete (instance_id c) (instance_tasks s) ∧
  connections s' = connections s.
Proof.
  intros Hh Hj. cbn zeta. unfold _handle_task_failed, dict_in, deref. mred. rewrite Hj.
  cbn [negb]. mred. rewrite Hh. mred.
  assert (Hget : dict_get k
      (dict_alter (with_error_code (err_code e)) k
         (dict_alter (with_error_message (err_message e)) k
            (dict_alter (with_completed_at (Some (clock s))) k
               (dict_alter (with_status FAILED) k (jobs s)))))
    = Some (failed_with (clock s) e j)).
  { by rewrite !dict_get_alter_eq, Hj. }
  destruct (instance_tasks s !! instance_id c) as [t|] eqn:Eit;
    [rewrite bool_decide_eq_true_2 by eauto
    |rewrite bool_decide_eq_false_2 by (intros [? ?]; discriminate)]; mred.
  all: unfold the_job; mred; rewrite Hget; mred; rewrite _broadcast_event_run; mred.
  all: match goal with |- context [broadcast_state ?jb ?ev ?st] =>
    destruct (broadcast_state_frame jb ev st) as (H1 & H2 & H3 & H4 & H5 & _) end.
  all: mred_in H1; mred_in H2; mred_in H3; mred_in H5.
  all: rewrite H1, H2, H3, H5; split; [done|]; split; [exact Hget|].
  all: split; [intros k' Hne; by rewrite !dict_get_alter_ne|].
  all: split; [rewrite !lookup_alter_eq, Hh; done|].
  all: split; [|done].
  - done.
  - by rewrite delete_id.
Qed.

(** X12: a [task_complete] or [task_failed] frame that names no job, or
    a job the bridge does not store, is dropped: no exception, no change
    of the bridge. *)
Theorem unknown_task_frame_ignored (a : Addr) (task_id : option string)
    (result : option ResultDict) (error : option ErrorDict) (s : Bridge) :
  (∀ k, task_id = Some k → dict_get k (jobs s) = None) →
  _process_vm_message a (MsgTaskComplete task_id result) s = (Ok tt, s) ∧
  _process_vm_message a (MsgTaskFailed task_id error) s = (Ok tt, s).
Proof.
  intros H. unfold _process_vm_message, _handle_task_complete, _handle_task_failed, dict_in.
  mred. destruct task_id as [k|]; [|done]. by rewrite (H k eq_refl).
Qed.

(** X13: when handling a frame raises, the message loop of
    [_handle_vm_messages] catches the exception and disconnects the
    worker (the registry entries pointing to live objects): the loop ends
    normally and the worker's [instance_id] is no longer registered. *)
Theorem failing_frame_disconnects (a : Addr) (c : VMConnection) (message : VMMessage)
    (e : Exn) (s : Bridge) :
  registry_sound s →
  heap s !! a = Some c →
  outcome (_process_vm_message a message) s = Raise e →
  let s' := run (_handle_vm_messages a (Some message)) s in
  outcome (_handle_vm_messages a (Some message)) s = Ok tt ∧
  dict_get (instance_id c) (connections s') = None.
Proof.
  intros Hs Hh Hraise. cbn zeta. unfold _handle_vm_messages. mred.
  pose proof (process_vm_message_connections a message s) as Hc.
  pose proof (process_vm_message_keeps a message s) as Hk.
  unfold run, outcome in Hc, Hk, Hraise.
  destruct (_process_vm_message a message s) as [[[]|e'] s1]; cbn [fst snd] in *;
    [discriminate|].
  destruct (Hk a c Hh) as (c1 & Hh1 & Hid).
  unfold deref. mred. rewrite Hh1. mred. rewrite Hid.
  assert (Hs1 : registry_sound s1).
  { eapply registry_sound_step; [exact Hs|exact Hk|by rewrite Hc]. }
  destruct (dict_get (instance_id c) (connections s1)) as [a'|] eqn:Ea.
  - destruct (Hs1 _ _ (dict_get_elem_of _ _ _ Ea)) as (c' & Hh' & _).
    destruct (disconnect_vm_run (instance_id c) s1 a' c')
      as (s2 & Hrun & Hcs & _ & _ & Hits & _); [done..|].
    rewrite Hrun. cbn [fst snd]. split; [done|].
    rewrite Hcs. apply dict_get_del_eq.
  - rewrite disconnect_vm_absent by done. cbn [fst snd]. done.
Qed.


Lemma submit_job_rejects job inst s :
  truthy (if truthy inst then inst else find_available (connections s) s) = false →
  submit_job job inst s
    = (Raise (Exception NO_VM), set_jobs (dict_set (job_id job) (with_status QUEUED job)) s).
Proof.
  intros H. unfold submit_job, _find_available_instance. mred.
  destruct (truthy inst) eqn:Einst; mred.
  - congruence.
  - rewrite (find_available_ext _ _ s) by done. rewrite H. cbn [negb]. mred.
    by rewrite dict_alter_set.
Qed.

(** X21: the route [create_task] ends in one of two ways.  Either it
    returns the job, stored, [queued], with a worker assigned and a start
    scheduled; or it answers 500 "Failed to submit job: No VM instances
    available", which happens only without a preferred worker, and then
    the job is stored and [queued] all the same, with no start scheduled,
    and [get_task] shows it as active with progress 0. *)
Theorem create_task_outcomes (new_id : string) (request : CreateJobRequest)
    (inst : option string) (uid : Z) (s : Bridge) :
  match create_task new_id request inst uid s with
  | (Returned j, s') =>
      dict_get new_id (jobs s') = Some j ∧ job_status j = QUEUED ∧
      truthy (job_vm_id j) = true ∧ tasks s' = tasks s ++ [TryStartJob new_id]
  | (HTTPException status_code detail, s') =>
      status_code = 500 ∧ detail = "Failed to submit job: No VM instances available" ∧
      truthy inst = false ∧ tasks s' = tasks s ∧
      ∃ j, dict_get new_id (jobs s') = Some j ∧ job_status j = QUEUED ∧
           fst (get_task new_id s') = Returned (mkTaskView j None float_zero true)
  | (Propagated _, _) => False
  end.
Proof.
  unfold create_task.
  set (job := mkJob new_id uid (req_task_prompt request) inst (req_policy_profile request)
                PENDING [] 0 None [] None None None None (req_max_runtime_minutes request)).
  destruct (if truthy inst then inst else find_available (connections s) s) as [vm|] eqn:Evm.
  - destruct (truthy (Some vm)) eqn:Etr.
    + destruct (submit_job_accepts job inst vm s Evm Etr) as (H1 & H2 & _ & _ & H5 & _).
      unfold outcome, run in *. destruct (submit_job job inst s) as [[k|e] s'];
        cbn [fst snd] in *; [|discriminate].
      change (job_id job) with new_id in *. rewrite H2. done.
    + rewrite submit_job_rejects by (by rewrite Evm).
      cbn [exn_str NO_VM]. split; [done|]. split; [done|].
      split; [destruct (truthy inst) eqn:E; [congruence|done]|]. split; [done|].
      eexists. mred. change (job_id job) with new_id.
      split; [apply dict_get_set_eq|]. split; [done|].
      unfold get_task. mred. by rewrite dict_get_set_eq.
  - rewrite submit_job_rejects by (by rewrite Evm).
    cbn [exn_str NO_VM]. split; [done|]. split; [done|].
    split; [destruct (truthy inst) eqn:E; [by subst inst|done]|]. split; [done|].
    eexists. mred. change (job_id job) with new_id.
    split; [apply dict_get_set_eq|]. split; [done|].
    unfold get_task. mred. by rewrite dict_get_set_eq.
Qed.

(** X22: the route [cancel_task] answers 404 exactly for an unknown
    task and 400 exactly for a stored task that is not active, both
    without touching the bridge; for an active task it either returns
    with the job [cancelled], or lets the send failure of [cancel_job]
    through with the bridge unchanged.  Its 500 "Failed to cancel task"
    is never given. *)
Theorem cancel_task_outcomes (task_id reason : string) (s : Bridge) :
  match cancel_task task_id reason s with
  | (HTTPException status_code detail, s') =>
      s' = s ∧
      ((status_code = 404 ∧ detail = "Task not found" ∧ dict_get task_id (jobs s) = None) ∨
       (status_code = 400 ∧ detail = "Task is not active" ∧
        ∃ j, dict_get task_id (jobs s) = Some j ∧ is_active j = false))
  | (Propagated e, s') =>
      s' = s ∧ ∃ j, dict_get task_id (jobs s) = Some j ∧ is_active j = true
  | (Returned body, s') =>
      body = (task_id, reason) ∧
      ∃ j', dict_get task_id (jobs s') = Some j' ∧ job_status j' = CANCELLED
  end.
Proof.
  unfold cancel_task.
  destruct (dict_get task_id (jobs s)) as [job|] eqn:Ej; [|split; [done|by left]].
  destruct (is_active job) eqn:Ea; cbn [negb]; [|split; [done|right; eauto]].
  rewrite cancel_job_eq, Ej, Ea. mred.
  destruct (cancel_notify_run task_id job s) as [[e He]|Hsent].
  - rewrite He. eauto.
  - destruct (Hsent reason) as [tr Htr]. rewrite Htr.
    destruct (cancel_finish_run task_id reason job job (set_trace (λ t, t ++ tr) s))
      as (s' & j' & Hrun & Hget & Hst); [exact Ej|].
    rewrite Hrun. cbn [negb]. eauto.
Qed.


Lemma respond_loop_effect js frame ty payload s :
  json_serializable frame = true →
  match first_connected js (connections s) with
  | None => respond_loop js frame ty payload s = (Ok false, s)
  | Some (k, a) =>
      match heap s !! a with
      | None => ∃ e, respond_loop js frame ty payload s = (Raise e, s)
      | Some c =>
          if decide (websocket c ∈ closed s)
          then ∃ e, respond_loop js frame ty payload s = (Raise e, s)
          else
            respond_loop js frame ty payload s
              = (Ok true,
                 broadcast_state k (mkEvent ty k (clock s) payload)
                   (log (Sent (websocket c) frame) s))
      end
  end.
Proof.
  intros Hf. rewrite respond_loop_run.
  destruct (first_connected js (connections s)) as [[k a]|]; [|done].
  cbn [bind]. rewrite send_run, Hf.
  destruct (heap s !! a) as [c|]; [|eauto].
  destruct (decide (websocket c ∈ closed s)); [eauto|].
  mred. by rewrite _broadcast_event_run.
Qed.

(** X15: [submit_approval_response] and [submit_context_response] take
    the first stored job whose worker is registered, whatever the
    request id.  Without such a job they return [False] and change
    nothing; with one, the response frame is written to that worker's
    socket and [True] is returned, or the send failure is raised with
    nothing changed; jobs, connection objects and reverse index are never
    modified. *)
Theorem submit_response_first_connected (request_id response : string) (approved : bool)
    (reason : option string) (attachments : list string) (s : Bridge) :
  let approval := submit_approval_response request_id approved reason in
  let context := submit_context_response request_id response attachments in
  match first_connected (jobs s) (connections s) with
  | None => approval s = (Ok false, s) ∧ context s = (Ok false, s)
  | Some (k, a) =>
      ∀ c, heap s !! a = Some c →
        if decide (websocket c ∈ closed s)
        then (∃ e, approval s = (Raise e, s)) ∧ (∃ e, context s = (Raise e, s))
        else
          outcome approval s = Ok true ∧ outcome context s = Ok true ∧
          (∃ events, trace (run approval s)
             = trace s ++ Sent (websocket c) (FApprovalResponse request_id approved reason)
                 :: events) ∧
          (∃ events, trace (run context s)
             = trace s ++ Sent (websocket c) (FContextResponse request_id response attachments)
                 :: events) ∧
          (jobs (run approval s), heap (run approval s), instance_tasks (run approval s))
            = (jobs s, heap s, instance_tasks s) ∧
          (jobs (run context s), heap (run context s), instance_tasks (run context s))
            = (jobs s, heap s, instance_tasks s)
  end.
Proof.
  cbn zeta. unfold submit_approval_response, submit_context_response. mred.
  pose proof (respond_loop_effect (jobs s)
    (FApprovalResponse request_id approved reason)
    (if approved then APPROVAL_GRANTED else APPROVAL_DENIED)
    [("request_id", VStr request_id); ("approved", VBool approved);
     ("reason", VOptStr reason)] s eq_refl) as Ha.
  pose proof (respond_loop_effect (jobs s)
    (FContextResponse request_id response attachments) CONTEXT_PROVIDED
    [("request_id", VStr request_id); ("response", VStr response);
     ("attachments", VStrs attachments)] s eq_refl) as Hc.
  destruct (first_connected (jobs s) (connections s)) as [[k a]|]; [|done].
  intros c Hh. rewrite Hh in Ha, Hc.
  destruct (decide (websocket c ∈ closed s)); [done|].
  rewrite Ha, Hc. mred.
  split; [done|]. split; [done|].
  split.
  { match goal with |- context [broadcast_state ?j ?e ?st] =>
      destruct (broadcast_state_trace j e st) as [events Htr] end.
    mred_in Htr. exists events. rewrite Htr, <- app_assoc. done. }
  split.
  { match goal with |- context [broadcast_state ?j ?e ?st] =>
      destruct (broadcast_state_trace j e st) as [events Htr] end.
    mred_in Htr. exists events. rewrite Htr, <- app_assoc. done. }
  split.
  - match goal with |- context [broadcast_state ?j ?e ?st] =>
      destruct (broadcast_state_frame j e st) as (H1 & _ & H3 & _ & H5 & _) end.
    mred_in H1. mred_in H3. mred_in H5. by rewrite H1, H3, H5.
  - match goal with |- context [broadcast_state ?j ?e ?st] =>
      destruct (broadcast_state_frame j e st) as (H1 & _ & H3 & _ & H5 & _) end.
    mred_in H1. mred_in H3. mred_in H5. by rewrite H1, H3, H5.
Qed.

(** X23: the routes [approve_action] and [provide_context] use the task
    id only for the 404 check: an unknown task gives 404 and no change;
    for a stored task, when no stored job has a registered worker they
    answer 500 with no change, and in every case the answer and the
    effect are the same for any two stored task ids. *)
Theorem approve_action_ignores_task (task_id request_id response : string) (approved : bool)
    (reason : option string) (attachments : option (list string)) (s : Bridge) :
  (dict_get task_id (jobs s) = None →
     approve_action task_id request_id approved reason s
       = (HTTPException 404 "Task not found", s) ∧
     provide_context task_id request_id response attachments s
       = (HTTPException 404 "Task not found", s)) ∧
  (is_Some (dict_get task_id (jobs s)) →
     first_connected (jobs s) (connections s) = None →
     approve_action task_id request_id approved reason s
       = (HTTPException 500 "Failed to submit approval response", s) ∧
     provide_context task_id request_id response attachments s
       = (HTTPException 500 "Failed to submit context response", s)) ∧
  (∀ task_id', is_Some (dict_get task_id (jobs s)) → is_Some (dict_get task_id' (jobs s)) →
     approve_action task_id request_id approved reason s
       = approve_action task_id' request_id approved reason s ∧
     provide_context task_id request_id response attachments s
       = provide_context task_id' request_id response attachments s).
Proof.
  unfold approve_action, provide_context.
  split; [intros ->; done|]. split.
  - intros [j ->] Hnone.
    unfold submit_approval_response, submit_context_response. mred.
    rewrite !respond_loop_run, Hnone. done.
  - intros task_id' [j ->] [j' ->]. done.
Qed.


Lemma registered_register ty cb d :
  registered ty (register_callback ty cb d) = registered ty d ++ [cb].
Proof.
  unfold registered. induction d as [|[ty' l] d IH]; cbn.
  - by rewrite decide_True.
  - destruct (decide (ty' = ty)) as [->|Hne]; cbn.
    + by rewrite !decide_True.
    + rewrite !decide_False by done.
      destruct (list_find _ (register_callback ty cb d)) as [[m1 [t l1]]|];
        destruct (list_find _ d) as [[m2 [t' l2]]|]; cbn in *; done.
Qed.

Lemma registered_register_ne ty ty' cb d :
  ty' ≠ ty → registered ty' (register_callback ty cb d) = registered ty' d.
Proof.
  intros Hne. unfold registered. induction d as [|[ty0 l] d IH]; cbn.
  - by rewrite decide_False by congruence.
  - destruct (decide (ty0 = ty)) as [->|Hne0]; cbn.
    + by rewrite !decide_False by congruence.
    + destruct (decide (ty0 = ty')); [done|].
      destruct (list_find _ (register_callback ty cb d)) as [[m1 [t l1]]|];
        destruct (list_find _ d) as [[m2 [t' l2]]|]; cbn in *; done.
Qed.

Lemma _handle_vm_event_run a event s :
  _handle_vm_event a event s
    = (Ok tt,
       set_trace (λ t, t ++ map Called (registered (ev_type event) (event_callbacks s)))
         (add_task (PersistEvent event) (broadcast_state (ev_job_id event) event s))).
Proof.
  unfold _handle_vm_event, registered. mred. rewrite _broadcast_event_run. mred.
  assert (Hcb : event_callbacks (broadcast_state (ev_job_id event) event s) = event_callbacks s).
  { unfold broadcast_state. destruct (event_subscribers s !! ev_job_id event); [|done].
    by destruct s. }
  rewrite Hcb.
  destruct (list_find _ (event_callbacks s)) as [[n [t l]]|].
  - by rewrite call_all_run.
  - mred. cbn [map]. symmetry. f_equal.
    match goal with |- _ = ?st => exact (set_trace_nil st) end.
Qed.

Lemma broadcast_state_callbacks f job event s :
  broadcast_state job event (set_event_callbacks f s)
    = set_event_callbacks f (broadcast_state job event s).
Proof.
  unfold broadcast_state. destruct s as [h cs js qs m its ec ac cc now cl tr ts]. cbn.
  by destruct (m !! job).
Qed.

(** X17: after [on_event ty callback], handling an event of type [ty]
    does what it did before and then calls [callback] last; events of
    another type are handled as before.  [_handle_vm_event] never raises
    and schedules the persisting of the event. *)
Theorem on_event_adds_last_call (ty : EventType) (callback : nat) (a : Addr) (event : Event)
    (s : Bridge) :
  let s1 := run (on_event ty callback) s in
  outcome (on_event ty callback) s = Ok tt ∧
  outcome (_handle_vm_event a event) s1 = Ok tt ∧
  trace (run (_handle_vm_event a event) s1)
    = trace (run (_handle_vm_event a event) s)
        ++ (if decide (ev_type event = ty) then [Called callback] else []) ∧
  tasks (run (_handle_vm_event a event) s1) = tasks s ++ [PersistEvent event].
Proof.
  cbn zeta. unfold on_event. mred. rewrite !_handle_vm_event_run. mred.
  split; [done|]. split; [done|].
  change (mkBridge (heap s) (connections s) (jobs s) (job_queues s) (event_subscribers s)
            (instance_tasks s) (register_callback ty callback (event_callbacks s))
            (approval_callbacks s) (context_callbacks s) (clock s) (closed s) (trace s) (tasks s))
    with (set_event_callbacks (register_callback ty callback) s).
  rewrite broadcast_state_callbacks. cbn [set_event_callbacks]. mred.
  destruct (broadcast_state_frame (ev_job_id event) event s) as (_ & _ & _ & _ & _ & _ & _ & H8).
  rewrite H8. split; [|done].
  destruct (decide (ev_type event = ty)) as [->|Hne].
  - rewrite registered_register, map_app, app_assoc. done.
  - rewrite registered_register_ne by done. by rewrite app_nil_r.
Qed.



(** X18: an event frame carries [event.dict()], whose [timestamp] is a
    [datetime] that [send_json] cannot encode, so in a broadcast every
    send raises and is caught.  A broadcast right after
    [subscribe_to_job] therefore returns normally, writes nothing, and
    discards every subscriber of the job, the new one included, open
    socket or not: the job keeps its key with an empty set, and the
    subscribers of other jobs are as before.  A broadcast right after
    [unsubscribe_from_job] writes nothing either. *)
Theorem broadcast_drops_subscribers (job : string) (ws : WebSocket) (event : Event)
    (s : Bridge) :
  let s1 := run (subscribe_to_job job ws) s in
  let s' := run (_broadcast_event job event) s1 in
  (∀ ws', send_fails s1 ws' (FEvent event)) ∧
  ws ∈ default ∅ (event_subscribers s1 !! job) ∧
  outcome (_broadcast_event job event) s1 = Ok tt ∧
  trace s' = trace s ∧
  event_subscribers s' !! job = Some ∅ ∧
  (∀ job', job' ≠ job → event_subscribers s' !! job' = event_subscribers s !! job') ∧
  trace (run (_broadcast_event job event) (run (unsubscribe_from_job job ws) s)) = trace s.
Proof.
  cbn zeta. unfold run, outcome.
  rewrite subscribe_to_job_run, unsubscribe_from_job_run. cbn [snd].
  rewrite !_broadcast_event_run. cbn [fst snd]. rewrite !broadcast_state_silent. mred.
  split. { intros ws'. apply send_fails_iff. by left. }
  split. { unfold subscribed. rewrite lookup_insert_eq. cbn [default from_option id]. set_solver. }
  split; [done|]. split; [done|].
  assert (Hsub : is_Some (subscribed (event_subscribers s) job ws !! job)).
  { unfold subscribed. rewrite lookup_insert_eq. eauto. }
  destruct Hsub as [wss Hwss].
  unfold broadcast_state. mred. rewrite Hwss. mred.
  split; [apply lookup_insert_eq|]. split; [|done].
  intros job' Hne. rewrite lookup_insert_ne by done.
  unfold subscribed. by rewrite lookup_insert_ne.
Qed.


Lemma Forall_dict_alter {V} (P : string * V → Prop) (f : V → V) k d :
  (∀ v, P (k, v) → P (k, f v)) → Forall P d → Forall P (dict_alter f k d).
Proof.
  intros Hf. induction 1 as [|[k' v] d Hx Hd IH]; [constructor|].
  cbn [dict_alter]. destruct (String.eqb_spec k k') as [->|Hne]; constructor; auto.
Qed.

Lemma Forall_dict_set {V} (P : string * V → Prop) k v d :
  P (k, v) → Forall P d → Forall P (dict_set k v d).
Proof.
  intros Hv. induction 1 as [|[k' v'] d Hx Hd IH]; [by repeat constructor|].
  cbn [dict_set]. destruct (String.eqb_spec k k') as [->|Hne]; constructor; auto.
Qed.

Lemma dict_alter_alter {V} (f g : V → V) k d :
  dict_alter f k (dict_alter g k d) = dict_alter (f ∘ g) k d.
Proof.
  induction d as [|[k' v] d IH]; [done|]. cbn [dict_alter].
  destruct (String.eqb k k') eqn:E; cbn [dict_alter]; rewrite E; [done|by rewrite IH].
Qed.

Ltac job_wf_pointwise :=
  let j := fresh "j" in
  try (intros j); try destruct j;
  unfold job_wf, compose, is_active;
  cbn [fst snd job_id job_status job_completed_at job_started_at bridge_status
       with_status with_vm_id with_result with_artifacts with_error_message
       with_error_code with_started_at with_completed_at];
  intuition (try discriminate; eauto).

Ltac jobs_ok :=
  unfold jobs_wf in *; rewrite ?broadcast_state_jobs; mred;
  repeat rewrite dict_alter_alter; rewrite ?dict_alter_set;
  first
    [ assumption
    | apply Forall_dict_alter; [job_wf_pointwise | assumption]
    | apply Forall_dict_set; [job_wf_pointwise | assumption] ].

Ltac run_jobs :=
  repeat first
    [ progress mred
    | rewrite _broadcast_event_run
    | rewrite call_all_run
    | rewrite send_run
    | rewrite broadcast_state_jobs
    | destruct_scrutinee ].

Lemma jobs_wf_disconnect inst s : jobs_wf s → jobs_wf (run (disconnect_vm inst) s).
Proof.
  intros H. unfold disconnect_vm, deref, the_job, ws_close. run_jobs; jobs_ok.
Qed.

Lemma jobs_wf_for_each_disconnect l s :
  jobs_wf s → jobs_wf (run (for_each l disconnect_vm) s).
Proof.
  revert s. induction l as [|i l IH]; intros s H; [done|].
  cbn [for_each]. mred.
  pose proof (jobs_wf_disconnect i s H) as H1. unfold run in H1.
  destruct (disconnect_vm i s) as [[[]|e] s1]; cbn [snd] in *; [|done].
  by apply IH.
Qed.

Lemma respond_loop_jobs js frame ty payload s :
  jobs (run (respond_loop js frame ty payload) s) = jobs s.
Proof.
  induction js as [|[k job] rest IH]; [done|].
  cbn [respond_loop]. unfold run in *. run_jobs; try done; exact IH.
Qed.

Lemma jobs_wf_process a message s :
  jobs_wf s → jobs_wf (run (_process_vm_message a message) s).
Proof.
  intros H.
  destruct message;
    unfold _process_vm_message, _handle_vm_event, _handle_task_complete,
      _handle_task_failed, _handle_approval_request, _handle_context_request,
      the_job, deref;
    run_jobs; jobs_ok.
Qed.

Lemma jobs_wf_ext s s' : jobs s' = jobs s → jobs_wf s → jobs_wf s'.
Proof. unfold jobs_wf. by intros ->. Qed.

Lemma reachable_jobs_wf s : reachable s → jobs_wf s.
Proof.
  induction 1 as [now|c s Hs IH]; [constructor|].
  destruct c; cbn [perform].
  - unfold ws_accept. mred. by destruct (accepted ws s || bool_decide (ws ∈ closed s)).
  - unfold connect_vm, ws_accept. mred.
    destruct (accepted ws s || bool_decide (ws ∈ closed s)); mred; [done|].
    destruct (dict_in inst (connections s)); mred.
    + match goal with |- context [disconnect_vm inst ?st] =>
        pose proof (jobs_wf_disconnect inst st IH) as H1 end.
      unfold run in H1.
      destruct (disconnect_vm inst _) as [[[]|e] s1]; cbn [snd] in *; [|done].
      unfold alloc. run_jobs; jobs_ok.
    + unfold alloc. run_jobs; jobs_ok.
  - by apply jobs_wf_disconnect.
  - unfold _handle_vm_messages. destruct received as [message|].
    + mred. pose proof (jobs_wf_process conn message s IH) as Hc.
      unfold run in Hc.
      destruct (_process_vm_message conn message s) as [[[]|e] s1]; cbn [snd] in *; [done|].
      unfold deref. mred. destruct (heap s1 !! conn); mred; [|done].
      by apply jobs_wf_disconnect.
    + unfold deref. mred. destruct (heap s !! conn); mred; [|done].
      by apply jobs_wf_disconnect.
  - unfold submit_job, _find_available_instance, the_job. run_jobs; jobs_ok.
  - unfold _try_start_job. run_jobs; jobs_ok.
  - unfold cancel_job, the_job. run_jobs; jobs_ok.
  - unfold run. by rewrite subscribe_to_job_run.
  - unfold run. by rewrite unsubscribe_from_job_run.
  - unfold submit_approval_response. mred.
    eapply jobs_wf_ext; [|exact IH]. apply respond_loop_jobs.
  - unfold submit_context_response. mred.
    eapply jobs_wf_ext; [|exact IH]. apply respond_loop_jobs.
  - unfold ping, deref, send_json. run_jobs; jobs_ok.
  - unfold cleanup_round. mred.
    match goal with |- context [for_each ?l disconnect_vm s] =>
      pose proof (jobs_wf_for_each_disconnect l s IH) as Hc end.
    unfold run in Hc.
    destruct (for_each _ disconnect_vm s) as [[[]|e] s1]; done.
  - unfold stop. mred.
    destruct (close_all_spec (connections s) s) as (s1 & Hrun & _ & _ & Hj & _).
    unfold close_all in Hrun. rewrite Hrun. mred. eapply jobs_wf_ext; [|exact IH]. done.
  - done.
  - done.
Qed.


(** X14: [cancel_job] on an active job whose worker is registered.  If
    the [task_cancel] frame cannot be sent the call raises and nothing
    changes, the job stays active.  Otherwise it returns [True], the
    frame is the first thing written, the job is [cancelled] with
    [completed_at] the current time, the other jobs are as before, the
    worker is out of the reverse index, and its connection is released
    exactly when the reverse index had an entry for it. *)
Theorem cancel_job_releases_worker (k reason vm : string) (job : Job) (a : Addr)
    (c : VMConnection) (s : Bridge) :
  dict_get k (jobs s) = Some job →
  is_active job = true →
  assigned_vm job = Some vm →
  dict_get vm (connections s) = Some a →
  heap s !! a = Some c →
  let s' := run (cancel_job k reason) s in
  (websocket c ∈ closed s →
     cancel_job k reason s = (Raise (Exception "send on a closed socket"), s)) ∧
  (websocket c ∉ closed s →
     outcome (cancel_job k reason) s = Ok true ∧
     dict_get k (jobs s') = Some (cancelled_at (clock s) job) ∧
     (∀ k', k' ≠ k → dict_get k' (jobs s') = dict_get k' (jobs s)) ∧
     (∃ events, trace s'
        = trace s ++ Sent (websocket c) (FTaskCancel k reason) :: events) ∧
     instance_tasks s' = delete vm (instance_tasks s) ∧
     heap s' !! a = Some (if bool_decide (is_Some (instance_tasks s !! vm))
                          then released c else c)).
Proof.
  intros Hj Hact Hvm Ha Hh. cbn zeta. unfold cancel_job. mred. rewrite Hj, Hact.
  cbn [negb]. unfold assigned_vm in Hvm. rewrite Hvm. mred. rewrite Ha, send_run, Hh.
  destruct (decide (websocket c ∈ closed s)) as [Hin|Hout]; [split; done|].
  split; [done|]. intros _. mred.
  assert (Hget : dict_get k (dict_alter (with_completed_at (Some (clock s))) k
                   (dict_alter (with_status CANCELLED) k (jobs s)))
                 = Some (cancelled_at (clock s) job)).
  { by rewrite !dict_get_alter_eq, Hj. }
  destruct (instance_tasks s !! vm) as [t|] eqn:Eit;
    [rewrite bool_decide_eq_true_2 by eauto
    |rewrite bool_decide_eq_false_2 by (intros [? ?]; discriminate)]; mred.
  all: rewrite ?Ha; mred.
  all: unfold the_job; mred; rewrite Hget; mred; rewrite _broadcast_event_run; mred.
  all: match goal with |- context [broadcast_state ?jb ?e ?st] =>
    destruct (broadcast_state_frame jb e st) as (H1 & H2 & H3 & H4 & H5 & _);
    destruct (broadcast_state_trace jb e st) as [events Htr] end.
  all: mred_in H1; mred_in H3; mred_in H5; mred_in Htr.
  all: rewrite H1, H3, H5, Htr; split; [done|]; split; [exact Hget|].
  all: split; [intros k' Hne; by rewrite !dict_get_alter_ne|].
  all: split; [exists events; by rewrite <- app_assoc|].
  - split; [done|]. by rewrite !lookup_alter_eq, Hh.
  - split; [by rewrite delete_id|done].
Qed.

(** X19: in every state the bridge can reach, a stored job is filed
    under its own id, its status is one of [queued], [running],
    [completed], [failed], [cancelled] (the bridge never leaves a job
    [pending], [vm_booting], [paused] or [timeout]), it has a
    [completed_at] as soon as it is no longer active, and a [started_at]
    while it runs. *)
Theorem reachable_jobs_wellformed (s : Bridge) (k : string) (j : Job) :
  reachable s →
  dict_get k (jobs s) = Some j →
  job_id j = k ∧
  bridge_status (job_status j) = true ∧
  (is_active j = false → is_Some (job_completed_at j)) ∧
  (job_status j = RUNNING → is_Some (job_started_at j)).
Proof.
  intros Hs Hj. pose proof (reachable_jobs_wf s Hs) as Hwf.
  unfold jobs_wf in Hwf. rewrite Forall_forall in Hwf.
  exact (Hwf (k, j) (dict_get_elem_of _ _ _ Hj)).
Qed.


Lemma is_Some_dict_get_alter {V} (f : V → V) k k0 d :
  is_Some (dict_get k0 (dict_alter f k d)) ↔ is_Some (dict_get k0 d).
Proof.
  destruct (decide (k = k0)) as [->|Hne].
  - rewrite dict_get_alter_eq. destruct (dict_get k0 d); cbn; split; intros [? ?]; eauto; done.
  - by rewrite dict_get_alter_ne.
Qed.

Lemma is_Some_dict_get_set {V} k (v : V) k0 d :
  is_Some (dict_get k0 d) → is_Some (dict_get k0 (dict_set k v d)).
Proof.
  destruct (decide (k = k0)) as [->|Hne].
  - rewrite dict_get_set_eq. eauto.
  - by rewrite dict_get_set_ne.
Qed.

Lemma broadcast_state_instance_tasks job event s :
  instance_tasks (broadcast_state job event s) = instance_tasks s.
Proof. apply broadcast_state_frame. Qed.

Lemma index_wf_ext s s' :
  jobs s' = jobs s → instance_tasks s' = instance_tasks s → index_wf s → index_wf s'.
Proof. unfold index_wf. by intros -> ->. Qed.

Ltac index_ok :=
  lazymatch goal with
  | H : index_wf _ |- index_wf ?st =>
      let i := fresh "i" in
      let k0 := fresh "k0" in
      let Hl := fresh "Hl" in
      unfold index_wf in H |- *;
      rewrite ?broadcast_state_jobs, ?broadcast_state_instance_tasks; mred;
      intros i k0 Hl;
      try (apply lookup_delete_Some in Hl as [_ Hl]);
      try (apply lookup_insert_Some in Hl as [[_ <-]|[_ Hl]]);
      rewrite ?is_Some_dict_get_alter;
      try (apply is_Some_dict_get_set; rewrite ?is_Some_dict_get_alter);
      eauto
  end.

Ltac run_index :=
  repeat first
    [ progress mred
    | rewrite _broadcast_event_run
    | rewrite call_all_run
    | rewrite send_run
    | destruct_scrutinee ].

Lemma index_wf_disconnect inst s : index_wf s → index_wf (run (disconnect_vm inst) s).
Proof.
  intros H. unfold disconnect_vm, deref, the_job, ws_close. run_index; index_ok.
Qed.

Lemma index_wf_for_each_disconnect l s :
  index_wf s → index_wf (run (for_each l disconnect_vm) s).
Proof.
  revert s. induction l as [|i l IH]; intros s H; [done|].
  cbn [for_each]. mred.
  pose proof (index_wf_disconnect i s H) as H1. unfold run in H1.
  destruct (disconnect_vm i s) as [[[]|e] s1]; cbn [snd] in *; [|done].
  by apply IH.
Qed.

Lemma respond_loop_instance_tasks js frame ty payload s :
  instance_tasks (run (respond_loop js frame ty payload) s) = instance_tasks s.
Proof.
  induction js as [|[k job] rest IH]; [done|].
  cbn [respond_loop]. unfold run in *.
  run_index; rewrite ?broadcast_state_instance_tasks; try done; exact IH.
Qed.

Lemma index_wf_process a message s :
  index_wf s → index_wf (run (_process_vm_message a message) s).
Proof.
  intros H.
  destruct message;
    unfold _process_vm_message, _handle_vm_event, _handle_task_complete,
      _handle_task_failed, _handle_approval_request, _handle_context_request,
      the_job, deref;
    run_index; index_ok.
Qed.

Lemma reachable_index_wf s : reachable s → index_wf s.
Proof.
  induction 1 as [now|c s Hs IH]; [by intros i k Hl|].
  destruct c; cbn [perform].
  - unfold ws_accept. mred. by destruct (accepted ws s || bool_decide (ws ∈ closed s)).
  - unfold connect_vm, ws_accept. mred.
    destruct (accepted ws s || bool_decide (ws ∈ closed s)); mred; [done|].
    destruct (dict_in inst (connections s)); mred.
    + match goal with |- context [disconnect_vm inst ?st] =>
        assert (H0 : index_wf st) by (eapply index_wf_ext; [| |exact IH]; done);
        pose proof (index_wf_disconnect inst st H0) as H1 end.
      unfold run in H1. clear IH.
      destruct (disconnect_vm inst _) as [[[]|e] s1]; cbn [snd] in *; [|done].
      unfold alloc. run_index; index_ok.
    + unfold alloc. run_index; index_ok.
  - by apply index_wf_disconnect.
  - unfold _handle_vm_messages. destruct received as [message|].
    + mred. pose proof (index_wf_process conn message s IH) as Hc.
      unfold run in Hc.
      destruct (_process_vm_message conn message s) as [[[]|e] s1]; cbn [snd] in *; [done|].
      unfold deref. mred. destruct (heap s1 !! conn); mred; [|done].
      by apply index_wf_disconnect.
    + unfold deref. mred. destruct (heap s !! conn); mred; [|done].
      by apply index_wf_disconnect.
  - unfold submit_job, _find_available_instance, the_job. run_index; index_ok.
  - unfold _try_start_job. run_index; index_ok.
  - unfold cancel_job, the_job. run_index; index_ok.
  - unfold run. by rewrite subscribe_to_job_run.
  - unfold run. by rewrite unsubscribe_from_job_run.
  - unfold submit_approval_response. mred.
    eapply index_wf_ext; [| |exact IH];
      [apply respond_loop_jobs|apply respond_loop_instance_tasks].
  - unfold submit_context_response. mred.
    eapply index_wf_ext; [| |exact IH];
      [apply respond_loop_jobs|apply respond_loop_instance_tasks].
  - unfold ping, deref, send_json. run_index; index_ok.
  - unfold cleanup_round. mred.
    match goal with |- context [for_each ?l disconnect_vm s] =>
      pose proof (index_wf_for_each_disconnect l s IH) as Hc end.
    unfold run in Hc.
    destruct (for_each _ disconnect_vm s) as [[[]|e] s1]; done.
  - unfold stop. mred.
    destruct (close_all_spec (connections s) s) as (s1 & Hrun & _ & _ & Hj & Hi & _).
    unfold close_all in Hrun. rewrite Hrun. mred. eapply index_wf_ext; [| |exact IH]; done.
  - done.
  - done.
Qed.


(** X20: in every state the bridge can reach, the task the reverse
    index [instance_tasks] records for a worker is a stored job. *)
Theorem reachable_index_names_job (s : Bridge) (i k : string) :
  reachable s →
  instance_tasks s !! i = Some k →
  ∃ j, dict_get k (jobs s) = Some j ∧ job_id j = k ∧ bridge_status (job_status j) = true.
Proof.
  intros Hs Hi. destruct (reachable_index_wf s Hs i k Hi) as [j Hj].
  pose proof (reachable_jobs_wf s Hs) as Hwf.
  unfold jobs_wf in Hwf. rewrite Forall_forall in Hwf.
  destruct (Hwf (k, j) (dict_get_elem_of _ _ _ Hj)) as (H1 & H2 & _).
  eauto.
Qed.

Lemma later_bridge_reachable : reachable later_bridge.
Proof. exact (reachable_call (CTick 90000000) _ running_bridge_reachable). Qed.

Lemma running_bridge_open : 7%nat ∉ closed running_bridge.
Proof. vm_compute. intros H. discriminate H. Qed.

Lemma disconnect_vm_idempotent_witness :
  disconnect_vm "w2" running_bridge = (Ok tt, running_bridge).
Proof.
  apply (proj2 (disconnect_vm_idempotent "w2" running_bridge)). vm_compute. reflexivity.
Defined.

Lemma disconnect_vm_leaves_others_witness :
  outcome (disconnect_vm "w1") running_bridge = Ok tt ∧
  7%nat ∈ closed (run (disconnect_vm "w1") running_bridge) ∧
  heap (run (disconnect_vm "w1") running_bridge) = heap running_bridge.
Proof.
  destruct (disconnect_vm_leaves_others "w1" running_bridge 0%nat w1_connection)
    as (H1 & H2 & H3 & _).
  - vm_compute. reflexivity.
  - vm_compute. reflexivity.
  - split; [exact H1|]. split; [exact H3|exact H2].
Defined.

Lemma cleanup_round_keeps_alive_witness :
  outcome cleanup_round later_bridge = Ok tt ∧
  connections (run cleanup_round later_bridge) = [].
Proof.
  destruct (cleanup_round_keeps_alive later_bridge) as (H1 & H2 & _).
  - exact (reachable_registry_sound _ later_bridge_reachable).
  - exact (reachable_NoDup _ later_bridge_reachable).
  - split; [exact H1|]. rewrite H2. vm_compute. reflexivity.
Defined.

Lemma ping_marks_offline_witness :
  heap (run (ping 0%nat) dropped_bridge) !! 0%nat
    = Some (with_conn_status "offline" w1_connection).
Proof.
  destruct (ping_marks_offline 0%nat w1_connection dropped_bridge) as (_ & _ & H).
  - vm_compute. reflexivity.
  - apply H. apply elem_of_union_l, elem_of_singleton. reflexivity.
Defined.

Lemma submit_job_preferred_unchecked_witness :
  outcome (submit_job job1 (Some "ghost")) (empty_bridge 0) = Ok "j1" ∧
  dict_get "ghost" (connections (empty_bridge 0)) = None.
Proof.
  destruct (submit_job_preferred_unchecked job1 "ghost" (empty_bridge 0)) as (H & _).
  - discriminate.
  - split; [exact H|reflexivity].
Defined.

Lemma submit_job_first_idle_witness :
  dict_get "j1" (jobs (run (submit_job job1 None) connected_bridge)) = Some job1_queued.
Proof.
  destruct (submit_job_first_idle job1 None connected_bridge [] [] "w1" 0%nat)
    as (_ & H & _).
  - reflexivity.
  - vm_compute. reflexivity.
  - constructor.
  - vm_compute. reflexivity.
  - discriminate.
  - exact H.
Defined.


Lemma task_complete_releases_worker_witness :
  heap (run (_handle_task_complete 0%nat (Some "j1")
               (Some (mkResultDict (Some "done") (Some [])))) running_bridge) !! 0%nat
    = Some (released w1_connection).
Proof.
  destruct (task_complete_releases_worker 0%nat w1_connection "j1" job1_running
              (mkResultDict (Some "done") (Some [])) running_bridge) as (_ & _ & _ & H & _).
  - vm_compute. reflexivity.
  - vm_compute. reflexivity.
  - exact H.
Defined.

Lemma task_failed_releases_worker_witness :
  heap (run (_handle_task_failed 0%nat (Some "j1")
               (Some (mkErrorDict (Some "boom") (Some "E1")))) running_bridge) !! 0%nat
    = Some (released w1_connection).
Proof.
  destruct (task_failed_releases_worker 0%nat w1_connection "j1" job1_running
              (mkErrorDict (Some "boom") (Some "E1")) running_bridge) as (_ & _ & _ & H & _).
  - vm_compute. reflexivity.
  - vm_compute. reflexivity.
  - exact H.
Defined.

Lemma unknown_task_frame_ignored_witness :
  _process_vm_message 0%nat (MsgTaskComplete (Some "j9") None) running_bridge
    = (Ok tt, running_bridge).
Proof.
  apply (unknown_task_frame_ignored 0%nat (Some "j9") None None running_bridge).
  intros k [= <-]. vm_compute. reflexivity.
Defined.

Lemma failing_frame_disconnects_witness :
  outcome (_handle_vm_messages 0%nat (Some no_result_frame)) running_bridge = Ok tt ∧
  dict_get "w1" (connections (run (_handle_vm_messages 0%nat (Some no_result_frame))
                                running_bridge)) = None.
Proof.
  apply (failing_frame_disconnects 0%nat w1_connection no_result_frame
           (Exception "AttributeError") running_bridge).
  - exact (reachable_registry_sound _ running_bridge_reachable).
  - vm_compute. reflexivity.
  - vm_compute. reflexivity.
Defined.

Lemma cancel_job_releases_worker_witness :
  outcome (cancel_job "j1" "user") running_bridge = Ok true ∧
  dict_get "j1" (jobs (run (cancel_job "j1" "user") running_bridge))
    = Some (cancelled_at 1000 job1_running).
Proof.
  destruct (cancel_job_releases_worker "j1" "user" "w1" job1_running 0%nat w1_connection
              running_bridge) as (_ & H).
  - vm_compute. reflexivity.
  - reflexivity.
  - reflexivity.
  - vm_compute. reflexivity.
  - vm_compute. reflexivity.
  - destruct (H running_bridge_open) as (H1 & H2 & _). split; [exact H1|exact H2].
Defined.

Lemma reachable_jobs_wellformed_witness :
  job_id job1_running = "j1" ∧
  bridge_status (job_status job1_running) = true ∧
  (is_active job1_running = false → is_Some (job_completed_at job1_running)) ∧
  (job_status job1_running = RUNNING → is_Some (job_started_at job1_running)).
Proof.
  apply (reachable_jobs_wellformed running_bridge "j1" job1_running).
  - exact running_bridge_reachable.
  - vm_compute. reflexivity.
Defined.

Lemma reachable_index_names_job_witness :
  ∃ j, dict_get "j1" (jobs running_bridge) = Some j ∧ job_id j = "j1" ∧
       bridge_status (job_status j) = true.
Proof.
  apply (reachable_index_names_job running_bridge "w1" "j1").
  - exact running_bridge_reachable.
  - vm_compute. reflexivity.
Defined.

Lemma approve_action_ignores_task_witness :
  approve_action "j9" "r1" true None running_bridge
    = (HTTPException 404 "Task not found", running_bridge).
Proof.
  apply (proj1 (approve_action_ignores_task "j9" "r1" "yes" true None None running_bridge)).
  vm_compute. reflexivity.
Defined.

